(** * counterpartylib.lib.micropayments.validate

    A shallow embedding of the micropayment-channel validation module
    ([counterpartylib/lib/micropayments/validate.py]) together with the
    properties of its channel-state checker [is_state], of the transaction
    checkers [is_send_tx] / [is_commit_rawtx] and of the primitive check
    [is_hex].

    Python values are modelled by the type [pyval]; exceptions by [exn]; a
    function that may raise and that talks to its collaborators (the
    dispatcher, [micropayment_core.scripts], [micropayment_core.util]) lives
    in the monad [M], which records the sequence of collaborator calls next
    to the outcome.  The collaborators are parameters: records of functions
    that answer or raise.  [re] and [jsonschema] are modelled for the
    constructs the module uses.  A [str] is a [string], character by
    character; the patterns of the module accept ASCII characters only.

    The properties are stated for the [state_data] object of a typed
    [channel_state]; [is_state_decode] shows that every object that passes
    the schema is checked as such an object. *)

From Stdlib Require Import List String Ascii ZArith Bool Arith Lia.
Import ListNotations.
Open Scope string_scope.
Open Scope list_scope.
Set Warnings "-register-all".

(* ================================================================= *)
(** ** Python values *)

(** The JSON-like fragment of Python values that reaches the module.  A
    [dict] is an association list read by first match: the values are nested
    inside [pyval] and the schema check needs the key list. *)
Inductive pyval : Type :=
| PNone
| PBool (b : bool)
| PInt (z : Z)
| PStr (s : string)
| PList (l : list pyval)
| PDict (d : list (string * pyval)).

Definition pydict : Type := list (string * pyval).

Fixpoint dict_get (k : string) (d : pydict) : option pyval :=
  match d with
  | [] => None
  | (k', v) :: d' => if String.eqb k k' then Some v else dict_get k d'
  end.

Definition dict_has (k : string) (d : pydict) : bool :=
  match dict_get k d with Some _ => true | None => false end.

(** [a != b] where [a] is a [str]: only an equal [str] compares equal. *)
Definition str_ne (a : string) (b : pyval) : bool :=
  match b with
  | PStr s => negb (String.eqb a s)
  | _ => true
  end.

(* ================================================================= *)
(** ** Regular expressions, as Python's [re] reads them *)

Module Re.
#[local] Open Scope string_scope.

(** The constructs the two patterns of the module use: [^], [$], a bracket
    set of character ranges, concatenation and [*]. *)
Inductive regex : Type :=
| Bol
| Eol
| InSet (ranges : list (ascii * ascii))
| Cat (r1 r2 : regex)
| Star (r : regex).

Definition in_range (c : ascii) (rg : ascii * ascii) : bool :=
  Nat.leb (nat_of_ascii (fst rg)) (nat_of_ascii c)
  && Nat.leb (nat_of_ascii c) (nat_of_ascii (snd rg)).

Definition in_set (ranges : list (ascii * ascii)) (c : ascii) : bool :=
  existsb (in_range c) ranges.

Definition newline : ascii := ascii_of_nat 10.

(** Without [re.MULTILINE], [$] matches at the end of the subject and also
    just before a newline that is its last character. *)
Definition at_eol (rest : string) : bool :=
  match rest with
  | EmptyString => true
  | String c EmptyString => Ascii.eqb c newline
  | _ => false
  end.

(** The string ["\n"]. *)
Definition nl : string := String newline "".

Definition is_empty (s : string) : bool :=
  match s with EmptyString => true | _ => false end.

(** The iterations of [r*]: [step] matches one [r], [n] bounds the number of
    iterations left.  An iteration has to consume input, as in [re]. *)
Fixpoint star_iter (step : bool -> string -> (bool -> string -> bool) -> bool)
         (k : bool -> string -> bool) (n : nat) (b : bool) (s : string)
         {struct n} : bool :=
  match n with
  | O => k b s
  | S n' =>
      step b s
           (fun b' s' =>
              Nat.ltb (String.length s') (String.length s)
              && star_iter step k n' b' s')
      || k b s
  end.

(** Backtracking matcher in continuation-passing style.  [bos] tells whether
    the current position is the beginning of the subject; the continuation
    receives the flag and the unread suffix.  The length of the suffix bounds
    the iterations of a [*]. *)
Fixpoint run (r : regex) (bos : bool) (s : string)
         (k : bool -> string -> bool) {struct r} : bool :=
  match r with
  | Bol => bos && k bos s
  | Eol => at_eol s && k bos s
  | InSet rs =>
      match s with
      | String c s' => in_set rs c && k false s'
      | EmptyString => false
      end
  | Cat r1 r2 => run r1 bos s (fun b s' => run r2 b s' k)
  | Star r1 => star_iter (run r1) k (S (String.length s)) bos s
  end.

Definition accept (_ : bool) (_ : string) : bool := true.

(** [re.match(p, s)]: a match that starts at position 0. *)
Definition re_match (p : regex) (s : string) : bool := run p true s accept.

(** [re.search(p, s)]: a match that starts at any position. *)
Fixpoint search_from (p : regex) (bos : bool) (s : string) : bool :=
  run p bos s accept
  || match s with
     | String _ s' => search_from p false s'
     | EmptyString => false
     end.

Definition re_search (p : regex) (s : string) : bool := search_from p true s.

(** Declarative reading: [matches r bos w rest] says that [r] matches the
    word [w] when [rest] is what follows it in the subject and [bos] tells
    whether [w] starts at the beginning of the subject. *)
Inductive matches : regex -> bool -> string -> string -> Prop :=
| M_Bol rest : matches Bol true "" rest
| M_Eol b rest : at_eol rest = true -> matches Eol b "" rest
| M_Set rs b c rest :
    in_set rs c = true -> matches (InSet rs) b (String c "") rest
| M_Cat r1 r2 b w1 w2 rest :
    matches r1 b w1 (w2 ++ rest) ->
    matches r2 (b && is_empty w1) w2 rest ->
    matches (Cat r1 r2) b (w1 ++ w2) rest
| M_Star_nil r b rest : matches (Star r) b "" rest
| M_Star_cons r b w1 w2 rest :
    matches r b w1 (w2 ++ rest) ->
    matches (Star r) (b && is_empty w1) w2 rest ->
    matches (Star r) b (w1 ++ w2) rest.

(** A string is matched by [re.match] when some prefix of it is a word of
    the pattern at position 0. *)
Definition Matches (p : regex) (s : string) : Prop :=
  exists w rest, s = w ++ rest /\ matches p true w rest.

End Re.

Definition digit_range : ascii * ascii := ("0"%char, "9"%char).
Definition af_range : ascii * ascii := ("a"%char, "f"%char).

(** ["^[0-9a-f]*$"], the pattern of [is_hex]. *)
Definition HEX_RE : Re.regex :=
  Re.Cat Re.Bol (Re.Cat (Re.Star (Re.InSet [digit_range; af_range])) Re.Eol).

(** ["^[a-f0-9]*$"], the pattern of [_TYPE_HEX]. *)
Definition TYPE_HEX_RE : Re.regex :=
  Re.Cat Re.Bol (Re.Cat (Re.Star (Re.InSet [af_range; digit_range])) Re.Eol).

(* ================================================================= *)
(** ** Exceptions and outcomes *)

(** The exceptions the module can end with.  An [AssertionError] of the
    source carries no message; its argument here is the line of the [assert]
    statement in [validate.py], which is what the traceback shows.
    [Foreign] stands for whatever a collaborator raises. *)
Inductive exn : Type :=
| ValidationError
| AssertionError (line : nat)
| ValueError (msg : string)
| KeyError (key : string)
| TypeError
| InvalidString (x : pyval)
| InvalidHexData (x : string)
| AssetDoesNotExist (x : pyval)
| IncorrectPubKey (found expected : string)
| IncorrectSpendSecretHash (found expected : string)
| SourceMissmatch (expected found : string)
| DestinationMissmatch (expected found : string)
| AssetMissmatch (expected : string) (found : pyval)
| InvalidSignature (rawtx : string)
| Foreign (name : string).

Inductive result (A : Type) : Type :=
| Ok (a : A)
| Raise (e : exn).
Arguments Ok {A} a.
Arguments Raise {A} e.

(* ================================================================= *)
(** ** Collaborators *)

(** One entry of the dispatcher's [get_assets] answer; only [asset_name] is
    read. *)
Record asset_entry : Type := { asset_name : string }.

(** [(source, destination, btc_amount, fee, data)]; [data] is [None] or a
    hex string. *)
Definition tx_info : Type := (string * string * Z * Z * option string)%type.

(** The four operations looked up with [dispatcher.get(...)]. *)
Record Dispatcher : Type := {
  get_assets : result (list asset_entry);
  get_tx_info : string -> result tx_info;
  unpack : string -> result (Z * pydict);
  getrawtransaction : string -> result string
}.

(** The part of [micropayment_core.scripts] that is called. *)
Record Scripts : Type := {
  validate_deposit_script : string -> result unit;
  validate_commit_script : string -> result unit;
  get_deposit_payee_pubkey : string -> result string;
  get_deposit_payer_pubkey : string -> result string;
  get_deposit_spend_secret_hash : string -> result string;
  get_commit_payee_pubkey : string -> result string;
  get_commit_payer_pubkey : string -> result string;
  get_commit_spend_secret_hash : string -> result string;
  get_commit_revoke_secret_hash : string -> result string
}.

(** The part of [micropayment_core.util] that is called, with pycoin's
    transaction object [Tx] and its [bad_signature_count]. *)
Record Util : Type := {
  Tx : Type;
  script_address : string -> string -> result string;
  hash160hex : string -> result string;
  load_tx : (string -> result string) -> string -> result Tx;
  bad_signature_count : Tx -> Z
}.

(** A call made to a collaborator, with its arguments. *)
Inductive call : Type :=
| Call_get_assets
| Call_get_tx_info (rawtx : string)
| Call_unpack (data : string)
| Call_load_tx (rawtx : string)
| Call_script_address (script netcode : string)
| Call_hash160hex (secret : string)
| Call_validate_deposit_script (script : string)
| Call_validate_commit_script (script : string)
| Call_get_deposit_payee_pubkey (script : string)
| Call_get_deposit_payer_pubkey (script : string)
| Call_get_deposit_spend_secret_hash (script : string)
| Call_get_commit_payee_pubkey (script : string)
| Call_get_commit_payer_pubkey (script : string)
| Call_get_commit_spend_secret_hash (script : string)
| Call_get_commit_revoke_secret_hash (script : string).

(* ================================================================= *)
(** ** The monad of the module's functions *)

(** A computation yields the calls it made, in order, and how it ended. *)
Definition M (A : Type) : Type := (list call * result A)%type.

Definition ret {A} (a : A) : M A := ([], Ok a).
Definition raise {A} (e : exn) : M A := ([], Raise e).

Definition calls {A} (m : M A) : list call := fst m.
Definition outcome {A} (m : M A) : result A := snd m.

(** Sequencing: an exception ends the computation, and nothing after it is
    called. *)
Definition bind {A B} (m : M A) (f : A -> M B) : M B :=
  match outcome m with
  | Raise e => (calls m, Raise e)
  | Ok a => (calls m ++ calls (f a), outcome (f a))
  end.

(** Calling a collaborator: the call is recorded, its answer is the
    outcome. *)
Definition invoke {A} (c : call) (answer : result A) : M A := ([c], answer).

Declare Scope py_scope.
Delimit Scope py_scope with py.
Notation "'do' x <- m ; k" := (bind m (fun x => k))
  (at level 10, x name, m at level 100, k at level 200) : py_scope.
Notation "m ;; k" := (bind m (fun _ => k))
  (at level 100, k at level 200, right associativity) : py_scope.
Open Scope py_scope.

(** [assert cond], at the given line of the source; the interpreter runs
    with assertions enabled. *)
Definition py_assert (cond : bool) (line : nat) : M unit :=
  if cond then ret tt else raise (AssertionError line).

(** [for x in l: body(x)]. *)
Fixpoint for_each {A} (l : list A) (body : A -> M unit) : M unit :=
  match l with
  | [] => ret tt
  | x :: l' => body x ;; for_each l' body
  end.

(** [[f(x) for x in l]]. *)
Fixpoint comprehension {A B} (l : list A) (f : A -> M B) : M (list B) :=
  match l with
  | [] => ret []
  | x :: l' => do y <- f x; do ys <- comprehension l' f; ret (y :: ys)
  end.

(** [obj[key]] on a value: a [KeyError] on a missing key, a [TypeError] on a
    value that is no [dict]. *)
Definition getitem (obj : pyval) (key : string) : M pyval :=
  match obj with
  | PDict d =>
      match dict_get key d with
      | Some v => ret v
      | None => raise (KeyError key)
      end
  | _ => raise TypeError
  end.

(** Handing a value to a collaborator that works on strings, or iterating
    over it: anything else is a [TypeError]. *)
Definition as_str (v : pyval) : M string :=
  match v with PStr s => ret s | _ => raise TypeError end.

Definition as_list (v : pyval) : M (list pyval) :=
  match v with PList l => ret l | _ => raise TypeError end.

(* ================================================================= *)
(** ** jsonschema *)

Module JsonSchema.

Inductive jtype : Type := TObject | TArray | TString.

(** A schema with the keywords [_STATE_SCHEMA] uses.  [None] is an absent
    keyword; an absent [additionalProperties] is [true]. *)
Inductive schema : Type :=
| Schema (type : option jtype)
         (pattern : option Re.regex)
         (properties : list (string * schema))
         (required : list string)
         (additionalProperties : bool)
         (items : option schema).

Definition check_type (ty : option jtype) (v : pyval) : bool :=
  match ty, v with
  | None, _ => true
  | Some TObject, PDict _ => true
  | Some TArray, PList _ => true
  | Some TString, PStr _ => true
  | Some _, _ => false
  end.

(** [pattern] applies to strings only (with [re.search]); [properties],
    [required] and [additionalProperties] to objects only; [items] to arrays
    only. *)
Fixpoint is_valid (sc : schema) (v : pyval) {struct sc} : bool :=
  match sc with
  | Schema ty pat props req addl items =>
      check_type ty v
      && match pat, v with
         | Some p, PStr s => Re.re_search p s
         | _, _ => true
         end
      && match v with
         | PDict d =>
             (fix each_property (ps : list (string * schema)) : bool :=
                match ps with
                | [] => true
                | (k, sub) :: ps' =>
                    match dict_get k d with
                    | Some x => is_valid sub x
                    | None => true
                    end && each_property ps'
                end) props
             && forallb (fun k => dict_has k d) req
             && (addl
                 || forallb
                      (fun kv => existsb (String.eqb (fst kv)) (map fst props))
                      d)
         | _ => true
         end
      && match items, v with
         | Some sub, PList l => forallb (is_valid sub) l
         | _, _ => true
         end
  end.

(** [jsonschema.validate(instance, schema)]. *)
Definition validate (instance : pyval) (sc : schema) : M unit :=
  if is_valid sc instance then ret tt else raise ValidationError.

End JsonSchema.

Definition _TYPE_HEX : JsonSchema.schema :=
  JsonSchema.Schema (Some JsonSchema.TString) (Some TYPE_HEX_RE)
                    [] [] true None.

Definition _STATE_SCHEMA : JsonSchema.schema :=
  JsonSchema.Schema (Some JsonSchema.TObject) None
    [ ("asset",
        JsonSchema.Schema (Some JsonSchema.TString) None [] [] true None);
      ("deposit_script", _TYPE_HEX);
      ("commits_requested",
        JsonSchema.Schema (Some JsonSchema.TArray) None [] [] true
                          (Some _TYPE_HEX));
      ("commits_active",
        JsonSchema.Schema (Some JsonSchema.TArray) None [] [] true
          (Some (JsonSchema.Schema (Some JsonSchema.TObject) None
                   [("rawtx", _TYPE_HEX); ("script", _TYPE_HEX)]
                   ["rawtx"; "script"] false None)));
      ("commits_revoked",
        JsonSchema.Schema (Some JsonSchema.TArray) None [] [] true
          (Some (JsonSchema.Schema (Some JsonSchema.TObject) None
                   [("script", _TYPE_HEX); ("revoke_secret", _TYPE_HEX)]
                   ["script"; "revoke_secret"] false None))) ]
    ["asset"; "deposit_script"; "commits_requested"; "commits_active";
     "commits_revoked"]
    false None.

(* ================================================================= *)
(** ** The validators *)

(** [len(l) == len(set(l))]. *)
Definition len_eq_set_len (l : list string) : bool :=
  Nat.eqb (List.length l) (List.length (nodup string_dec l)).

Definition is_string (s : pyval) : M unit :=
  match s with
  | PStr _ => ret tt
  | _ => raise (InvalidString s)
  end.

Definition is_hex (data : pyval) : M unit :=
  is_string data ;;
  do s <- as_str data;
  if negb (Re.re_match HEX_RE s) then raise (InvalidHexData s)
  else if negb (Nat.eqb (String.length s mod 2) 0) then raise (InvalidHexData s)
  else ret tt.

Definition py_in (x : pyval) (l : list string) : bool :=
  match x with
  | PStr s => existsb (String.eqb s) l
  | _ => false
  end.

Definition is_asset (dispatcher : Dispatcher) (asset : pyval) : M unit :=
  is_string asset ;;
  do entries <- invoke Call_get_assets (get_assets dispatcher);
  let assets := map asset_name entries in
  if negb (py_in asset assets) then raise (AssetDoesNotExist asset)
  else ret tt.

Section Validate.

Variable scripts : Scripts.
Variable util : Util.

(** The default of the keyword argument [validate_signature]. *)
Definition validate_signature_default : bool := false.

Definition script_address_ (script netcode : string) : M string :=
  invoke (Call_script_address script netcode)
         (script_address util script netcode).

Definition commit_script (commit_script_hex deposit_script_hex : pyval)
  : M unit :=
  is_hex commit_script_hex ;;
  is_hex deposit_script_hex ;;
  do commit_script_hex <- as_str commit_script_hex;
  do deposit_script_hex <- as_str deposit_script_hex;
  invoke (Call_validate_deposit_script deposit_script_hex)
         (validate_deposit_script scripts deposit_script_hex) ;;
  invoke (Call_validate_commit_script commit_script_hex)
         (validate_commit_script scripts commit_script_hex) ;;
  (* validate payee pubkey *)
  do deposit_payee_pubkey <-
    invoke (Call_get_deposit_payee_pubkey deposit_script_hex)
           (get_deposit_payee_pubkey scripts deposit_script_hex);
  do commit_payee_pubkey <-
    invoke (Call_get_commit_payee_pubkey commit_script_hex)
           (get_commit_payee_pubkey scripts commit_script_hex);
  (if negb (String.eqb deposit_payee_pubkey commit_payee_pubkey)
   then raise (IncorrectPubKey commit_payee_pubkey deposit_payee_pubkey)
   else ret tt) ;;
  (* validate payer pubkey *)
  do deposit_payer_pubkey <-
    invoke (Call_get_deposit_payer_pubkey deposit_script_hex)
           (get_deposit_payer_pubkey scripts deposit_script_hex);
  do commit_payer_pubkey <-
    invoke (Call_get_commit_payer_pubkey commit_script_hex)
           (get_commit_payer_pubkey scripts commit_script_hex);
  (if negb (String.eqb deposit_payer_pubkey commit_payer_pubkey)
   then raise (IncorrectPubKey commit_payer_pubkey deposit_payer_pubkey)
   else ret tt) ;;
  (* validate spend secret hash *)
  do deposit_spend_hash <-
    invoke (Call_get_deposit_spend_secret_hash deposit_script_hex)
           (get_deposit_spend_secret_hash scripts deposit_script_hex);
  do commit_spend_hash <-
    invoke (Call_get_commit_spend_secret_hash commit_script_hex)
           (get_commit_spend_secret_hash scripts commit_script_hex);
  if negb (String.eqb deposit_spend_hash commit_spend_hash)
  then raise (IncorrectSpendSecretHash commit_spend_hash deposit_spend_hash)
  else ret tt.

Definition is_send_tx (dispatcher : Dispatcher) (rawtx : string)
           (expected_asset expected_src expected_dest : option string)
           (validate_signature : bool) : M pydict :=
  do info <- invoke (Call_get_tx_info rawtx) (get_tx_info dispatcher rawtx);
  let '(src, dest, btc, fee, data) := info in
  match data with
  | None | Some EmptyString =>
      (* [not data]: [None] and the empty string are false *)
      raise (ValueError "No data for given transaction!")
  | Some data =>
      do um <- invoke (Call_unpack data) (unpack dispatcher data);
      let '(message_type_id, unpacked) := um in
      py_assert (Z.eqb message_type_id 0) 173 ;;
      (match expected_src with
       | Some e => if negb (String.eqb e src)
                   then raise (SourceMissmatch e src) else ret tt
       | None => ret tt
       end) ;;
      (match expected_dest with
       | Some e => if negb (String.eqb e dest)
                   then raise (DestinationMissmatch e dest) else ret tt
       | None => ret tt
       end) ;;
      (match expected_asset with
       | Some e => do found <- getitem (PDict unpacked) "asset";
                   if str_ne e found
                   then raise (AssetMissmatch e found) else ret tt
       | None => ret tt
       end) ;;
      (if validate_signature
       then
         do tx <- invoke (Call_load_tx rawtx)
                    (load_tx util (getrawtransaction dispatcher) rawtx);
         if negb (Z.eqb (bad_signature_count util tx) 0)
         then raise (InvalidSignature rawtx) else ret tt
       else ret tt) ;;
      ret [ ("src", PStr src); ("dest", PStr dest); ("btc", PInt btc);
            ("fee", PInt fee); ("data", PStr data);
            ("message_type_id", PInt message_type_id);
            ("unpacked", PDict unpacked) ]
  end.

Definition is_commit_rawtx (dispatcher : Dispatcher) (commit_rawtx : string)
           (expected_asset : string)
           (expected_deposit_script_hex expected_commit_script_hex : string)
           (netcode : string) (validate_signature : bool) : M unit :=
  do commit_address <- script_address_ expected_commit_script_hex netcode;
  do deposit_address <- script_address_ expected_deposit_script_hex netcode;
  is_send_tx dispatcher commit_rawtx (Some expected_asset)
             (Some deposit_address) (Some commit_address)
             validate_signature ;;
  ret tt.

(** [[c["script"] for c in state_data[field]]]. *)
Definition script_column (state_data : pyval) (field : string)
  : M (list string) :=
  do entries <- getitem state_data field;
  do entries <- as_list entries;
  comprehension entries (fun c => do s <- getitem c "script"; as_str s).

(** The body of the loop over [commits_revoked]. *)
Definition revoked_body (deposit_spend_hash : string) (revoked : pyval)
  : M unit :=
  do script <- getitem revoked "script";
  do script <- as_str script;
  invoke (Call_validate_commit_script script)
         (validate_commit_script scripts script) ;;
  do r_spend_hash <- invoke (Call_get_commit_spend_secret_hash script)
                       (get_commit_spend_secret_hash scripts script);
  py_assert (String.eqb r_spend_hash deposit_spend_hash) 237 ;;
  do revoke_hash <- invoke (Call_get_commit_revoke_secret_hash script)
                      (get_commit_revoke_secret_hash scripts script);
  do revoke_secret <- getitem revoked "revoke_secret";
  do revoke_secret <- as_str revoke_secret;
  do secret_hash <- invoke (Call_hash160hex revoke_secret)
                      (hash160hex util revoke_secret);
  py_assert (String.eqb revoke_hash secret_hash) 241.

(** The body of the loop over [commits_active]. *)
Definition active_body (dispatcher : Dispatcher) (asset deposit_script : string)
           (deposit_spend_hash netcode : string) (active : pyval) : M unit :=
  do script <- getitem active "script";
  do script <- as_str script;
  invoke (Call_validate_commit_script script)
         (validate_commit_script scripts script) ;;
  do a_spend_hash <- invoke (Call_get_commit_spend_secret_hash script)
                       (get_commit_spend_secret_hash scripts script);
  py_assert (String.eqb a_spend_hash deposit_spend_hash) 251 ;;
  do rawtx <- getitem active "rawtx";
  do rawtx <- as_str rawtx;
  is_commit_rawtx dispatcher rawtx asset deposit_script script netcode
                  validate_signature_default.

Definition is_state (dispatcher : Dispatcher) (state_data : pyval)
           (netcode : string) : M unit :=
  JsonSchema.validate state_data _STATE_SCHEMA ;;
  (* commits scripts must be a set *)
  do s_active <- script_column state_data "commits_active";
  do s_revoked <- script_column state_data "commits_revoked";
  py_assert (len_eq_set_len (s_active ++ s_revoked)) 218 ;;
  (* asset is valid *)
  do asset <- getitem state_data "asset";
  is_asset dispatcher asset ;;
  do asset <- as_str asset;
  (* deposit script is valid *)
  do deposit_script <- getitem state_data "deposit_script";
  do deposit_script <- as_str deposit_script;
  do deposit_address <- script_address_ deposit_script netcode;
  do deposit_spend_hash <-
    invoke (Call_get_deposit_spend_secret_hash deposit_script)
           (get_deposit_spend_secret_hash scripts deposit_script);
  invoke (Call_validate_deposit_script deposit_script)
         (validate_deposit_script scripts deposit_script) ;;
  (* validate commits revoked *)
  do commits_revoked <- getitem state_data "commits_revoked";
  do commits_revoked <- as_list commits_revoked;
  for_each commits_revoked (revoked_body deposit_spend_hash) ;;
  (* validate commits active *)
  do commits_active <- getitem state_data "commits_active";
  do commits_active <- as_list commits_active;
  for_each commits_active
           (active_body dispatcher asset deposit_script deposit_spend_hash
                        netcode).

End Validate.

(** The only call that verifies signatures is [util.load_tx], whose answer
    [bad_signature_count] is read from. *)
Definition is_load_tx (c : call) : bool :=
  match c with
  | Call_load_tx _ => true
  | _ => false
  end.

(** The computation verifies no signature. *)
Definition no_signature_check {A} (m : M A) : Prop :=
  Forall (fun c => is_load_tx c = false) (calls m).

(* ================================================================= *)
(** ** The checks of [is_state], one by one *)

(** The local variables of [is_state] that later checks read. *)
Record locals : Type := {
  l_asset : string;
  l_deposit_script : string;
  l_deposit_spend_hash : string
}.

Definition no_locals : locals :=
  {| l_asset := ""; l_deposit_script := ""; l_deposit_spend_hash := "" |}.

(** A check reads the locals bound so far and may bind more. *)
Definition check : Type := locals -> M locals.

Fixpoint run_checks (cs : list check) (l : locals) : M locals :=
  match cs with
  | [] => ret l
  | c :: cs' => do l' <- c l; run_checks cs' l'
  end.

Section Checks.

Variable scripts : Scripts.
Variable util : Util.
Variable dispatcher : Dispatcher.
Variable state_data : pyval.
Variable netcode : string.

(** line 213 *)
Definition check_schema : check := fun l =>
  JsonSchema.validate state_data _STATE_SCHEMA ;;
  ret l.

(** lines 215-218 *)
Definition check_unique : check := fun l =>
  do s_active <- script_column state_data "commits_active";
  do s_revoked <- script_column state_data "commits_revoked";
  py_assert (len_eq_set_len (s_active ++ s_revoked)) 218 ;;
  ret l.

(** lines 220-221 *)
Definition check_asset : check := fun l =>
  do asset <- getitem state_data "asset";
  is_asset dispatcher asset ;;
  do asset <- as_str asset;
  ret {| l_asset := asset;
         l_deposit_script := l_deposit_script l;
         l_deposit_spend_hash := l_deposit_spend_hash l |}.

(** lines 223-227 *)
Definition check_deposit : check := fun l =>
  do deposit_script <- getitem state_data "deposit_script";
  do deposit_script <- as_str deposit_script;
  do deposit_address <- script_address_ util deposit_script netcode;
  do deposit_spend_hash <-
    invoke (Call_get_deposit_spend_secret_hash deposit_script)
           (get_deposit_spend_secret_hash scripts deposit_script);
  invoke (Call_validate_deposit_script deposit_script)
         (validate_deposit_script scripts deposit_script) ;;
  ret {| l_asset := l_asset l;
         l_deposit_script := deposit_script;
         l_deposit_spend_hash := deposit_spend_hash |}.

(** lines 229-241 *)
Definition check_revoked : check := fun l =>
  do commits_revoked <- getitem state_data "commits_revoked";
  do commits_revoked <- as_list commits_revoked;
  for_each commits_revoked
           (revoked_body scripts util (l_deposit_spend_hash l)) ;;
  ret l.

(** lines 243-257 *)
Definition check_active : check := fun l =>
  do commits_active <- getitem state_data "commits_active";
  do commits_active <- as_list commits_active;
  for_each commits_active
           (active_body scripts util dispatcher (l_asset l)
                        (l_deposit_script l) (l_deposit_spend_hash l)
                        netcode) ;;
  ret l.

(** The checks in the order of the source. *)
Definition is_state_checks : list check :=
  [ check_schema; check_unique; check_asset; check_deposit; check_revoked;
    check_active ].

End Checks.

(* ================================================================= *)
(** ** Channel states as data *)

Record active_entry : Type := { active_rawtx : string; active_script : string }.

Record revoked_entry : Type := {
  revoked_script : string;
  revoke_secret : string
}.

Record channel_state : Type := {
  asset : string;
  deposit_script : string;
  commits_requested : list string;
  commits_active : list active_entry;
  commits_revoked : list revoked_entry
}.

Definition encode_active (a : active_entry) : pyval :=
  PDict [("rawtx", PStr (active_rawtx a)); ("script", PStr (active_script a))].

Definition encode_revoked (r : revoked_entry) : pyval :=
  PDict [("script", PStr (revoked_script r));
         ("revoke_secret", PStr (revoke_secret r))].

(** The [state_data] object of a channel state. *)
Definition encode_state (st : channel_state) : pyval :=
  PDict [("asset", PStr (asset st));
         ("deposit_script", PStr (deposit_script st));
         ("commits_requested", PList (map PStr (commits_requested st)));
         ("commits_active", PList (map encode_active (commits_active st)));
         ("commits_revoked", PList (map encode_revoked (commits_revoked st)))].

(** Reading a channel state back from a [state_data] object; a field that is
    absent or of another type reads as empty. *)
Definition str_of (v : pyval) : string :=
  match v with PStr s => s | _ => "" end.

Definition list_of (v : pyval) : list pyval :=
  match v with PList l => l | _ => [] end.

Definition field (key : string) (obj : pyval) : pyval :=
  match obj with
  | PDict d => match dict_get key d with Some v => v | None => PNone end
  | _ => PNone
  end.

Definition decode_active (v : pyval) : active_entry :=
  {| active_rawtx := str_of (field "rawtx" v);
     active_script := str_of (field "script" v) |}.

Definition decode_revoked (v : pyval) : revoked_entry :=
  {| revoked_script := str_of (field "script" v);
     revoke_secret := str_of (field "revoke_secret" v) |}.

Definition decode_state (v : pyval) : channel_state :=
  {| asset := str_of (field "asset" v);
     deposit_script := str_of (field "deposit_script" v);
     commits_requested := map str_of (list_of (field "commits_requested" v));
     commits_active := map decode_active (list_of (field "commits_active" v));
     commits_revoked :=
       map decode_revoked (list_of (field "commits_revoked" v)) |}.

(** [obj[key]] is there and is a string, or a list. *)
Definition reads_str (obj : pyval) (key : string) : Prop :=
  getitem obj key = ret (PStr (str_of (field key obj))).

Definition reads_list (obj : pyval) (key : string) : Prop :=
  getitem obj key = ret (PList (list_of (field key obj))).

Definition set_commits_requested (l : list string) (st : channel_state)
  : channel_state :=
  {| asset := asset st;
     deposit_script := deposit_script st;
     commits_requested := l;
     commits_active := commits_active st;
     commits_revoked := commits_revoked st |}.

(** The scripts of [commits_active] followed by those of
    [commits_revoked]. *)
Definition all_scripts (st : channel_state) : list string :=
  map active_script (commits_active st)
  ++ map revoked_script (commits_revoked st).

Definition is_lower_hex_digit (c : ascii) : bool :=
  Re.in_range c digit_range || Re.in_range c af_range.

Fixpoint all_chars (p : ascii -> bool) (s : string) : bool :=
  match s with
  | EmptyString => true
  | String c s' => p c && all_chars p s'
  end.

(** A lowercase hex string of even length. *)
Definition lower_even_hex (s : string) : Prop :=
  all_chars is_lower_hex_digit s = true /\ Nat.even (String.length s) = true.

(** The string passes the pattern of [_TYPE_HEX]. *)
Definition hex_pattern (s : string) : bool := Re.re_search TYPE_HEX_RE s.

(** A channel state is well formed when its [state_data] object passes the
    schema. *)
Definition well_formed (st : channel_state) : Prop :=
  JsonSchema.is_valid _STATE_SCHEMA (encode_state st) = true.

Section Validity.

Variable scripts : Scripts.
Variable util : Util.
Variable dispatcher : Dispatcher.
Variable netcode : string.

(** The asset is in the dispatcher's registry. *)
Definition asset_listed (a : string) : Prop :=
  exists entries,
    get_assets dispatcher = Ok entries /\ In a (map asset_name entries).

(** [D] is accepted as a deposit script; [addr] is its address and [h] its
    spend secret hash. *)
Definition deposit_valid (D addr h : string) : Prop :=
  script_address util D netcode = Ok addr
  /\ get_deposit_spend_secret_hash scripts D = Ok h
  /\ validate_deposit_script scripts D = Ok tt.

(** [C] is accepted as a commit script and carries the spend secret hash
    [h]. *)
Definition commit_valid (h C : string) : Prop :=
  validate_commit_script scripts C = Ok tt
  /\ get_commit_spend_secret_hash scripts C = Ok h.

(** The revoke secret of the entry hashes to the revoke secret hash of its
    script. *)
Definition revoke_secret_matches (r : revoked_entry) : Prop :=
  exists rh,
    get_commit_revoke_secret_hash scripts (revoked_script r) = Ok rh
    /\ hash160hex util (revoke_secret r) = Ok rh.

(** The revoke secret of the entry hashes to something else than the revoke
    secret hash of its script. *)
Definition revoke_secret_differs (r : revoked_entry) : Prop :=
  exists rh sh,
    get_commit_revoke_secret_hash scripts (revoked_script r) = Ok rh
    /\ hash160hex util (revoke_secret r) = Ok sh
    /\ rh <> sh.

Definition revoked_valid (h : string) (r : revoked_entry) : Prop :=
  commit_valid h (revoked_script r) /\ revoke_secret_matches r.

(** [rawtx] is, for the dispatcher, a send (message type 0) of [a] from
    [src] to [dest]. *)
Definition ledger_send (rawtx a src dest : string) : Prop :=
  exists btc fee data unpacked,
    get_tx_info dispatcher rawtx = Ok (src, dest, btc, fee, Some data)
    /\ data <> ""
    /\ unpack dispatcher data = Ok (0%Z, unpacked)
    /\ dict_get "asset" unpacked = Some (PStr a).

Definition active_valid (a daddr h : string) (e : active_entry) : Prop :=
  commit_valid h (active_script e)
  /\ exists caddr,
       script_address util (active_script e) netcode = Ok caddr
       /\ ledger_send (active_rawtx e) a daddr caddr.

(** The checks of [is_send_tx] on the answers of the dispatcher: a payload,
    message type 0, the expected values that are given, and good signatures
    when they are asked for. *)
Definition send_tx_passes (rawtx : string)
           (expected_asset expected_src expected_dest : option string)
           (validate_signature : bool)
           (src dest : string) (btc fee : Z) (data : string)
           (unpacked : pydict) : Prop :=
  get_tx_info dispatcher rawtx = Ok (src, dest, btc, fee, Some data)
  /\ data <> ""
  /\ unpack dispatcher data = Ok (0%Z, unpacked)
  /\ (forall e, expected_src = Some e -> e = src)
  /\ (forall e, expected_dest = Some e -> e = dest)
  /\ (forall e, expected_asset = Some e ->
                dict_get "asset" unpacked = Some (PStr e))
  /\ (validate_signature = true ->
      exists tx,
        load_tx util (getrawtransaction dispatcher) rawtx = Ok tx
        /\ bad_signature_count util tx = 0%Z).

(** Everything [is_state] asks of a channel state. *)
Definition state_valid (st : channel_state) : Prop :=
  well_formed st
  /\ NoDup (all_scripts st)
  /\ asset_listed (asset st)
  /\ exists daddr h,
       deposit_valid (deposit_script st) daddr h
       /\ Forall (revoked_valid h) (commits_revoked st)
       /\ Forall (active_valid (asset st) daddr h) (commits_active st).

End Validity.

(* ================================================================= *)
(** ** A test fixture *)

(** An in-memory dispatcher and script library in the manner of the test
    suite: asset ["XCP"], network ["XTN"], deposit script ["dd"], commit
    scripts ["c1"], ["c2"], ... *)
Module Fixture.

Definition NETCODE : string := "XTN".

Definition scripts : Scripts := {|
  validate_deposit_script s :=
    if String.eqb s "dd" then Ok tt else Raise (Foreign "InvalidScript");
  validate_commit_script s :=
    if String.prefix "c" s then Ok tt else Raise (Foreign "InvalidScript");
  get_deposit_payee_pubkey _ := Ok "02b0b0";
  get_deposit_payer_pubkey _ := Ok "03a1a1";
  get_deposit_spend_secret_hash _ := Ok "5e";
  get_commit_payee_pubkey _ := Ok "02b0b0";
  get_commit_payer_pubkey _ := Ok "03a1a1";
  get_commit_spend_secret_hash s :=
    if String.eqb s "c9" then Ok "66" else Ok "5e";
  get_commit_revoke_secret_hash s := Ok ("4e" ++ s)%string
|}.

(** Every input signature of every transaction is bad for this [util]. *)
Definition util : Util := {|
  Tx := string;
  script_address s net := Ok (net ++ ":" ++ s)%string;
  hash160hex x := Ok ("4e" ++ x)%string;
  load_tx _ rawtx := Ok rawtx;
  bad_signature_count _ := 1%Z
|}.

Definition send_payload : pydict :=
  [("asset", PStr "XCP"); ("quantity", PInt 33)].

Definition dispatcher : Dispatcher := {|
  get_assets := Ok [ {| asset_name := "BTC" |}; {| asset_name := "XCP" |} ];
  get_tx_info rawtx :=
    if String.eqb rawtx "a1"
    then Ok ("XTN:dd", "XTN:c1", 0%Z, 10000%Z, Some "00")
    else if String.eqb rawtx "a3"
    then Ok ("XTN:dd", "XTN:ee", 0%Z, 10000%Z, Some "00")
    else if String.eqb rawtx "b0"
    then Ok ("XTN:dd", "", 100000%Z, 10000%Z, Some "")
    else Raise (Foreign "DecodeError");
  unpack data :=
    if String.eqb data "00" then Ok (0%Z, send_payload)
    else Raise (Foreign "UnpackError");
  getrawtransaction _ := Raise (Foreign "NotFound")
|}.

(** One active commit ["c1"] settled by ["a1"], one revoked commit ["c2"]
    with its secret. *)
Definition consistent : channel_state := {|
  asset := "XCP";
  deposit_script := "dd";
  commits_requested := ["c5"];
  commits_active := [ {| active_rawtx := "a1"; active_script := "c1" |} ];
  commits_revoked := [ {| revoked_script := "c2"; revoke_secret := "c2" |} ]
|}.

(** The revoked commit sits in [commits_active] as well. *)
Definition twice : channel_state := {|
  asset := "XCP";
  deposit_script := "dd";
  commits_requested := [];
  commits_active := [ {| active_rawtx := "a1"; active_script := "c1" |} ];
  commits_revoked := [ {| revoked_script := "c1"; revoke_secret := "c1" |} ]
|}.

(** A consistent revoked commit listed two times. *)
Definition revoked_twice : channel_state := {|
  asset := "XCP";
  deposit_script := "dd";
  commits_requested := [];
  commits_active := [];
  commits_revoked := [ {| revoked_script := "c2"; revoke_secret := "c2" |};
                       {| revoked_script := "c2"; revoke_secret := "c2" |} ]
|}.

(** The secret of the revoked commit is not the one of its script. *)
Definition wrong_secret : channel_state := {|
  asset := "XCP";
  deposit_script := "dd";
  commits_requested := [];
  commits_active := [ {| active_rawtx := "a1"; active_script := "c1" |} ];
  commits_revoked := [ {| revoked_script := "c2"; revoke_secret := "ff" |} ]
|}.

(** The same, for an asset the dispatcher does not list. *)
Definition wrong_secret_unknown_asset : channel_state := {|
  asset := "NOPE";
  deposit_script := "dd";
  commits_requested := [];
  commits_active := [];
  commits_revoked := [ {| revoked_script := "c2"; revoke_secret := "ff" |} ]
|}.

(** The active commit ["c3"] is paired with a transaction that pays a third
    party. *)
Definition third_party : channel_state := {|
  asset := "XCP";
  deposit_script := "dd";
  commits_requested := [];
  commits_active := [ {| active_rawtx := "a3"; active_script := "c3" |} ];
  commits_revoked := [ {| revoked_script := "c2"; revoke_secret := "c2" |} ]
|}.

End Fixture.

(* ================================================================= *)
(** ** The primitive validators *)

(** [pycoin.serialize.h2b(h)] is [binascii.unhexlify(h.encode("ascii"))]:
    pairs of hexadecimal digits of either case, each pair one byte. *)
Definition hex_digit_value (c : ascii) : option nat :=
  let n := nat_of_ascii c in
  if Nat.leb 48 n && Nat.leb n 57 then Some (n - 48)
  else if Nat.leb 97 n && Nat.leb n 102 then Some (n - 87)
  else if Nat.leb 65 n && Nat.leb n 70 then Some (n - 55)
  else None.

Fixpoint unhexlify (s : string) : option (list Byte.byte) :=
  match s with
  | EmptyString => Some []
  | String _ EmptyString => None
  | String hi (String lo rest) =>
      match hex_digit_value hi, hex_digit_value lo, unhexlify rest with
      | Some h, Some l, Some bytes =>
          Some (byte_of_ascii (ascii_of_nat (16 * h + l)) :: bytes)
      | _, _, _ => None
      end
  end.

Definition h2b (h : string) : result (list Byte.byte) :=
  if all_chars (fun c => Nat.ltb (nat_of_ascii c) 128) h
  then match unhexlify h with
       | Some bytes => Ok bytes
       | None => Raise (Foreign "binascii.Error")
       end
  else Raise (Foreign "UnicodeEncodeError").

(** The exceptions of the primitive validators, next to the ones above. *)
Inductive format_exn : Type :=
| Earlier (e : exn)
| InvalidPubKey (x : pyval)
| InvalidHash160 (x : pyval)
| InvalidInteger (x : pyval)
| InvalidList (x : pyval)
| InvalidUnsigned (x : pyval)
| InvalidSequence (x : pyval)
| InvalidQuantity (x : pyval).

(** How a primitive validator ends.  None of them calls a collaborator of
    the module. *)
Inductive answer (A : Type) : Type :=
| Returned (a : A)
| Raised (e : format_exn).
Arguments Returned {A} a.
Arguments Raised {A} e.

Definition and_then {A B} (m : answer A) (f : A -> answer B) : answer B :=
  match m with
  | Returned a => f a
  | Raised e => Raised e
  end.

(** The outcome of a function of the first part, here. *)
Definition earlier {A} (r : result A) : answer A :=
  match r with
  | Ok a => Returned a
  | Raise e => Raised (Earlier e)
  end.

Declare Scope prim_scope.
Delimit Scope prim_scope with prim.
Notation "'do' x <- m ; k" := (and_then m (fun x => k))
  (at level 10, x name, m at level 100, k at level 200) : prim_scope.
Notation "m ;; k" := (and_then m (fun _ => k))
  (at level 100, k at level 200, right associativity) : prim_scope.
Open Scope prim_scope.

Definition pubkey (pubkey_hex : pyval) : answer unit :=
  earlier (outcome (is_hex pubkey_hex)) ;;
  do pubkey_hex_ <- earlier (outcome (as_str pubkey_hex));
  do sec <- earlier (h2b pubkey_hex_);
  if negb (Nat.eqb (List.length sec) 33)  (* compressed only! *)
  then Raised (InvalidPubKey pubkey_hex)
  else Returned tt.

Definition hash160 (hash_hex : pyval) : answer unit :=
  earlier (outcome (is_hex hash_hex)) ;;
  do hash_hex_ <- earlier (outcome (as_str hash_hex));
  do hash_bin <- earlier (h2b hash_hex_);
  if negb (Nat.eqb (List.length hash_bin) 20)
  then Raised (InvalidHash160 hash_hex)
  else Returned tt.

(** [isinstance(i, six.integer_types)]: a [bool] is an [int] in Python. *)
Definition is_integer (i : pyval) : answer unit :=
  match i with
  | PInt _ | PBool _ => Returned tt
  | _ => Raised (InvalidInteger i)
  end.

(** The number an [int] or a [bool] stands for in a comparison. *)
Definition int_value (v : pyval) : Z :=
  match v with
  | PInt z => z
  | PBool true => 1
  | _ => 0
  end.

Definition is_list (l : pyval) : answer unit :=
  match l with
  | PList _ => Returned tt
  | _ => Raised (InvalidList l)
  end.

Definition is_unsigned (number : pyval) : answer unit :=
  is_integer number ;;
  if Z.ltb (int_value number) 0
  then Raised (InvalidUnsigned number)
  else Returned tt.

Section Sequence.

(** [scripts.MAX_SEQUENCE], a constant of [micropayment_core]. *)
Variable MAX_SEQUENCE : Z.

Definition is_sequence (number : pyval) : answer unit :=
  is_unsigned number ;;
  if negb (Z.leb 0 (int_value number)
           && Z.leb (int_value number) MAX_SEQUENCE)
  then Raised (InvalidSequence number)
  else Returned tt.

End Sequence.

Definition is_quantity (number : pyval) : answer unit :=
  is_integer number ;;
  if negb (Z.ltb 0 (int_value number)
           && Z.ltb (int_value number) 2100000000000000)
  then Raised (InvalidQuantity number)
  else Returned tt.

Close Scope prim_scope.

(* ================================================================= *)
(** ** The deposit script validator *)

Section DepositScript.

Variable scripts : Scripts.

(** [deposit_script] of the source; the plain name is the field of
    [channel_state]. *)
Definition deposit_script_ (deposit_script_hex : pyval)
           (expected_payee_pubkey expected_spend_secret_hash : string)
  : M unit :=
  is_hex deposit_script_hex ;;
  do deposit_script_hex <- as_str deposit_script_hex;
  invoke (Call_validate_deposit_script deposit_script_hex)
         (validate_deposit_script scripts deposit_script_hex) ;;
  (* deposit spend secret hash matches expected spend secret hash *)
  do found_hash <-
    invoke (Call_get_deposit_spend_secret_hash deposit_script_hex)
           (get_deposit_spend_secret_hash scripts deposit_script_hex);
  (if negb (String.eqb found_hash expected_spend_secret_hash)
   then raise (IncorrectSpendSecretHash found_hash
                                        expected_spend_secret_hash)
   else ret tt) ;;
  (* deposit payee pubkey matches expected payee pubkey *)
  do found_pubkey <-
    invoke (Call_get_deposit_payee_pubkey deposit_script_hex)
           (get_deposit_payee_pubkey scripts deposit_script_hex);
  if negb (String.eqb found_pubkey expected_payee_pubkey)
  then raise (IncorrectPubKey found_pubkey expected_payee_pubkey)
  else ret tt.

End DepositScript.

(** The script library of the fixture, but for the pubkeys of the commit
    scripts ["c7"] and ["c8"]: ["c7"] has a payee and a payer of its own,
    ["c8"] a payer of its own. *)
Module Strangers.

Definition scripts : Scripts := {|
  validate_deposit_script s :=
    if String.eqb s "dd" then Ok tt else Raise (Foreign "InvalidScript");
  validate_commit_script s :=
    if String.prefix "c" s then Ok tt else Raise (Foreign "InvalidScript");
  get_deposit_payee_pubkey _ := Ok "02b0b0";
  get_deposit_payer_pubkey _ := Ok "03a1a1";
  get_deposit_spend_secret_hash _ := Ok "5e";
  get_commit_payee_pubkey s :=
    if String.eqb s "c7" then Ok "02eeee" else Ok "02b0b0";
  get_commit_payer_pubkey s :=
    if String.eqb s "c7" || String.eqb s "c8" then Ok "03ffff"
    else Ok "03a1a1";
  get_commit_spend_secret_hash s :=
    if String.eqb s "c9" then Ok "66" else Ok "5e";
  get_commit_revoke_secret_hash s := Ok ("4e" ++ s)%string
|}.

(** The active commit ["c8"] has a payer of its own. *)
Definition other_payer : channel_state := {|
  asset := "XCP";
  deposit_script := "dd";
  commits_requested := [];
  commits_active := [ {| active_rawtx := "a8"; active_script := "c8" |} ];
  commits_revoked := []
|}.

(** ["a8"] is a send to the address of ["c8"], and so is ["a6"], from
    another address than the one of the deposit script; the payload of
    ["a9"] is of message type 20; the payload of ["a7"] is a send that names
    no asset. *)
Definition dispatcher : Dispatcher := {|
  get_assets := Ok [ {| asset_name := "XCP" |} ];
  get_tx_info rawtx :=
    if String.eqb rawtx "a8"
    then Ok ("XTN:dd", "XTN:c8", 0%Z, 10000%Z, Some "00")
    else if String.eqb rawtx "a6"
    then Ok ("XTN:zz", "XTN:c8", 0%Z, 10000%Z, Some "00")
    else if String.eqb rawtx "a9"
    then Ok ("XTN:dd", "XTN:c8", 0%Z, 10000%Z, Some "14")
    else if String.eqb rawtx "a7"
    then Ok ("XTN:dd", "XTN:c8", 0%Z, 10000%Z, Some "0a")
    else Raise (Foreign "DecodeError");
  unpack data :=
    if String.eqb data "00" then Ok (0%Z, [("asset", PStr "XCP")])
    else if String.eqb data "14" then Ok (20%Z, [("asset", PStr "XCP")])
    else if String.eqb data "0a" then Ok (0%Z, [("quantity", PInt 5)])
    else Raise (Foreign "UnpackError");
  getrawtransaction _ := Raise (Foreign "NotFound")
|}.

(** The rawtx of the active commit comes from somewhere else. *)
Definition other_source : channel_state := {|
  asset := "XCP";
  deposit_script := "dd";
  commits_requested := [];
  commits_active := [ {| active_rawtx := "a6"; active_script := "c8" |} ];
  commits_revoked := []
|}.

(** The state is for ["BTC"], the rawtx of its active commit sends
    ["XCP"]. *)
Definition other_asset : channel_state := {|
  asset := "BTC";
  deposit_script := "dd";
  commits_requested := [];
  commits_active := [ {| active_rawtx := "a1"; active_script := "c1" |} ];
  commits_revoked := []
|}.

(** The commit script ["c9"] has a spend secret hash of its own. *)
Definition other_hash_revoked : channel_state := {|
  asset := "XCP";
  deposit_script := "dd";
  commits_requested := [];
  commits_active := [ {| active_rawtx := "a1"; active_script := "c1" |} ];
  commits_revoked := [ {| revoked_script := "c9"; revoke_secret := "c9" |} ]
|}.

(** ["ee"] is no deposit script. *)
Definition other_deposit : channel_state := {|
  asset := "XCP";
  deposit_script := "ee";
  commits_requested := [];
  commits_active := [];
  commits_revoked := []
|}.

(** A [util] that knows no address for ["ee"]. *)
Definition util : Util := {|
  Tx := string;
  script_address s net :=
    if String.eqb s "ee" then Raise (Foreign "InvalidScript")
    else Ok (net ++ ":" ++ s)%string;
  hash160hex x := Ok ("4e" ++ x)%string;
  load_tx _ rawtx := Ok rawtx;
  bad_signature_count _ := 1%Z
|}.

Definition other_hash_active : channel_state := {|
  asset := "XCP";
  deposit_script := "dd";
  commits_requested := [];
  commits_active := [ {| active_rawtx := "a1"; active_script := "c9" |} ];
  commits_revoked := []
|}.

End Strangers.

(* ================================================================= *)
(** ** The calls of an accepted state *)

(** The payload the dispatcher reports for a rawtx. *)
Definition payload_of (dispatcher : Dispatcher) (rawtx : string) : string :=
  match get_tx_info dispatcher rawtx with
  | Ok (_, _, _, _, Some data) => data
  | _ => ""
  end.

(** The calls for a revoked entry, and for an active entry, that pass. *)
Definition revoked_calls (r : revoked_entry) : list call :=
  [ Call_validate_commit_script (revoked_script r);
    Call_get_commit_spend_secret_hash (revoked_script r);
    Call_get_commit_revoke_secret_hash (revoked_script r);
    Call_hash160hex (revoke_secret r) ].

Definition active_calls (dispatcher : Dispatcher) (D netcode : string)
           (a : active_entry) : list call :=
  [ Call_validate_commit_script (active_script a);
    Call_get_commit_spend_secret_hash (active_script a);
    Call_script_address (active_script a) netcode;
    Call_script_address D netcode;
    Call_get_tx_info (active_rawtx a);
    Call_unpack (payload_of dispatcher (active_rawtx a)) ].

Definition accepted_calls (dispatcher : Dispatcher) (netcode : string)
           (st : channel_state) : list call :=
  [ Call_get_assets;
    Call_script_address (deposit_script st) netcode;
    Call_get_deposit_spend_secret_hash (deposit_script st);
    Call_validate_deposit_script (deposit_script st) ]
  ++ flat_map revoked_calls (commits_revoked st)
  ++ flat_map (active_calls dispatcher (deposit_script st) netcode)
              (commits_active st).

(* ================================================================= *)
(** * Properties *)

(* ================================================================= *)
(** ** Strings *)

Lemma string_app_assoc (a b c : string) :
  ((a ++ b) ++ c = a ++ (b ++ c))%string.
Proof.
  induction a as [|x a IH]; simpl; [reflexivity | now rewrite IH].
Qed.

Lemma string_app_nil_r (a : string) : (a ++ "" = a)%string.
Proof.
  induction a as [|x a IH]; simpl; [reflexivity | now rewrite IH].
Qed.

Lemma string_app_length (a b : string) :
  String.length (a ++ b) = String.length a + String.length b.
Proof.
  induction a as [|x a IH]; simpl; [reflexivity | now rewrite IH].
Qed.

Lemma is_empty_app (a b : string) :
  Re.is_empty (a ++ b) = Re.is_empty a && Re.is_empty b.
Proof. destruct a; reflexivity. Qed.

Lemma is_empty_false_length (a : string) :
  Re.is_empty a = false -> 0 < String.length a.
Proof. destruct a; simpl; [discriminate | lia]. Qed.

(* ================================================================= *)
(** ** The matcher against the declarative reading *)

Module ReFacts.
Import Re.
#[local] Open Scope string_scope.

(** A continuation that accepts more makes the matcher accept more. *)
Lemma run_mono (r : regex) :
  forall b s (k1 k2 : bool -> string -> bool),
    (forall b' s', k1 b' s' = true -> k2 b' s' = true) ->
    run r b s k1 = true -> run r b s k2 = true.
Proof.
  induction r as [| |rs|r1 IH1 r2 IH2|r1 IH1]; intros b s k1 k2 Hk;
    cbn [run].
  - intros H. apply andb_true_iff in H as [Hb H].
    subst b. simpl. now apply Hk.
  - intros H. apply andb_true_iff in H as [Hb H].
    rewrite Hb. simpl. now apply Hk.
  - destruct s as [|c s']; [discriminate|].
    intros H. apply andb_true_iff in H as [Hb H].
    rewrite Hb. simpl. now apply Hk.
  - apply IH1. intros b' s'. now apply IH2.
  - generalize (S (String.length s)) as n. intros n. revert b s.
    induction n as [|n IHn]; intros b s; simpl.
    + apply Hk.
    + intros H. apply orb_true_iff in H as [H|H].
      * apply orb_true_iff. left.
        revert H. apply IH1. intros b' s' H'.
        apply andb_true_iff in H' as [Hlt H'].
        rewrite Hlt. simpl. now apply IHn.
      * apply orb_true_iff. right. now apply Hk.
Qed.

(** More fuel never loses an iteration of [*]. *)
Lemma star_iter_fuel (r : regex) (k : bool -> string -> bool) :
  forall n m b s,
    n <= m ->
    star_iter (run r) k n b s = true -> star_iter (run r) k m b s = true.
Proof.
  induction n as [|n IHn]; intros m b s Hle; simpl.
  - intros H. destruct m as [|m]; simpl; [exact H|].
    apply orb_true_iff. now right.
  - destruct m as [|m]; [lia|]. simpl.
    intros H. apply orb_true_iff in H as [H|H]; apply orb_true_iff.
    + left. revert H. apply run_mono. intros b' s' H'.
      apply andb_true_iff in H' as [Hlt H'].
      rewrite Hlt. simpl. apply IHn; [lia | exact H'].
    + now right.
Qed.

(** What the matcher accepts is a word of the pattern followed by a suffix
    the continuation accepts. *)
Lemma run_sound (r : regex) :
  forall b s k,
    run r b s k = true ->
    exists w rest,
      s = w ++ rest /\ matches r b w rest /\ k (b && is_empty w) rest = true.
Proof.
  induction r as [| |rs|r1 IH1 r2 IH2|r1 IH1]; intros b s k; cbn [run].
  - intros H. apply andb_true_iff in H as [Hb H]. subst b.
    exists "", s. repeat split; [constructor | exact H].
  - intros H. apply andb_true_iff in H as [He H].
    exists "", s. rewrite andb_true_r.
    repeat split; [now constructor | exact H].
  - destruct s as [|c s']; [discriminate|].
    intros H. apply andb_true_iff in H as [Hc H].
    exists (String c ""), s'. rewrite andb_false_r.
    repeat split; [now constructor | exact H].
  - intros H. apply IH1 in H as (w1 & rest1 & -> & Hm1 & H).
    apply IH2 in H as (w2 & rest & -> & Hm2 & H).
    exists (w1 ++ w2), rest.
    rewrite string_app_assoc, is_empty_app, andb_assoc.
    repeat split; [now constructor | exact H].
  - generalize (S (String.length s)) as n. intros n. revert b s.
    induction n as [|n IHn]; intros b s; simpl.
    + intros H. exists "", s. rewrite andb_true_r.
      repeat split; [constructor | exact H].
    + intros H. apply orb_true_iff in H as [H|H].
      * apply IH1 in H as (w1 & rest1 & -> & Hm1 & H).
        apply andb_true_iff in H as [_ H].
        apply IHn in H as (w2 & rest & -> & Hm2 & H).
        exists (w1 ++ w2), rest.
        rewrite string_app_assoc, is_empty_app, andb_assoc.
        repeat split; [now constructor | exact H].
      * exists "", s. rewrite andb_true_r.
        repeat split; [constructor | exact H].
Qed.

(** A word of the pattern followed by a suffix the continuation accepts is
    accepted by the matcher. *)
Lemma run_complete r b w rest :
  matches r b w rest ->
  forall k, k (b && is_empty w) rest = true -> run r b (w ++ rest) k = true.
Proof.
  induction 1 as [rest|b rest He|rs b c rest Hc
                  |r1 r2 b w1 w2 rest _ IH1 _ IH2
                  |r b rest
                  |r b w1 w2 rest _ IH1 _ IH2]; intros k Hk; cbn [run].
  - exact Hk.
  - simpl. rewrite He. simpl. now rewrite andb_true_r in Hk.
  - simpl. rewrite Hc. simpl. now rewrite andb_false_r in Hk.
  - rewrite string_app_assoc. apply IH1. apply IH2.
    now rewrite is_empty_app, andb_assoc in Hk.
  - simpl. rewrite andb_true_r in Hk. rewrite Hk. apply orb_true_r.
  - rewrite is_empty_app, andb_assoc in Hk.
    destruct (is_empty w1) eqn:Hw1.
    + destruct w1; [|discriminate]. simpl append.
      specialize (IH2 k Hk). rewrite andb_true_r in IH2. exact IH2.
    + cbn [star_iter]. apply orb_true_iff. left.
      rewrite string_app_assoc. apply IH1.
      apply is_empty_false_length in Hw1.
      apply andb_true_iff. split.
      * apply Nat.ltb_lt. rewrite (string_app_length w1). lia.
      * specialize (IH2 k Hk). cbn [run] in IH2.
        revert IH2. apply star_iter_fuel.
        rewrite !string_app_length. lia.
Qed.

(** [re.match] decides the declarative reading. *)
Lemma re_match_iff (p : regex) (s : string) :
  re_match p s = true <-> Matches p s.
Proof.
  unfold re_match, Matches. split.
  - intros H. apply run_sound in H as (w & rest & -> & Hm & _).
    now exists w, rest.
  - intros (w & rest & -> & Hm). now apply (run_complete _ _ _ _ Hm).
Qed.

End ReFacts.

(* ================================================================= *)
(** ** The language of the hex patterns *)

Module HexFacts.
Import Re.
#[local] Open Scope string_scope.

Lemma in_set_hex c : in_set [digit_range; af_range] c = is_lower_hex_digit c.
Proof. unfold in_set, is_lower_hex_digit. simpl. now rewrite orb_false_r. Qed.

Lemma in_set_type_hex c :
  in_set [af_range; digit_range] c = is_lower_hex_digit c.
Proof.
  unfold in_set, is_lower_hex_digit. simpl.
  rewrite orb_false_r. apply orb_comm.
Qed.

(** A word of [[...]*] is made of characters of the set. *)
Lemma star_set_chars rs b w rest :
  matches (Star (InSet rs)) b w rest -> all_chars (in_set rs) w = true.
Proof.
  remember (Star (InSet rs)) as r eqn:Hr. intros H.
  induction H as [| | | |r b rest|r b w1 w2 rest H1 _ H2 IH2];
    try discriminate Hr.
  - reflexivity.
  - injection Hr as ->. specialize (IH2 eq_refl).
    inversion H1 as [| |rs' b' c rest' Hc| | |]; subst.
    simpl. now rewrite Hc, IH2.
Qed.

(** Characters of the set make a word of [[...]*], wherever it stands. *)
Lemma chars_star_set rs w :
  all_chars (in_set rs) w = true ->
  forall b rest, matches (Star (InSet rs)) b w rest.
Proof.
  induction w as [|c w IH]; simpl; intros H b rest.
  - constructor.
  - apply andb_true_iff in H as [Hc Hw].
    change (String c w) with (String c "" ++ w).
    apply M_Star_cons; [now constructor | now apply IH].
Qed.

Lemma all_chars_ext (p q : ascii -> bool) (s : string) :
  (forall c, p c = q c) -> all_chars p s = all_chars q s.
Proof.
  intros E. induction s as [|c s IH]; simpl; [reflexivity|].
  now rewrite E, IH.
Qed.

Lemma at_eol_cases rest : at_eol rest = true <-> rest = "" \/ rest = nl.
Proof.
  unfold nl. destruct rest as [|c [|c' rest]]; simpl; split; intros H.
  - now left.
  - reflexivity.
  - right. apply Ascii.eqb_eq in H. now subst.
  - destruct H as [H|H]; [discriminate|]. injection H as ->.
    apply Ascii.eqb_refl.
  - discriminate.
  - destruct H as [H|H]; discriminate.
Qed.

(** The strings [^[...]*$] matches from position 0: the words over the set,
    and those words followed by one newline. *)
Lemma anchored_star_language rs s :
  Matches (Cat Bol (Cat (Star (InSet rs)) Eol)) s <->
  exists h, all_chars (in_set rs) h = true /\ (s = h \/ s = h ++ nl).
Proof.
  split.
  - intros (w & rest & -> & H).
    inversion H as [| | |r1 r2 b w1 w2 rest' Hbol Hcat| |]; subst.
    inversion Hbol; subst. simpl in *.
    inversion Hcat as [| | |r1 r2 b w3 w4 rest' Hstar Heol| |]; subst.
    inversion Heol as [|b rest' He| | | |]; subst.
    apply at_eol_cases in He.
    exists w3. split; [now apply star_set_chars in Hstar|].
    rewrite string_app_nil_r.
    destruct He as [-> | ->]; [left; apply string_app_nil_r | now right].
  - intros (h & Hh & Hs).
    assert (Hm : forall rest, at_eol rest = true ->
                 matches (Cat Bol (Cat (Star (InSet rs)) Eol)) true
                         h rest).
    { intros rest He.
      change h with ("" ++ h). apply M_Cat; [constructor|]. simpl.
      rewrite <- (string_app_nil_r h). apply M_Cat.
      - now apply chars_star_set.
      - now constructor. }
    destruct Hs as [-> | ->].
    + exists h, "". split; [now rewrite string_app_nil_r | now apply Hm].
    + exists h, nl. split; [reflexivity | now apply Hm].
Qed.

(** A lowercase hex string passes the schema pattern of [_TYPE_HEX]. *)
Lemma lower_hex_type_hex s :
  all_chars is_lower_hex_digit s = true -> re_search TYPE_HEX_RE s = true.
Proof.
  intros H. unfold re_search.
  assert (Hm : re_match TYPE_HEX_RE s = true).
  { apply ReFacts.re_match_iff. apply anchored_star_language.
    exists s. split; [|now left].
    rewrite <- H. apply all_chars_ext, in_set_type_hex. }
  unfold re_match in Hm.
  destruct s; cbn [search_from]; now rewrite Hm.
Qed.

End HexFacts.

Lemma mod2_even (n : nat) : Nat.eqb (n mod 2) 0 = Nat.even n.
Proof.
  destruct (Nat.even n) eqn:E.
  - apply Nat.even_spec in E as [k ->].
    rewrite Nat.mul_comm, Nat.Div0.mod_mul. reflexivity.
  - assert (O : Nat.odd n = true) by (unfold Nat.odd; now rewrite E).
    apply Nat.odd_spec in O as [k ->].
    rewrite Nat.add_comm, Nat.mul_comm, Nat.Div0.mod_add. reflexivity.
Qed.

(* ================================================================= *)
(** ** Laws of the monad *)

Lemma M_eta {A} (m : M A) : (calls m, outcome m) = m.
Proof. now destruct m. Qed.

Lemma bind_ret_l {A B} (a : A) (f : A -> M B) : bind (ret a) f = f a.
Proof. unfold bind. simpl. apply M_eta. Qed.

Lemma bind_ret_r {A} (m : M A) : bind m ret = m.
Proof.
  destruct m as [t [a|e]]; unfold bind; simpl; [|reflexivity].
  now rewrite app_nil_r.
Qed.

Lemma bind_assoc {A B C} (m : M A) (f : A -> M B) (g : B -> M C) :
  bind (bind m f) g = bind m (fun a => bind (f a) g).
Proof.
  destruct m as [t [a|e]]; unfold bind; simpl; [|reflexivity].
  destruct (f a) as [t' [b|e']]; simpl; [|reflexivity].
  now rewrite app_assoc.
Qed.

Lemma bind_ext {A B} (m : M A) (f g : A -> M B) :
  (forall a, f a = g a) -> bind m f = bind m g.
Proof.
  intros E. unfold bind. destruct (outcome m); [now rewrite E | reflexivity].
Qed.

(** An exception ends the computation with the calls made so far. *)
Lemma bind_raises {A B} (m : M A) (f : A -> M B) t e :
  m = (t, Raise e) -> bind m f = (t, Raise e).
Proof. now intros ->. Qed.

Lemma bind_continues {A B} (m : M A) (f : A -> M B) t a :
  m = (t, Ok a) -> bind m f = (t ++ calls (f a), outcome (f a)).
Proof. now intros ->. Qed.

Lemma outcome_bind {A B} (m : M A) (f : A -> M B) :
  outcome (bind m f) =
  match outcome m with Ok a => outcome (f a) | Raise e => Raise e end.
Proof. unfold bind. now destruct (outcome m). Qed.

Lemma calls_bind {A B} (m : M A) (f : A -> M B) :
  calls (bind m f) =
  match outcome m with Ok a => calls m ++ calls (f a) | Raise _ => calls m end.
Proof. unfold bind. now destruct (outcome m). Qed.

Lemma bind_invoke_ok {A B} (c : call) (a : A) (f : A -> M B) :
  bind (invoke c (Ok a)) f = (c :: calls (f a), outcome (f a)).
Proof. reflexivity. Qed.

Lemma bind_ok_inv {A B} (m : M A) (f : A -> M B) b :
  outcome (bind m f) = Ok b ->
  exists a, outcome m = Ok a /\ outcome (f a) = Ok b.
Proof.
  rewrite outcome_bind. destruct (outcome m) as [a|e]; [|discriminate].
  intros H. now exists a.
Qed.

(* ================================================================= *)
(** ** [is_hex] *)

Lemma is_hex_string (s : string) :
  outcome (is_hex (PStr s)) =
  if Re.re_match HEX_RE s && Nat.even (String.length s)
  then Ok tt else Raise (InvalidHexData s).
Proof.
  unfold is_hex. cbn [is_string as_str]. rewrite !bind_ret_l, mod2_even.
  destruct (Re.re_match HEX_RE s); cbn [negb andb]; [|reflexivity].
  now destruct (Nat.even (String.length s)).
Qed.

(** What the pattern admits: lowercase hex digits, with or without one
    newline after them. *)
Lemma is_hex_language (s : string) :
  outcome (is_hex (PStr s)) = Ok tt <->
  Nat.even (String.length s) = true
  /\ exists h, all_chars is_lower_hex_digit h = true
               /\ (s = h \/ s = (h ++ Re.nl)%string).
Proof.
  rewrite is_hex_string.
  assert (L : Re.re_match HEX_RE s = true <->
              exists h, all_chars is_lower_hex_digit h = true
                        /\ (s = h \/ s = (h ++ Re.nl)%string)).
  { rewrite ReFacts.re_match_iff.
    unfold HEX_RE. rewrite HexFacts.anchored_star_language.
    split; intros (h & Hh & Hs); exists h; split; try exact Hs.
    - rewrite <- Hh. symmetry. apply HexFacts.all_chars_ext.
      apply HexFacts.in_set_hex.
    - rewrite <- Hh. apply HexFacts.all_chars_ext.
      apply HexFacts.in_set_hex. }
  destruct (Re.re_match HEX_RE s) eqn:Hm; simpl.
  - destruct (Nat.even (String.length s)).
    + split; [intros _|reflexivity]. split; [reflexivity | now apply L].
    + split; [discriminate | intros [H _]; discriminate].
  - split; [discriminate|]. intros [_ H]. apply L in H. discriminate.
Qed.

(** A string that ends in a newline after an odd number of hex digits is
    accepted. *)
Lemma is_hex_trailing_newline :
  outcome (is_hex (PStr ("abc" ++ Re.nl)%string)) = Ok tt.
Proof. reflexivity. Qed.

(** C5: [is_hex] succeeds on a string exactly when [re.match] finds the
    pattern [^[0-9a-f]*$] in it and its length is even; on a value that is
    not a string it raises [InvalidString]. *)
Theorem is_hex_iff (data : pyval) :
  (outcome (is_hex data) = Ok tt <->
   exists s, data = PStr s
             /\ Re.Matches HEX_RE s
             /\ Nat.even (String.length s) = true)
  /\ ((forall s, data <> PStr s) ->
      outcome (is_hex data) = Raise (InvalidString data)).
Proof.
  split.
  - split.
    + destruct data as [|b|z|s|l|d]; try discriminate.
      rewrite is_hex_string.
      destruct (Re.re_match HEX_RE s) eqn:Hm; [|discriminate].
      destruct (Nat.even (String.length s)) eqn:He; [|discriminate].
      intros _. exists s. repeat split; [|exact He].
      now apply ReFacts.re_match_iff.
    + intros (s & -> & Hm & He). rewrite is_hex_string.
      apply ReFacts.re_match_iff in Hm. now rewrite Hm, He.
  - intros H. destruct data; try reflexivity. now destruct (H s).
Qed.

Lemma is_hex_iff_witness :
  outcome (is_hex (PInt 7)) = Raise (InvalidString (PInt 7)).
Proof.
  apply (proj2 (is_hex_iff (PInt 7))). intros s. discriminate.
Defined.


(* ================================================================= *)
(** ** [is_send_tx] and [is_commit_rawtx] *)

Section SendTx.

Variable util : Util.
Variable dispatcher : Dispatcher.

(** C7: when the dispatcher reports no data for the transaction ([None] or
    the empty string), [is_send_tx] raises the [ValueError] with the message
    ["No data for given transaction!"] right after [get_tx_info]: the
    payload is not unpacked, no expected value is compared and no signature
    is checked, whatever the other arguments are. *)
Theorem is_send_tx_no_data rawtx expected_asset expected_src expected_dest
        validate_signature src dest btc fee data :
  get_tx_info dispatcher rawtx = Ok (src, dest, btc, fee, data) ->
  data = None \/ data = Some "" ->
  is_send_tx util dispatcher rawtx expected_asset expected_src expected_dest
             validate_signature
  = ([Call_get_tx_info rawtx],
     Raise (ValueError "No data for given transaction!")).
Proof.
  intros Hinfo Hdata. unfold is_send_tx. rewrite Hinfo.
  destruct Hdata as [-> | ->]; reflexivity.
Qed.

(** The outcome of [is_send_tx] once the dispatcher has answered. *)
Lemma is_send_tx_outcome rawtx expected_asset expected_src expected_dest
      validate_signature src dest btc fee data unpacked :
  send_tx_passes util dispatcher rawtx expected_asset expected_src
                 expected_dest validate_signature
                 src dest btc fee data unpacked ->
  outcome (is_send_tx util dispatcher rawtx expected_asset expected_src
                      expected_dest validate_signature)
  = Ok [ ("src", PStr src); ("dest", PStr dest); ("btc", PInt btc);
         ("fee", PInt fee); ("data", PStr data);
         ("message_type_id", PInt 0); ("unpacked", PDict unpacked) ].
Proof.
  intros (Hinfo & Hdata & Hunpack & Hsrc & Hdest & Hasset & Hsig).
  unfold is_send_tx. rewrite outcome_bind. cbn [invoke outcome snd].
  rewrite Hinfo. destruct data as [|c data]; [now destruct Hdata|].
  rewrite outcome_bind. cbn [invoke outcome snd]. rewrite Hunpack.
  rewrite outcome_bind. cbn [py_assert Z.eqb ret outcome snd].
  rewrite outcome_bind.
  assert (E1 : outcome
                 (match expected_src with
                  | Some e => if negb (String.eqb e src)
                              then raise (SourceMissmatch e src) else ret tt
                  | None => ret tt
                  end) = Ok tt).
  { destruct expected_src as [e|]; [|reflexivity].
    rewrite (Hsrc e eq_refl), String.eqb_refl. reflexivity. }
  rewrite E1. rewrite outcome_bind.
  assert (E2 : outcome
                 (match expected_dest with
                  | Some e => if negb (String.eqb e dest)
                              then raise (DestinationMissmatch e dest)
                              else ret tt
                  | None => ret tt
                  end) = Ok tt).
  { destruct expected_dest as [e|]; [|reflexivity].
    rewrite (Hdest e eq_refl), String.eqb_refl. reflexivity. }
  rewrite E2. rewrite outcome_bind.
  assert (E3 : outcome
                 (match expected_asset with
                  | Some e => do found <- getitem (PDict unpacked) "asset";
                              if str_ne e found
                              then raise (AssetMissmatch e found) else ret tt
                  | None => ret tt
                  end) = Ok tt).
  { destruct expected_asset as [e|]; [|reflexivity].
    unfold getitem. rewrite (Hasset e eq_refl), bind_ret_l.
    unfold str_ne. rewrite String.eqb_refl. reflexivity. }
  rewrite E3. rewrite outcome_bind.
  destruct validate_signature.
  - destruct (Hsig eq_refl) as (tx & Hload & Hbad).
    rewrite outcome_bind. cbn [invoke outcome snd]. rewrite Hload, Hbad.
    reflexivity.
  - reflexivity.
Qed.

(** C8: a transaction that passes all the checks of [is_send_tx] is answered
    with a record that holds its source, destination, amount ([btc]), fee
    and raw payload ([data]), and its asset inside the unpacked message. *)
Theorem is_send_tx_returns_record rawtx expected_asset expected_src
        expected_dest validate_signature src dest btc fee data unpacked a :
  send_tx_passes util dispatcher rawtx expected_asset expected_src
                 expected_dest validate_signature
                 src dest btc fee data unpacked ->
  dict_get "asset" unpacked = Some a ->
  exists r,
    outcome (is_send_tx util dispatcher rawtx expected_asset expected_src
                        expected_dest validate_signature) = Ok r
    /\ dict_get "src" r = Some (PStr src)
    /\ dict_get "dest" r = Some (PStr dest)
    /\ dict_get "btc" r = Some (PInt btc)
    /\ dict_get "fee" r = Some (PInt fee)
    /\ dict_get "data" r = Some (PStr data)
    /\ exists u, dict_get "unpacked" r = Some (PDict u)
                 /\ dict_get "asset" u = Some a.
Proof.
  intros Hpass Hasset. eexists. split.
  - exact (is_send_tx_outcome _ _ _ _ _ _ _ _ _ _ _ Hpass).
  - repeat split. exists unpacked. now split.
Qed.

End SendTx.

Lemma is_send_tx_no_data_witness :
  is_send_tx Fixture.util Fixture.dispatcher "b0"
             (Some "XCP") (Some "nobody") None true
  = ([Call_get_tx_info "b0"],
     Raise (ValueError "No data for given transaction!")).
Proof.
  apply (is_send_tx_no_data Fixture.util Fixture.dispatcher "b0"
           (Some "XCP") (Some "nobody") None true
           "XTN:dd" "" 100000%Z 10000%Z (Some "")).
  - reflexivity.
  - right. reflexivity.
Defined.

Lemma is_send_tx_returns_record_witness :
  exists r,
    outcome (is_send_tx Fixture.util Fixture.dispatcher "a1" (Some "XCP")
                        (Some "XTN:dd") (Some "XTN:c1") false) = Ok r
    /\ dict_get "src" r = Some (PStr "XTN:dd")
    /\ dict_get "dest" r = Some (PStr "XTN:c1")
    /\ dict_get "btc" r = Some (PInt 0)
    /\ dict_get "fee" r = Some (PInt 10000)
    /\ dict_get "data" r = Some (PStr "00")
    /\ exists u, dict_get "unpacked" r = Some (PDict u)
                 /\ dict_get "asset" u = Some (PStr "XCP").
Proof.
  apply (is_send_tx_returns_record Fixture.util Fixture.dispatcher "a1"
           (Some "XCP") (Some "XTN:dd") (Some "XTN:c1") false
           "XTN:dd" "XTN:c1" 0%Z 10000%Z "00" Fixture.send_payload
           (PStr "XCP")).
  - repeat split; try reflexivity; try discriminate.
    + intros e [= <-]. reflexivity.
    + intros e [= <-]. reflexivity.
    + intros e [= <-]. reflexivity.
  - reflexivity.
Defined.

(* ================================================================= *)
(** ** Loops *)

Lemma for_each_ok {A} (body : A -> M unit) (l : list A) :
  outcome (for_each l body) = Ok tt <->
  Forall (fun x => outcome (body x) = Ok tt) l.
Proof.
  induction l as [|x l IH]; simpl.
  - split; [constructor | reflexivity].
  - rewrite outcome_bind. split.
    + destruct (outcome (body x)) as [[]|e] eqn:E; [|discriminate].
      intros H. constructor; [exact E | now apply IH].
    + intros H. inversion H as [|? ? Hx Hl]; subst.
      rewrite Hx. now apply IH.
Qed.

(** A loop ends with the exception of the first iteration that raises. *)
Lemma for_each_raises {A} (body : A -> M unit) (pre post : list A) x e :
  Forall (fun y => outcome (body y) = Ok tt) pre ->
  outcome (body x) = Raise e ->
  outcome (for_each (pre ++ x :: post) body) = Raise e.
Proof.
  intros Hpre Hx. induction Hpre as [|y pre Hy _ IH]; simpl.
  - rewrite outcome_bind. now rewrite Hx.
  - rewrite outcome_bind. now rewrite Hy.
Qed.

Lemma for_each_map {A B} (f : A -> B) (body : B -> M unit) (l : list A) :
  for_each (map f l) body = for_each l (fun x => body (f x)).
Proof.
  induction l as [|x l IH]; simpl; [reflexivity|].
  apply bind_ext. intros _. exact IH.
Qed.

Lemma comprehension_ret {A B} (g : A -> B) (f : A -> M B) (l : list A) :
  (forall x, f x = ret (g x)) -> comprehension l f = ret (map g l).
Proof.
  intros E. induction l as [|x l IH]; simpl; [reflexivity|].
  now rewrite E, bind_ret_l, IH, bind_ret_l.
Qed.

(* ================================================================= *)
(** ** [len(l) == len(set(l))] *)

Lemma nodup_length_le (l : list string) :
  List.length (nodup string_dec l) <= List.length l.
Proof.
  induction l as [|x l IH]; simpl; [lia|].
  destruct (in_dec string_dec x l); simpl; lia.
Qed.

Lemma len_eq_set_len_NoDup (l : list string) :
  len_eq_set_len l = true <-> NoDup l.
Proof.
  unfold len_eq_set_len. rewrite Nat.eqb_eq. split.
  - induction l as [|x l IH]; simpl; [constructor|].
    destruct (in_dec string_dec x l) as [Hin|Hin]; simpl.
    + pose proof (nodup_length_le l). lia.
    + intros H. constructor; [exact Hin | apply IH; lia].
  - intros H. now rewrite (nodup_fixed_point string_dec H).
Qed.

(* ================================================================= *)
(** ** [is_state] on the object of a channel state *)

Section StateFacts.

Variable scripts : Scripts.
Variable util : Util.
Variable dispatcher : Dispatcher.
Variable netcode : string.

Lemma script_column_active st :
  script_column (encode_state st) "commits_active"
  = ret (map active_script (commits_active st)).
Proof.
  unfold script_column. change (getitem (encode_state st) "commits_active")
    with (@ret pyval (PList (map encode_active (commits_active st)))).
  rewrite bind_ret_l. cbn [as_list]. rewrite bind_ret_l.
  induction (commits_active st) as [|a l IH]; [reflexivity|].
  cbn [map comprehension].
  change (getitem (encode_active a) "script")
    with (@ret pyval (PStr (active_script a))).
  rewrite bind_ret_l. cbn [as_str]. now rewrite bind_ret_l, IH, bind_ret_l.
Qed.

Lemma script_column_revoked st :
  script_column (encode_state st) "commits_revoked"
  = ret (map revoked_script (commits_revoked st)).
Proof.
  unfold script_column. change (getitem (encode_state st) "commits_revoked")
    with (@ret pyval (PList (map encode_revoked (commits_revoked st)))).
  rewrite bind_ret_l. cbn [as_list]. rewrite bind_ret_l.
  induction (commits_revoked st) as [|a l IH]; [reflexivity|].
  cbn [map comprehension].
  change (getitem (encode_revoked a) "script")
    with (@ret pyval (PStr (revoked_script a))).
  rewrite bind_ret_l. cbn [as_str]. now rewrite bind_ret_l, IH, bind_ret_l.
Qed.

(** [is_state] on the object of a channel state, with the reads of the
    object carried out. *)
Lemma is_state_encode st :
  is_state scripts util dispatcher (encode_state st) netcode
  = (JsonSchema.validate (encode_state st) _STATE_SCHEMA ;;
     py_assert (len_eq_set_len (all_scripts st)) 218 ;;
     is_asset dispatcher (PStr (asset st)) ;;
     do deposit_address <- script_address_ util (deposit_script st) netcode;
     do deposit_spend_hash <-
       invoke (Call_get_deposit_spend_secret_hash (deposit_script st))
              (get_deposit_spend_secret_hash scripts (deposit_script st));
     invoke (Call_validate_deposit_script (deposit_script st))
            (validate_deposit_script scripts (deposit_script st)) ;;
     for_each (map encode_revoked (commits_revoked st))
              (revoked_body scripts util deposit_spend_hash) ;;
     for_each (map encode_active (commits_active st))
              (active_body scripts util dispatcher (asset st)
                           (deposit_script st) deposit_spend_hash netcode)).
Proof.
  unfold is_state. apply bind_ext. intros _.
  rewrite script_column_active, bind_ret_l.
  rewrite script_column_revoked, bind_ret_l.
  apply bind_ext. intros _.
  change (getitem (encode_state st) "asset")
    with (@ret pyval (PStr (asset st))).
  rewrite bind_ret_l. apply bind_ext. intros _.
  cbn [as_str]. rewrite bind_ret_l.
  change (getitem (encode_state st) "deposit_script")
    with (@ret pyval (PStr (deposit_script st))).
  rewrite bind_ret_l. cbn [as_str]. rewrite bind_ret_l.
  apply bind_ext. intros deposit_address.
  apply bind_ext. intros deposit_spend_hash.
  apply bind_ext. intros _.
  change (getitem (encode_state st) "commits_revoked")
    with (@ret pyval (PList (map encode_revoked (commits_revoked st)))).
  rewrite bind_ret_l. cbn [as_list]. rewrite bind_ret_l.
  apply bind_ext. intros _.
  change (getitem (encode_state st) "commits_active")
    with (@ret pyval (PList (map encode_active (commits_active st)))).
  rewrite bind_ret_l. cbn [as_list]. now rewrite bind_ret_l.
Qed.

End StateFacts.

(** After [rewrite outcome_bind]: case analysis on how the first computation
    ended, keeping the equation; the exceptional case closes the goal. *)
Ltac first_outcome E :=
  rewrite outcome_bind;
  lazymatch goal with
  | |- match ?o with _ => _ end = _ -> _ =>
      destruct o as [?|?] eqn:E; [|discriminate]
  end.

Lemma expected_check_ok (expected : option string) (found : string)
      (mk : string -> string -> exn) u :
  outcome (match expected with
           | Some e => if negb (String.eqb e found)
                       then raise (mk e found) else ret tt
           | None => ret tt
           end) = Ok u ->
  forall e, expected = Some e -> e = found.
Proof.
  intros H e ->. destruct (String.eqb_spec e found); [assumption|discriminate].
Qed.

Section SendTxInversion.

Variable util : Util.
Variable dispatcher : Dispatcher.

(** [is_send_tx] returns only when all its checks pass. *)
Lemma is_send_tx_ok_inv rawtx expected_asset expected_src expected_dest
      validate_signature r :
  outcome (is_send_tx util dispatcher rawtx expected_asset expected_src
                      expected_dest validate_signature) = Ok r ->
  exists src dest btc fee data unpacked,
    send_tx_passes util dispatcher rawtx expected_asset expected_src
                   expected_dest validate_signature
                   src dest btc fee data unpacked.
Proof.
  unfold is_send_tx. rewrite outcome_bind. cbn [invoke outcome snd].
  destruct (get_tx_info dispatcher rawtx)
    as [[[[[src dest] btc] fee] data]|e] eqn:Hinfo; [|discriminate].
  destruct data as [[|c data]|]; [discriminate| |discriminate].
  rewrite outcome_bind. cbn [invoke outcome snd].
  destruct (unpack dispatcher (String c data)) as [[mt unpacked]|e] eqn:Hun;
    [|discriminate].
  rewrite outcome_bind. unfold py_assert.
  destruct (Z.eqb_spec mt 0) as [->|Hmt]; [|discriminate].
  cbn [ret outcome snd].
  first_outcome E1. first_outcome E2. first_outcome E3. first_outcome E4.
  intros _.
  exists src, dest, btc, fee, (String c data), unpacked.
  split; [exact Hinfo|]. split; [discriminate|]. split; [exact Hun|].
  split; [exact (expected_check_ok _ _ _ _ E1)|].
  split; [exact (expected_check_ok _ _ _ _ E2)|].
  split.
  - intros e ->. revert E3. unfold getitem.
    destruct (dict_get "asset" unpacked) as [found|]; [|discriminate].
    rewrite bind_ret_l. destruct found; try discriminate.
    unfold str_ne. destruct (String.eqb_spec e s); [now subst|discriminate].
  - intros ->. revert E4. rewrite outcome_bind. cbn [invoke outcome snd].
    destruct (load_tx util (getrawtransaction dispatcher) rawtx) as [tx|];
      [|discriminate].
    destruct (Z.eqb_spec (bad_signature_count util tx) 0); [|discriminate].
    intros _. now exists tx.
Qed.

End SendTxInversion.

Section Bodies.

Variable scripts : Scripts.
Variable util : Util.
Variable dispatcher : Dispatcher.
Variable netcode : string.

(** A transaction that pays somebody else than expected, all checks before
    the destination passing. *)
Lemma is_send_tx_destination rawtx expected_asset expected_dest
      validate_signature src dest btc fee data unpacked :
  get_tx_info dispatcher rawtx = Ok (src, dest, btc, fee, Some data) ->
  data <> "" ->
  unpack dispatcher data = Ok (0%Z, unpacked) ->
  expected_dest <> dest ->
  outcome (is_send_tx util dispatcher rawtx expected_asset (Some src)
                      (Some expected_dest) validate_signature)
  = Raise (DestinationMissmatch expected_dest dest).
Proof.
  intros Hinfo Hdata Hun Hne. unfold is_send_tx.
  rewrite outcome_bind. cbn [invoke outcome snd]. rewrite Hinfo.
  destruct data as [|c data]; [now destruct Hdata|].
  rewrite outcome_bind. cbn [invoke outcome snd]. rewrite Hun.
  rewrite outcome_bind. cbn [py_assert Z.eqb ret outcome snd].
  rewrite outcome_bind, String.eqb_refl. cbn [negb ret outcome snd].
  rewrite outcome_bind.
  destruct (String.eqb_spec expected_dest dest); [contradiction|reflexivity].
Qed.

Lemma is_commit_rawtx_outcome rawtx a D C vs ca da :
  script_address util C netcode = Ok ca ->
  script_address util D netcode = Ok da ->
  outcome (is_commit_rawtx util dispatcher rawtx a D C netcode vs)
  = match outcome (is_send_tx util dispatcher rawtx (Some a) (Some da)
                              (Some ca) vs) with
    | Ok _ => Ok tt
    | Raise e => Raise e
    end.
Proof.
  intros HC HD. unfold is_commit_rawtx, script_address_.
  rewrite outcome_bind. cbn [invoke outcome snd]. rewrite HC.
  rewrite outcome_bind. cbn [invoke outcome snd]. rewrite HD.
  rewrite outcome_bind. now destruct (outcome (is_send_tx _ _ _ _ _ _ _)).
Qed.

Lemma ledger_send_passes rawtx a src dest :
  ledger_send dispatcher rawtx a src dest <->
  exists s d btc fee data unpacked,
    send_tx_passes util dispatcher rawtx (Some a) (Some src) (Some dest)
                   false s d btc fee data unpacked.
Proof.
  split.
  - intros (btc & fee & data & unpacked & Hinfo & Hdata & Hun & Ha).
    exists src, dest, btc, fee, data, unpacked.
    repeat split; try assumption; try discriminate; now intros e [= <-].
  - intros (s & d & btc & fee & data & unpacked
            & Hinfo & Hdata & Hun & Hs & Hd & Ha & _).
    rewrite <- (Hs src eq_refl), <- (Hd dest eq_refl) in Hinfo.
    exists btc, fee, data, unpacked. repeat split; try assumption.
    now apply Ha.
Qed.

Lemma revoked_body_encode h r :
  revoked_body scripts util h (encode_revoked r)
  = (invoke (Call_validate_commit_script (revoked_script r))
            (validate_commit_script scripts (revoked_script r)) ;;
     do r_spend_hash <-
       invoke (Call_get_commit_spend_secret_hash (revoked_script r))
              (get_commit_spend_secret_hash scripts (revoked_script r));
     py_assert (String.eqb r_spend_hash h) 237 ;;
     do revoke_hash <-
       invoke (Call_get_commit_revoke_secret_hash (revoked_script r))
              (get_commit_revoke_secret_hash scripts (revoked_script r));
     do secret_hash <- invoke (Call_hash160hex (revoke_secret r))
                         (hash160hex util (revoke_secret r));
     py_assert (String.eqb revoke_hash secret_hash) 241).
Proof.
  unfold revoked_body.
  change (getitem (encode_revoked r) "script")
    with (@ret pyval (PStr (revoked_script r))).
  rewrite bind_ret_l. cbn [as_str]. rewrite bind_ret_l.
  apply bind_ext. intros _. apply bind_ext. intros r_spend_hash.
  apply bind_ext. intros _. apply bind_ext. intros revoke_hash.
  change (getitem (encode_revoked r) "revoke_secret")
    with (@ret pyval (PStr (revoke_secret r))).
  rewrite bind_ret_l. cbn [as_str]. now rewrite bind_ret_l.
Qed.

Lemma active_body_encode a D h e :
  active_body scripts util dispatcher a D h netcode (encode_active e)
  = (invoke (Call_validate_commit_script (active_script e))
            (validate_commit_script scripts (active_script e)) ;;
     do a_spend_hash <-
       invoke (Call_get_commit_spend_secret_hash (active_script e))
              (get_commit_spend_secret_hash scripts (active_script e));
     py_assert (String.eqb a_spend_hash h) 251 ;;
     is_commit_rawtx util dispatcher (active_rawtx e) a D (active_script e)
                     netcode false).
Proof.
  unfold active_body.
  change (getitem (encode_active e) "script")
    with (@ret pyval (PStr (active_script e))).
  rewrite bind_ret_l. cbn [as_str]. rewrite bind_ret_l.
  apply bind_ext. intros _. apply bind_ext. intros a_spend_hash.
  apply bind_ext. intros _.
  change (getitem (encode_active e) "rawtx")
    with (@ret pyval (PStr (active_rawtx e))).
  rewrite bind_ret_l. cbn [as_str]. now rewrite bind_ret_l.
Qed.

(** The start of both loop bodies: the script is a commit script with the
    spend secret hash of the deposit. *)
Lemma commit_checks {A} (C h : string) (line : nat) (k : M A) :
  commit_valid scripts h C ->
  outcome (invoke (Call_validate_commit_script C)
                  (validate_commit_script scripts C) ;;
           do spend_hash <- invoke (Call_get_commit_spend_secret_hash C)
                              (get_commit_spend_secret_hash scripts C);
           py_assert (String.eqb spend_hash h) line ;;
           k)
  = outcome k.
Proof.
  intros [Hv Hh].
  rewrite outcome_bind. cbn [invoke outcome snd]. rewrite Hv.
  rewrite outcome_bind. cbn [invoke outcome snd]. rewrite Hh.
  rewrite outcome_bind, String.eqb_refl. reflexivity.
Qed.

Lemma commit_checks_inv {A} (C h : string) (line : nat) (k : M A) a :
  outcome (invoke (Call_validate_commit_script C)
                  (validate_commit_script scripts C) ;;
           do spend_hash <- invoke (Call_get_commit_spend_secret_hash C)
                              (get_commit_spend_secret_hash scripts C);
           py_assert (String.eqb spend_hash h) line ;;
           k) = Ok a ->
  commit_valid scripts h C /\ outcome k = Ok a.
Proof.
  rewrite outcome_bind. cbn [invoke outcome snd].
  destruct (validate_commit_script scripts C) as [[]|] eqn:Hv; [|discriminate].
  rewrite outcome_bind. cbn [invoke outcome snd].
  destruct (get_commit_spend_secret_hash scripts C) as [sh|] eqn:Hh;
    [|discriminate].
  rewrite outcome_bind. unfold py_assert.
  destruct (String.eqb_spec sh h) as [->|]; [|discriminate].
  intros H. repeat split; assumption.
Qed.

Lemma revoked_body_ok h r :
  outcome (revoked_body scripts util h (encode_revoked r)) = Ok tt <->
  revoked_valid scripts util h r.
Proof.
  rewrite revoked_body_encode. split.
  - intros H. apply commit_checks_inv in H as [Hc H]. split; [exact Hc|].
    revert H. rewrite outcome_bind. cbn [invoke outcome snd].
    destruct (get_commit_revoke_secret_hash scripts (revoked_script r))
      as [rh|] eqn:Hrh; [|discriminate].
    rewrite outcome_bind. cbn [invoke outcome snd].
    destruct (hash160hex util (revoke_secret r)) as [sh|] eqn:Hsh;
      [|discriminate].
    unfold py_assert. destruct (String.eqb_spec rh sh) as [->|];
      [|discriminate].
    intros _. now exists sh.
  - intros [Hc (rh & Hrh & Hsh)]. rewrite (commit_checks _ _ _ _ Hc).
    rewrite outcome_bind. cbn [invoke outcome snd]. rewrite Hrh.
    rewrite outcome_bind. cbn [invoke outcome snd]. rewrite Hsh.
    unfold py_assert. now rewrite String.eqb_refl.
Qed.

Lemma revoked_body_differs h r :
  commit_valid scripts h (revoked_script r) ->
  revoke_secret_differs scripts util r ->
  outcome (revoked_body scripts util h (encode_revoked r))
  = Raise (AssertionError 241).
Proof.
  intros Hc (rh & sh & Hrh & Hsh & Hne).
  rewrite revoked_body_encode, (commit_checks _ _ _ _ Hc).
  rewrite outcome_bind. cbn [invoke outcome snd]. rewrite Hrh.
  rewrite outcome_bind. cbn [invoke outcome snd]. rewrite Hsh.
  unfold py_assert.
  destruct (String.eqb_spec rh sh); [contradiction|reflexivity].
Qed.

Lemma active_body_ok a D daddr h e :
  script_address util D netcode = Ok daddr ->
  outcome (active_body scripts util dispatcher a D h netcode
                       (encode_active e)) = Ok tt <->
  active_valid scripts util dispatcher netcode a daddr h e.
Proof.
  intros HD. rewrite active_body_encode. split.
  - intros H. apply commit_checks_inv in H as [Hc H]. split; [exact Hc|].
    revert H. unfold is_commit_rawtx, script_address_.
    rewrite outcome_bind. cbn [invoke outcome snd].
    destruct (script_address util (active_script e) netcode) as [ca|] eqn:HC;
      [|discriminate].
    rewrite outcome_bind. cbn [invoke outcome snd]. rewrite HD.
    first_outcome E. intros _.
    exists ca. split; [reflexivity|].
    apply ledger_send_passes. now apply is_send_tx_ok_inv in E.
  - intros [Hc (ca & HC & Hsend)]. rewrite (commit_checks _ _ _ _ Hc).
    rewrite (is_commit_rawtx_outcome _ _ _ _ _ _ _ HC HD).
    apply ledger_send_passes in Hsend
      as (s & d & btc & fee & data & unpacked & Hpass).
    now rewrite (is_send_tx_outcome _ _ _ _ _ _ _ _ _ _ _ _ _ Hpass).
Qed.

End Bodies.

Section StateOutcome.

Variable scripts : Scripts.
Variable util : Util.
Variable dispatcher : Dispatcher.
Variable netcode : string.

Lemma is_asset_ok a :
  outcome (is_asset dispatcher (PStr a)) = Ok tt <->
  asset_listed dispatcher a.
Proof.
  unfold is_asset, asset_listed. cbn [is_string]. rewrite bind_ret_l.
  rewrite outcome_bind. cbn [invoke outcome snd py_in].
  destruct (get_assets dispatcher) as [entries|e]; split.
  - destruct (existsb (String.eqb a) (map asset_name entries)) eqn:E;
      [|discriminate].
    intros _. exists entries. split; [reflexivity|].
    apply existsb_exists in E as (x & Hin & Hx).
    apply String.eqb_eq in Hx. now subst.
  - intros (entries' & [= <-] & Hin).
    assert (E : existsb (String.eqb a) (map asset_name entries) = true).
    { apply existsb_exists. exists a. split; [exact Hin|].
      apply String.eqb_refl. }
    now rewrite E.
  - discriminate.
  - intros (entries' & H & _). discriminate.
Qed.

(** Once the schema, the uniqueness of the scripts, the asset and the
    deposit script are fine, the outcome is the one of the two loops. *)
Lemma is_state_after_deposit st daddr h :
  well_formed st ->
  NoDup (all_scripts st) ->
  asset_listed dispatcher (asset st) ->
  deposit_valid scripts util netcode (deposit_script st) daddr h ->
  outcome (is_state scripts util dispatcher (encode_state st) netcode)
  = outcome
      (for_each (map encode_revoked (commits_revoked st))
                (revoked_body scripts util h) ;;
       for_each (map encode_active (commits_active st))
                (active_body scripts util dispatcher (asset st)
                             (deposit_script st) h netcode)).
Proof.
  intros Hwf Hnd Ha (Haddr & Hh & Hv). rewrite is_state_encode.
  rewrite outcome_bind. unfold JsonSchema.validate.
  unfold well_formed in Hwf. rewrite Hwf. cbn [ret outcome snd].
  apply len_eq_set_len_NoDup in Hnd.
  rewrite outcome_bind, Hnd. cbn [py_assert ret outcome snd].
  apply is_asset_ok in Ha. rewrite outcome_bind, Ha.
  unfold script_address_.
  rewrite outcome_bind. cbn [invoke outcome snd]. rewrite Haddr.
  rewrite outcome_bind. cbn [invoke outcome snd]. rewrite Hh.
  rewrite outcome_bind. cbn [invoke outcome snd]. rewrite Hv.
  reflexivity.
Qed.

Lemma is_state_ok_inv st :
  outcome (is_state scripts util dispatcher (encode_state st) netcode)
  = Ok tt ->
  well_formed st
  /\ NoDup (all_scripts st)
  /\ asset_listed dispatcher (asset st)
  /\ exists daddr h,
       deposit_valid scripts util netcode (deposit_script st) daddr h.
Proof.
  rewrite is_state_encode.
  rewrite outcome_bind. unfold JsonSchema.validate, well_formed.
  destruct (JsonSchema.is_valid _STATE_SCHEMA (encode_state st));
    [|discriminate].
  cbn [ret outcome snd]. rewrite outcome_bind. unfold py_assert.
  destruct (len_eq_set_len (all_scripts st)) eqn:Hnd; [|discriminate].
  apply len_eq_set_len_NoDup in Hnd. cbn [ret outcome snd].
  rewrite outcome_bind.
  destruct (outcome (is_asset dispatcher (PStr (asset st)))) as [[]|] eqn:Ha;
    [|discriminate].
  apply is_asset_ok in Ha.
  unfold script_address_, deposit_valid.
  rewrite outcome_bind. cbn [invoke outcome snd].
  destruct (script_address util (deposit_script st) netcode) as [daddr|];
    [|discriminate].
  rewrite outcome_bind. cbn [invoke outcome snd].
  destruct (get_deposit_spend_secret_hash scripts (deposit_script st))
    as [h|]; [|discriminate].
  rewrite outcome_bind. cbn [invoke outcome snd].
  destruct (validate_deposit_script scripts (deposit_script st)) as [[]|];
    [|discriminate].
  intros _. repeat split; try assumption. now exists daddr, h.
Qed.

(** [is_state] succeeds on exactly the valid channel states. *)
Lemma is_state_ok_iff st :
  outcome (is_state scripts util dispatcher (encode_state st) netcode)
  = Ok tt <->
  state_valid scripts util dispatcher netcode st.
Proof.
  split.
  - intros H. pose proof (is_state_ok_inv st H)
      as (Hwf & Hnd & Ha & daddr & h & Hd).
    rewrite (is_state_after_deposit st daddr h Hwf Hnd Ha Hd) in H.
    apply bind_ok_inv in H as ([] & Hr & Hact).
    cbv beta in Hact. rewrite for_each_map in Hr. rewrite for_each_map in Hact.
    apply for_each_ok in Hr. apply for_each_ok in Hact.
    repeat split; try assumption. exists daddr, h.
    split; [exact Hd|]. split.
    + revert Hr. apply Forall_impl. intros r. apply revoked_body_ok.
    + revert Hact. apply Forall_impl. intros e.
      apply active_body_ok. apply Hd.
  - intros (Hwf & Hnd & Ha & daddr & h & Hd & Hr & Hact).
    rewrite (is_state_after_deposit st daddr h Hwf Hnd Ha Hd).
    rewrite outcome_bind, !for_each_map.
    assert (E : outcome
                  (for_each (commits_revoked st)
                     (fun r => revoked_body scripts util h (encode_revoked r)))
                = Ok tt).
    { apply for_each_ok. revert Hr. apply Forall_impl.
      intros r. apply revoked_body_ok. }
    rewrite E. apply for_each_ok. revert Hact. apply Forall_impl.
    intros e. apply active_body_ok. apply Hd.
Qed.

End StateOutcome.

(* ================================================================= *)
(** ** The schema on the object of a channel state *)

Lemma forallb_map_ext {A B} (f : B -> bool) (g : A -> B) (h : A -> bool)
      (l : list A) :
  (forall x, f (g x) = h x) -> forallb f (map g l) = forallb h l.
Proof.
  intros E. induction l as [|x l IH]; simpl; [reflexivity|].
  now rewrite E, IH.
Qed.

(** What the schema asks of a channel state: the hex pattern on the deposit
    script, on the requested commits and on both fields of every entry. *)
Lemma is_valid_encode_state st :
  JsonSchema.is_valid _STATE_SCHEMA (encode_state st)
  = hex_pattern (deposit_script st)
    && forallb hex_pattern (commits_requested st)
    && forallb (fun a => hex_pattern (active_rawtx a)
                         && hex_pattern (active_script a))
               (commits_active st)
    && forallb (fun r => hex_pattern (revoked_script r)
                         && hex_pattern (revoke_secret r))
               (commits_revoked st).
Proof.
  unfold _STATE_SCHEMA, encode_state.
  cbn -[Re.re_search _TYPE_HEX forallb].
  rewrite (forallb_map_ext _ PStr hex_pattern).
  2:{ intros x. unfold hex_pattern. cbn -[Re.re_search].
      now rewrite !andb_true_r. }
  rewrite (forallb_map_ext _ encode_active
             (fun a => hex_pattern (active_rawtx a)
                       && hex_pattern (active_script a))).
  2:{ intros x. unfold hex_pattern. cbn -[Re.re_search].
      now rewrite !andb_true_r. }
  rewrite (forallb_map_ext _ encode_revoked
             (fun r => hex_pattern (revoked_script r)
                       && hex_pattern (revoke_secret r))).
  2:{ intros x. unfold hex_pattern. cbn -[Re.re_search].
      now rewrite !andb_true_r. }
  unfold hex_pattern at 1.
  cbn -[Re.re_search hex_pattern forallb].
  cbn [forallb]. cbn -[Re.re_search hex_pattern forallb].
  now rewrite !andb_true_r, !andb_assoc.
Qed.

Lemma well_formed_set_commits_requested st l :
  well_formed st ->
  Forall lower_even_hex l ->
  well_formed (set_commits_requested l st).
Proof.
  unfold well_formed. rewrite !is_valid_encode_state.
  cbn [set_commits_requested deposit_script commits_requested commits_active
       commits_revoked].
  intros H Hl.
  apply andb_true_iff in H as [H Hr]. apply andb_true_iff in H as [H Ha].
  apply andb_true_iff in H as [Hd _].
  rewrite Hd, Ha, Hr, !andb_true_r. cbn [andb].
  apply forallb_forall. rewrite Forall_forall in Hl.
  intros s Hs. apply HexFacts.lower_hex_type_hex. now apply Hl.
Qed.

(* ================================================================= *)
(** ** Objects that pass the schema are objects of channel states *)

Lemma decode_encode_state st : decode_state (encode_state st) = st.
Proof.
  destruct st as [a D lr la lv]. unfold decode_state, encode_state. cbn.
  f_equal.
  - rewrite map_map. rewrite <- (map_id lr) at 2. now apply map_ext.
  - rewrite map_map. rewrite <- (map_id la) at 2. apply map_ext.
    now intros [].
  - rewrite map_map. rewrite <- (map_id lv) at 2. apply map_ext.
    now intros [].
Qed.

Module SchemaFacts.
Import JsonSchema.

(** A required property of an object that passes is there and passes its
    own schema. *)
Lemma is_valid_required ty pat props req addl items d k sub :
  is_valid (Schema ty pat props req addl items) (PDict d) = true ->
  In (k, sub) props ->
  In k req ->
  exists x, dict_get k d = Some x /\ is_valid sub x = true.
Proof.
  cbn [is_valid]. intros H Hk Hreq.
  apply andb_true_iff in H as [H _]. apply andb_true_iff in H as [_ H].
  apply andb_true_iff in H as [H _]. apply andb_true_iff in H as [Hp Hr].
  rewrite forallb_forall in Hr. specialize (Hr k Hreq).
  unfold dict_has in Hr. destruct (dict_get k d) as [x|] eqn:E;
    [|discriminate].
  exists x. split; [reflexivity|].
  clear Hr Hreq. induction props as [|[k' sub'] props IH]; [destruct Hk|].
  apply andb_true_iff in Hp as [Hhd Htl].
  destruct Hk as [[= -> ->]|Hk]; [now rewrite E in Hhd | now apply IH].
Qed.

Lemma is_valid_string x :
  is_valid (Schema (Some TString) None [] [] true None) x = true ->
  exists s, x = PStr s.
Proof. destruct x; try discriminate. intros _. now exists s. Qed.

Lemma is_valid_hex x :
  is_valid _TYPE_HEX x = true -> exists s, x = PStr s /\ hex_pattern s = true.
Proof.
  destruct x; try discriminate. unfold _TYPE_HEX, hex_pattern.
  cbn -[Re.re_search]. rewrite !andb_true_r. intros H. now exists s.
Qed.

Lemma is_valid_array sub x :
  is_valid (Schema (Some TArray) None [] [] true (Some sub)) x = true ->
  exists l, x = PList l /\ forallb (is_valid sub) l = true.
Proof.
  destruct x; try discriminate. cbn [is_valid check_type andb].
  intros H. now exists l.
Qed.

End SchemaFacts.

Module DecodeFacts.
Import JsonSchema SchemaFacts.

Lemma required_hex ty pat props req addl items obj k :
  is_valid (Schema ty (pat : option Re.regex) props req addl items) obj
  = true ->
  (exists d, obj = PDict d) ->
  In (k, _TYPE_HEX) props ->
  In k req ->
  reads_str obj k /\ hex_pattern (str_of (field k obj)) = true.
Proof.
  intros H [d ->] Hk Hreq.
  destruct (is_valid_required _ _ _ _ _ _ _ _ _ H Hk Hreq) as (x & Hx & Hv).
  apply is_valid_hex in Hv as (s & -> & Hs).
  unfold reads_str, field, getitem. now rewrite Hx.
Qed.

Lemma required_array ty pat props req addl items d k sub :
  is_valid (Schema ty (pat : option Re.regex) props req addl items) (PDict d)
  = true ->
  In (k, Schema (Some TArray) None [] [] true (Some sub)) props ->
  In k req ->
  reads_list (PDict d) k
  /\ forallb (is_valid sub) (list_of (field k (PDict d))) = true.
Proof.
  intros H Hk Hreq.
  destruct (is_valid_required _ _ _ _ _ _ _ _ _ H Hk Hreq) as (x & Hx & Hv).
  apply is_valid_array in Hv as (l & -> & Hl).
  unfold reads_list, field, getitem. now rewrite Hx.
Qed.

Lemma is_valid_object ty pat props req addl items obj :
  is_valid (Schema (Some ty) pat props req addl items) obj = true ->
  ty = TObject ->
  exists d, obj = PDict d.
Proof.
  intros H ->. destruct obj; try discriminate. now exists d.
Qed.

(** What passing [_STATE_SCHEMA] gives to the reads of [is_state]. *)
Lemma schema_reads state_data :
  is_valid _STATE_SCHEMA state_data = true ->
  reads_str state_data "asset"
  /\ (reads_str state_data "deposit_script"
      /\ hex_pattern (str_of (field "deposit_script" state_data)) = true)
  /\ (reads_list state_data "commits_requested"
      /\ Forall (fun x => x = PStr (str_of x) /\ hex_pattern (str_of x) = true)
                (list_of (field "commits_requested" state_data)))
  /\ (reads_list state_data "commits_active"
      /\ Forall (fun c =>
                   (reads_str c "rawtx"
                    /\ hex_pattern (str_of (field "rawtx" c)) = true)
                   /\ (reads_str c "script"
                       /\ hex_pattern (str_of (field "script" c)) = true))
                (list_of (field "commits_active" state_data)))
  /\ (reads_list state_data "commits_revoked"
      /\ Forall (fun c =>
                   (reads_str c "script"
                    /\ hex_pattern (str_of (field "script" c)) = true)
                   /\ (reads_str c "revoke_secret"
                       /\ hex_pattern (str_of (field "revoke_secret" c))
                          = true))
                (list_of (field "commits_revoked" state_data))).
Proof.
  intros H.
  destruct (is_valid_object _ _ _ _ _ _ _ H eq_refl) as [d ->].
  unfold _STATE_SCHEMA in H.
  split; [|split; [|split; [|split]]].
  - destruct (is_valid_required
                _ _ _ _ _ _ _ "asset"
                (Schema (Some TString) None [] [] true None) H
                (or_introl eq_refl) (or_introl eq_refl)) as (x & Hx & Hv).
    apply is_valid_string in Hv as [s ->].
    unfold reads_str, field, getitem. now rewrite Hx.
  - apply (required_hex _ _ _ _ _ _ _ _ H); simpl; eauto.
  - destruct (required_array _ _ _ _ _ _ _ "commits_requested" _TYPE_HEX H)
      as [Hr Hl]; simpl; auto.
    split; [exact Hr|].
    apply Forall_forall. intros x Hx.
    rewrite forallb_forall in Hl. apply Hl in Hx.
    now apply is_valid_hex in Hx as (s & -> & Hs).
  - destruct (required_array
                _ _ _ _ _ _ _ "commits_active"
                (Schema (Some TObject) None
                        [("rawtx", _TYPE_HEX); ("script", _TYPE_HEX)]
                        ["rawtx"; "script"] false None) H)
      as [Hr Hl]; simpl; auto 6.
    split; [exact Hr|].
    apply Forall_forall. intros c Hc.
    rewrite forallb_forall in Hl. apply Hl in Hc.
    pose proof (is_valid_object _ _ _ _ _ _ _ Hc eq_refl) as Hd.
    split; apply (required_hex _ _ _ _ _ _ _ _ Hc Hd); simpl; auto.
  - destruct (required_array
                _ _ _ _ _ _ _ "commits_revoked"
                (Schema (Some TObject) None
                        [("script", _TYPE_HEX); ("revoke_secret", _TYPE_HEX)]
                        ["script"; "revoke_secret"] false None) H)
      as [Hr Hl]; simpl; auto 7.
    split; [exact Hr|].
    apply Forall_forall. intros c Hc.
    rewrite forallb_forall in Hl. apply Hl in Hc.
    pose proof (is_valid_object _ _ _ _ _ _ _ Hc eq_refl) as Hd.
    split; apply (required_hex _ _ _ _ _ _ _ _ Hc Hd); simpl; auto.
Qed.

End DecodeFacts.

Lemma for_each_ext {A} (l : list A) (f g : A -> M unit) :
  Forall (fun x => f x = g x) l -> for_each l f = for_each l g.
Proof.
  induction 1 as [|x l Hx _ IH]; simpl; [reflexivity|].
  rewrite Hx. apply bind_ext. intros _. exact IH.
Qed.

Section Decode.

Variable scripts : Scripts.
Variable util : Util.
Variable dispatcher : Dispatcher.
Variable netcode : string.

Lemma script_column_reads state_data key :
  reads_list state_data key ->
  Forall (fun c => reads_str c "script") (list_of (field key state_data)) ->
  script_column state_data key
  = ret (map (fun c => str_of (field "script" c))
             (list_of (field key state_data))).
Proof.
  intros Hl Hs. unfold script_column. rewrite Hl, bind_ret_l.
  cbn [as_list]. rewrite bind_ret_l.
  induction Hs as [|c l Hc _ IH]; [reflexivity|].
  cbn [map comprehension]. rewrite Hc, bind_ret_l. cbn [as_str].
  now rewrite bind_ret_l, IH, bind_ret_l.
Qed.

Lemma revoked_body_reads h c :
  reads_str c "script" ->
  reads_str c "revoke_secret" ->
  revoked_body scripts util h c
  = revoked_body scripts util h (encode_revoked (decode_revoked c)).
Proof.
  intros Hs Hr. rewrite revoked_body_encode.
  cbn [decode_revoked revoked_script revoke_secret].
  unfold revoked_body. rewrite Hs, bind_ret_l. cbn [as_str].
  rewrite bind_ret_l.
  apply bind_ext. intros _. apply bind_ext. intros r_spend_hash.
  apply bind_ext. intros _. apply bind_ext. intros revoke_hash.
  rewrite Hr, bind_ret_l. cbn [as_str]. now rewrite bind_ret_l.
Qed.

Lemma active_body_reads a D h c :
  reads_str c "rawtx" ->
  reads_str c "script" ->
  active_body scripts util dispatcher a D h netcode c
  = active_body scripts util dispatcher a D h netcode
                (encode_active (decode_active c)).
Proof.
  intros Hr Hs. rewrite active_body_encode.
  cbn [decode_active active_script active_rawtx].
  unfold active_body. rewrite Hs, bind_ret_l. cbn [as_str].
  rewrite bind_ret_l.
  apply bind_ext. intros _. apply bind_ext. intros a_spend_hash.
  apply bind_ext. intros _.
  rewrite Hr, bind_ret_l. cbn [as_str]. now rewrite bind_ret_l.
Qed.

(** Every [state_data] that passes the schema is checked by [is_state] as
    the object of the channel state read back from it, which is well
    formed. *)
Lemma is_state_decode state_data :
  JsonSchema.is_valid _STATE_SCHEMA state_data = true ->
  well_formed (decode_state state_data)
  /\ is_state scripts util dispatcher state_data netcode
     = is_state scripts util dispatcher
                (encode_state (decode_state state_data)) netcode.
Proof.
  intros Hv.
  destruct (DecodeFacts.schema_reads state_data Hv)
    as (Ha & [HD HDhex] & [_ Hreq] & [Hact Hacts] & [Hrev Hrevs]).
  assert (Hwf : well_formed (decode_state state_data)).
  { unfold well_formed. rewrite is_valid_encode_state.
    cbn [decode_state deposit_script commits_requested commits_active
         commits_revoked].
    rewrite HDhex. cbn [andb]. repeat (apply andb_true_iff; split).
    - apply forallb_forall. intros s Hs.
      apply in_map_iff in Hs as (x & <- & Hx).
      rewrite Forall_forall in Hreq. now apply Hreq.
    - apply forallb_forall. intros e He.
      apply in_map_iff in He as (c & <- & Hc).
      rewrite Forall_forall in Hacts.
      destruct (Hacts c Hc) as [[_ H1] [_ H2]].
      cbn [decode_active active_rawtx active_script]. now rewrite H1, H2.
    - apply forallb_forall. intros e He.
      apply in_map_iff in He as (c & <- & Hc).
      rewrite Forall_forall in Hrevs.
      destruct (Hrevs c Hc) as [[_ H1] [_ H2]].
      cbn [decode_revoked revoked_script revoke_secret]. now rewrite H1, H2. }
  split; [exact Hwf|].
  rewrite is_state_encode. unfold is_state, JsonSchema.validate.
  unfold well_formed in Hwf. rewrite Hv, Hwf, !bind_ret_l.
  rewrite (script_column_reads _ _ Hact).
  2:{ revert Hacts. apply Forall_impl. intros c H. apply H. }
  rewrite bind_ret_l.
  rewrite (script_column_reads _ _ Hrev).
  2:{ revert Hrevs. apply Forall_impl. intros c H. apply H. }
  rewrite bind_ret_l.
  unfold all_scripts.
  cbn [decode_state asset deposit_script commits_active commits_revoked].
  rewrite !map_map. cbn [decode_active decode_revoked active_script
                         revoked_script].
  apply bind_ext. intros _.
  rewrite Ha, bind_ret_l. apply bind_ext. intros _.
  cbn [as_str]. rewrite bind_ret_l, HD, bind_ret_l. cbn [as_str].
  rewrite bind_ret_l.
  apply bind_ext. intros deposit_address.
  apply bind_ext. intros deposit_spend_hash.
  apply bind_ext. intros _.
  rewrite Hrev, bind_ret_l. cbn [as_list]. rewrite bind_ret_l.
  rewrite !for_each_map.
  rewrite (for_each_ext _ _
             (fun x => revoked_body scripts util deposit_spend_hash
                         (encode_revoked (decode_revoked x)))).
  2:{ revert Hrevs. apply Forall_impl. intros c [[H1 _] [H2 _]].
      now apply revoked_body_reads. }
  apply bind_ext. intros _.
  rewrite Hact, bind_ret_l. cbn [as_list]. rewrite bind_ret_l.
  apply for_each_ext.
  revert Hacts. apply Forall_impl. intros c [[H1 _] [H2 _]].
  now apply active_body_reads.
Qed.

End Decode.

(* ================================================================= *)
(** ** The channel-state checker *)

Section IsState.

Variable scripts : Scripts.
Variable util : Util.
Variable dispatcher : Dispatcher.
Variable netcode : string.

(** C1, amended: a well-formed channel state whose scripts are pairwise
    distinct, whose asset the dispatcher lists, whose deposit script is
    valid, whose revoked entries carry the deposit's spend secret hash and a
    revoke secret that hashes to the revoke secret hash of their script, and
    whose active entries carry the deposit's spend secret hash and a rawtx
    that is a send of the asset from the deposit address to the address of
    their script, passes [is_state] without an exception.  (Agreement of the
    payer and payee pubkeys is not asked for.) *)
Theorem is_state_consistent st daddr h :
  well_formed st ->
  NoDup (all_scripts st) ->
  asset_listed dispatcher (asset st) ->
  deposit_valid scripts util netcode (deposit_script st) daddr h ->
  Forall (revoked_valid scripts util h) (commits_revoked st) ->
  Forall (active_valid scripts util dispatcher netcode (asset st) daddr h)
         (commits_active st) ->
  outcome (is_state scripts util dispatcher (encode_state st) netcode) = Ok tt.
Proof.
  intros Hwf Hnd Ha Hd Hr Hact. apply is_state_ok_iff.
  repeat split; try assumption. now exists daddr, h.
Qed.

(** C2: when one script stands in two entries of [commits_active] and
    [commits_revoked] taken together, [is_state] stops a well-formed channel
    state at the [assert] of line 218, before any collaborator is called and
    whatever the entries are otherwise. *)
Theorem is_state_duplicate_script st i j s :
  well_formed st ->
  i <> j ->
  nth_error (all_scripts st) i = Some s ->
  nth_error (all_scripts st) j = Some s ->
  is_state scripts util dispatcher (encode_state st) netcode
  = ([], Raise (AssertionError 218)).
Proof.
  intros Hwf Hij Hi Hj. rewrite is_state_encode.
  unfold JsonSchema.validate. unfold well_formed in Hwf. rewrite Hwf.
  rewrite bind_ret_l.
  destruct (len_eq_set_len (all_scripts st)) eqn:E; [|reflexivity].
  apply len_eq_set_len_NoDup in E. destruct Hij.
  apply (proj1 (NoDup_nth_error (all_scripts st)) E).
  - apply nth_error_Some. now rewrite Hi.
  - now rewrite Hi, Hj.
Qed.

(** C3, amended: a channel state with a revoked entry whose revoke secret
    hashes to something else than the revoke secret hash of its script never
    passes [is_state]; and when every check before that comparison passes
    (schema, distinct scripts, asset, deposit script, the revoked entries
    before it, and the entry's own commit script and spend secret hash), the
    exception is the [AssertionError] of line 241. *)
Theorem is_state_revoke_secret_differs st r :
  In r (commits_revoked st) ->
  revoke_secret_differs scripts util r ->
  (exists e,
      outcome (is_state scripts util dispatcher (encode_state st) netcode)
      = Raise e)
  /\ (forall daddr h pre post,
        well_formed st ->
        NoDup (all_scripts st) ->
        asset_listed dispatcher (asset st) ->
        deposit_valid scripts util netcode (deposit_script st) daddr h ->
        commits_revoked st = pre ++ r :: post ->
        Forall (revoked_valid scripts util h) pre ->
        commit_valid scripts h (revoked_script r) ->
        outcome (is_state scripts util dispatcher (encode_state st) netcode)
        = Raise (AssertionError 241)).
Proof.
  intros Hin Hdiff. split.
  - destruct (outcome (is_state scripts util dispatcher (encode_state st)
                                netcode)) as [[]|e] eqn:E; [|now exists e].
    apply is_state_ok_iff in E
      as (_ & _ & _ & daddr & h & _ & Hr & _).
    rewrite Forall_forall in Hr. destruct (Hr r Hin) as [_ (rh & Hrh & Hsh)].
    destruct Hdiff as (rh' & sh & Hrh' & Hsh' & Hne).
    rewrite Hrh in Hrh'. rewrite Hsh in Hsh'.
    injection Hrh' as <-. injection Hsh' as <-. now destruct Hne.
  - intros daddr h pre post Hwf Hnd Ha Hd Hsplit Hpre Hc.
    rewrite (is_state_after_deposit _ _ _ _ st daddr h Hwf Hnd Ha Hd).
    rewrite outcome_bind, Hsplit, for_each_map.
    rewrite (for_each_raises _ pre post r (AssertionError 241)).
    + reflexivity.
    + revert Hpre. apply Forall_impl. intros x. apply revoked_body_ok.
    + now apply revoked_body_differs.
Qed.

End IsState.

Lemma is_state_consistent_witness :
  outcome (is_state Fixture.scripts Fixture.util Fixture.dispatcher
                    (encode_state Fixture.consistent) Fixture.NETCODE)
  = Ok tt.
Proof.
  apply (is_state_consistent Fixture.scripts Fixture.util Fixture.dispatcher
           Fixture.NETCODE Fixture.consistent "XTN:dd" "5e").
  - reflexivity.
  - repeat constructor; simpl; intuition discriminate.
  - exists [ {| asset_name := "BTC" |}; {| asset_name := "XCP" |} ].
    split; [reflexivity | simpl; auto].
  - repeat split.
  - repeat constructor. now exists "4ec2".
  - repeat constructor. exists "XTN:c1". split; [reflexivity|].
    exists 0%Z, 10000%Z, "00", Fixture.send_payload.
    repeat split. discriminate.
Defined.

(** The entries of the state are consistent with the deposit script one by
    one (the commit script passes [commit_script] against it), and the state
    is well formed for a listed asset, yet the same script stands in two
    entries: [is_state] raises. *)
Lemma is_state_consistent_entries_twice :
  well_formed Fixture.revoked_twice
  /\ outcome (commit_script Fixture.scripts (PStr "c2") (PStr "dd")) = Ok tt
  /\ asset_listed Fixture.dispatcher (asset Fixture.revoked_twice)
  /\ deposit_valid Fixture.scripts Fixture.util Fixture.NETCODE
                   (deposit_script Fixture.revoked_twice) "XTN:dd" "5e"
  /\ Forall (revoked_valid Fixture.scripts Fixture.util "5e")
            (commits_revoked Fixture.revoked_twice)
  /\ Forall (active_valid Fixture.scripts Fixture.util Fixture.dispatcher
                          Fixture.NETCODE "XCP" "XTN:dd" "5e")
            (commits_active Fixture.revoked_twice)
  /\ outcome (is_state Fixture.scripts Fixture.util Fixture.dispatcher
                       (encode_state Fixture.revoked_twice) Fixture.NETCODE)
     = Raise (AssertionError 218).
Proof.
  repeat split.
  - exists [ {| asset_name := "BTC" |}; {| asset_name := "XCP" |} ].
    split; [reflexivity | simpl; auto].
  - repeat constructor; now exists "4ec2".
  - constructor.
Qed.

Lemma is_state_duplicate_script_witness :
  is_state Fixture.scripts Fixture.util Fixture.dispatcher
           (encode_state Fixture.twice) Fixture.NETCODE
  = ([], Raise (AssertionError 218)).
Proof.
  apply (is_state_duplicate_script Fixture.scripts Fixture.util
           Fixture.dispatcher Fixture.NETCODE Fixture.twice 0 1 "c1").
  - reflexivity.
  - lia.
  - reflexivity.
  - reflexivity.
Defined.

Lemma is_state_revoke_secret_differs_witness :
  outcome (is_state Fixture.scripts Fixture.util Fixture.dispatcher
                    (encode_state Fixture.wrong_secret) Fixture.NETCODE)
  = Raise (AssertionError 241).
Proof.
  refine (proj2 (is_state_revoke_secret_differs Fixture.scripts Fixture.util
                   Fixture.dispatcher Fixture.NETCODE Fixture.wrong_secret
                   {| revoked_script := "c2"; revoke_secret := "ff" |} _ _)
            "XTN:dd" "5e" [] [] _ _ _ _ _ _ _).
  - simpl. auto.
  - exists "4ec2", "4eff". repeat split. discriminate.
  - reflexivity.
  - repeat constructor; simpl; intuition discriminate.
  - exists [ {| asset_name := "BTC" |}; {| asset_name := "XCP" |} ].
    split; [reflexivity | simpl; auto].
  - repeat split.
  - reflexivity.
  - constructor.
  - split; reflexivity.
Defined.

(** The revoked entry has the wrong secret, and the asset is unknown to the
    dispatcher: the exception is the one of the asset. *)
Lemma is_state_revoke_secret_differs_unknown_asset :
  well_formed Fixture.wrong_secret_unknown_asset
  /\ In {| revoked_script := "c2"; revoke_secret := "ff" |}
        (commits_revoked Fixture.wrong_secret_unknown_asset)
  /\ revoke_secret_differs Fixture.scripts Fixture.util
                           {| revoked_script := "c2"; revoke_secret := "ff" |}
  /\ outcome (is_state Fixture.scripts Fixture.util Fixture.dispatcher
                       (encode_state Fixture.wrong_secret_unknown_asset)
                       Fixture.NETCODE)
     = Raise (AssetDoesNotExist (PStr "NOPE"))
  /\ outcome (is_state Fixture.scripts Fixture.util Fixture.dispatcher
                       (encode_state Fixture.wrong_secret_unknown_asset)
                       Fixture.NETCODE)
     <> Raise (AssertionError 241).
Proof.
  repeat split.
  - simpl. auto.
  - exists "4ec2", "4eff". repeat split. discriminate.
  - discriminate.
Qed.

Section CommitRawtx.

Variable scripts : Scripts.
Variable util : Util.
Variable dispatcher : Dispatcher.
Variable netcode : string.

(** C4: [is_commit_rawtx] asks [util.script_address] for the address of the
    commit script and of the deposit script under [netcode] and hands the
    rawtx to [is_send_tx] with the deposit address as expected source and
    the commit address as expected destination.  So a channel state that is
    valid up to an active entry whose rawtx pays, from the deposit address,
    somebody else than the address of the entry's commit script ends
    [is_state] with [DestinationMissmatch]. *)
Theorem is_commit_rawtx_addresses :
  (forall rawtx a D C validate_signature ca da,
      script_address util C netcode = Ok ca ->
      script_address util D netcode = Ok da ->
      let send := is_send_tx util dispatcher rawtx (Some a) (Some da)
                             (Some ca) validate_signature in
      is_commit_rawtx util dispatcher rawtx a D C netcode validate_signature
      = (Call_script_address C netcode :: Call_script_address D netcode
           :: calls send,
         match outcome send with Ok _ => Ok tt | Raise e => Raise e end))
  /\ (forall st daddr h pre e post ca dest btc fee data unpacked,
         well_formed st ->
         NoDup (all_scripts st) ->
         asset_listed dispatcher (asset st) ->
         deposit_valid scripts util netcode (deposit_script st) daddr h ->
         Forall (revoked_valid scripts util h) (commits_revoked st) ->
         commits_active st = pre ++ e :: post ->
         Forall (active_valid scripts util dispatcher netcode (asset st)
                              daddr h) pre ->
         commit_valid scripts h (active_script e) ->
         script_address util (active_script e) netcode = Ok ca ->
         get_tx_info dispatcher (active_rawtx e)
         = Ok (daddr, dest, btc, fee, Some data) ->
         data <> "" ->
         unpack dispatcher data = Ok (0%Z, unpacked) ->
         dest <> ca ->
         outcome (is_state scripts util dispatcher (encode_state st) netcode)
         = Raise (DestinationMissmatch ca dest)).
Proof.
  split.
  - intros rawtx a D C vs ca da HC HD send.
    unfold is_commit_rawtx, script_address_.
    rewrite HC, bind_invoke_ok, HD, bind_invoke_ok.
    cbn [calls outcome fst snd]. fold send.
    rewrite calls_bind, outcome_bind.
    destruct (outcome send); cbn [ret calls outcome fst snd];
      [now rewrite app_nil_r | reflexivity].
  - intros st daddr h pre e post ca dest btc fee data unpacked
           Hwf Hnd Ha Hd Hr Hsplit Hpre Hc HC Hinfo Hdata Hun Hne.
    rewrite (is_state_after_deposit _ _ _ _ st daddr h Hwf Hnd Ha Hd).
    rewrite outcome_bind, !for_each_map.
    assert (E : outcome
                  (for_each (commits_revoked st)
                     (fun r => revoked_body scripts util h (encode_revoked r)))
                = Ok tt).
    { apply for_each_ok. revert Hr. apply Forall_impl.
      intros r. apply revoked_body_ok. }
    rewrite E, Hsplit. apply for_each_raises.
    + revert Hpre. apply Forall_impl. intros x.
      apply active_body_ok. apply Hd.
    + rewrite active_body_encode, (commit_checks _ _ _ _ _ Hc).
      rewrite (is_commit_rawtx_outcome _ _ _ _ _ _ _ _ _ _ HC (proj1 Hd)).
      rewrite (is_send_tx_destination _ _ _ _ _ _ _ _ _ _ _ _ Hinfo Hdata Hun);
        [reflexivity | congruence].
Qed.

End CommitRawtx.

Lemma is_commit_rawtx_addresses_witness :
  outcome (is_state Fixture.scripts Fixture.util Fixture.dispatcher
                    (encode_state Fixture.third_party) Fixture.NETCODE)
  = Raise (DestinationMissmatch "XTN:c3" "XTN:ee").
Proof.
  refine (proj2 (is_commit_rawtx_addresses Fixture.scripts Fixture.util
                   Fixture.dispatcher Fixture.NETCODE)
            Fixture.third_party "XTN:dd" "5e" []
            {| active_rawtx := "a3"; active_script := "c3" |} []
            "XTN:c3" "XTN:ee" 0%Z 10000%Z "00" Fixture.send_payload
            _ _ _ _ _ _ _ _ _ _ _ _ _).
  - reflexivity.
  - repeat constructor; simpl; intuition discriminate.
  - exists [ {| asset_name := "BTC" |}; {| asset_name := "XCP" |} ].
    split; [reflexivity | simpl; auto].
  - repeat split.
  - repeat constructor. now exists "4ec2".
  - reflexivity.
  - constructor.
  - split; reflexivity.
  - reflexivity.
  - reflexivity.
  - discriminate.
  - reflexivity.
  - discriminate.
Defined.

(* ================================================================= *)
(** ** [commits_requested] *)

Section CommitsRequested.

Variable scripts : Scripts.
Variable util : Util.
Variable dispatcher : Dispatcher.
Variable netcode : string.

(** Two well-formed channel states that differ in [commits_requested] only
    are checked the same way. *)
Lemma is_state_set_commits_requested st l :
  well_formed st ->
  well_formed (set_commits_requested l st) ->
  is_state scripts util dispatcher
           (encode_state (set_commits_requested l st)) netcode
  = is_state scripts util dispatcher (encode_state st) netcode.
Proof.
  unfold well_formed. intros Hwf Hwf'. rewrite !is_state_encode.
  unfold JsonSchema.validate. now rewrite Hwf, Hwf'.
Qed.

(** C9: when [is_state] accepts a channel state, it accepts it again after
    [commits_requested] has been replaced by any list of lowercase hex
    strings of even length, commit scripts or not, and calls its
    collaborators in the same way. *)
Theorem commits_requested_not_inspected st l :
  outcome (is_state scripts util dispatcher (encode_state st) netcode)
  = Ok tt ->
  Forall lower_even_hex l ->
  outcome (is_state scripts util dispatcher
                    (encode_state (set_commits_requested l st)) netcode)
  = Ok tt
  /\ calls (is_state scripts util dispatcher
                     (encode_state (set_commits_requested l st)) netcode)
     = calls (is_state scripts util dispatcher (encode_state st) netcode).
Proof.
  intros Hok Hl.
  assert (Hwf : well_formed st) by now apply is_state_ok_inv in Hok.
  rewrite (is_state_set_commits_requested st l Hwf).
  - now split.
  - now apply well_formed_set_commits_requested.
Qed.

End CommitsRequested.

Lemma commits_requested_not_inspected_witness :
  outcome (is_state Fixture.scripts Fixture.util Fixture.dispatcher
             (encode_state
                (set_commits_requested ["00"; "beef"] Fixture.consistent))
             Fixture.NETCODE)
  = Ok tt
  /\ validate_commit_script Fixture.scripts "00"
     = Raise (Foreign "InvalidScript").
Proof.
  split; [|reflexivity].
  apply (commits_requested_not_inspected Fixture.scripts Fixture.util
           Fixture.dispatcher Fixture.NETCODE Fixture.consistent
           ["00"; "beef"]).
  - reflexivity.
  - repeat constructor.
Defined.

(* ================================================================= *)
(** ** No signature is verified *)

Lemma nosig_ret {A} (a : A) : no_signature_check (ret a).
Proof. constructor. Qed.

Lemma nosig_raise {A} (e : exn) : no_signature_check (@raise A e).
Proof. constructor. Qed.

Lemma nosig_invoke {A} (c : call) (r : result A) :
  is_load_tx c = false -> no_signature_check (invoke c r).
Proof. intros H. now repeat constructor. Qed.

Lemma nosig_bind {A B} (m : M A) (f : A -> M B) :
  no_signature_check m ->
  (forall a, no_signature_check (f a)) ->
  no_signature_check (bind m f).
Proof.
  unfold no_signature_check. intros Hm Hf. rewrite calls_bind.
  destruct (outcome m); [|exact Hm]. apply Forall_app. now split.
Qed.

Lemma nosig_for_each {A} (l : list A) (body : A -> M unit) :
  (forall x, no_signature_check (body x)) ->
  no_signature_check (for_each l body).
Proof.
  intros H. induction l as [|x l IH]; simpl.
  - apply nosig_ret.
  - apply nosig_bind; [apply H | intros _; exact IH].
Qed.

Lemma nosig_comprehension {A B} (l : list A) (f : A -> M B) :
  (forall x, no_signature_check (f x)) ->
  no_signature_check (comprehension l f).
Proof.
  intros H. induction l as [|x l IH]; simpl.
  - apply nosig_ret.
  - apply nosig_bind; [apply H | intros y].
    apply nosig_bind; [exact IH | intros ys; apply nosig_ret].
Qed.

(** One step of a proof that a computation verifies no signature, by the
    shape of the computation. *)
Ltac nosig_step :=
  lazymatch goal with
  | |- no_signature_check (bind _ _) => apply nosig_bind; [|intros ?]
  | |- no_signature_check (ret _) => apply nosig_ret
  | |- no_signature_check (raise _) => apply nosig_raise
  | |- no_signature_check (invoke _ _) => apply nosig_invoke; reflexivity
  | |- no_signature_check (for_each _ _) => apply nosig_for_each; intros ?
  | |- no_signature_check (comprehension _ _) =>
      apply nosig_comprehension; intros ?
  | |- no_signature_check (if ?b then _ else _) => destruct b
  | |- no_signature_check (match ?x with _ => _ end) => destruct x
  end.

Ltac nosig := repeat nosig_step.

Lemma nosig_getitem obj key : no_signature_check (getitem obj key).
Proof. unfold getitem. nosig. Qed.

Lemma nosig_as_str v : no_signature_check (as_str v).
Proof. unfold as_str. nosig. Qed.

Lemma nosig_as_list v : no_signature_check (as_list v).
Proof. unfold as_list. nosig. Qed.

Lemma nosig_py_assert cond line : no_signature_check (py_assert cond line).
Proof. unfold py_assert. nosig. Qed.

Lemma nosig_is_asset dispatcher a : no_signature_check (is_asset dispatcher a).
Proof. unfold is_asset, is_string. nosig. Qed.

Create HintDb nosig.
#[local] Hint Resolve nosig_getitem nosig_as_str nosig_as_list
  nosig_py_assert nosig_is_asset : nosig.

Section NoSignature.

Variable scripts : Scripts.
Variable util : Util.
Variable dispatcher : Dispatcher.

Lemma nosig_is_send_tx rawtx expected_asset expected_src expected_dest :
  no_signature_check
    (is_send_tx util dispatcher rawtx expected_asset expected_src
                expected_dest false).
Proof. unfold is_send_tx. nosig; auto with nosig. Qed.

Lemma nosig_is_commit_rawtx rawtx a D C netcode :
  no_signature_check
    (is_commit_rawtx util dispatcher rawtx a D C netcode false).
Proof.
  unfold is_commit_rawtx, script_address_. nosig.
  apply nosig_is_send_tx.
Qed.

Lemma nosig_is_state state_data netcode :
  no_signature_check (is_state scripts util dispatcher state_data netcode).
Proof.
  unfold is_state, script_column, revoked_body, active_body,
    JsonSchema.validate, script_address_, validate_signature_default.
  nosig; auto using nosig_is_commit_rawtx with nosig.
Qed.

End NoSignature.

Section SkipsSignatures.

Variable scripts : Scripts.
Variable util : Util.
Variable dispatcher : Dispatcher.
Variable netcode : string.

(** C10: [is_state] hands every active rawtx to [is_commit_rawtx] with
    [validate_signature] left at its default, false, so it never calls
    [util.load_tx] to verify signatures, on any [state_data]; and a channel
    state that passes the structural and ledger checks is accepted also when
    every input signature of its active rawtxs is bad. *)
Theorem is_state_skips_signatures :
  validate_signature_default = false
  /\ (forall state_data rawtx,
        ~ In (Call_load_tx rawtx)
             (calls (is_state scripts util dispatcher state_data netcode)))
  /\ (forall st daddr h,
        well_formed st ->
        NoDup (all_scripts st) ->
        asset_listed dispatcher (asset st) ->
        deposit_valid scripts util netcode (deposit_script st) daddr h ->
        Forall (revoked_valid scripts util h) (commits_revoked st) ->
        Forall (active_valid scripts util dispatcher netcode (asset st)
                             daddr h) (commits_active st) ->
        Forall (fun e =>
                  exists tx,
                    load_tx util (getrawtransaction dispatcher)
                            (active_rawtx e) = Ok tx
                    /\ bad_signature_count util tx <> 0%Z)
               (commits_active st) ->
        outcome (is_state scripts util dispatcher (encode_state st) netcode)
        = Ok tt).
Proof.
  split; [reflexivity|]. split.
  - intros state_data rawtx Hin.
    pose proof (nosig_is_state scripts util dispatcher state_data netcode)
      as H.
    unfold no_signature_check in H. rewrite Forall_forall in H.
    apply H in Hin. discriminate.
  - intros st daddr h Hwf Hnd Ha Hd Hr Hact _. apply is_state_ok_iff.
    repeat split; try assumption. now exists daddr, h.
Qed.

End SkipsSignatures.

Lemma is_state_skips_signatures_witness :
  outcome (is_state Fixture.scripts Fixture.util Fixture.dispatcher
                    (encode_state Fixture.consistent) Fixture.NETCODE)
  = Ok tt
  /\ outcome (is_commit_rawtx Fixture.util Fixture.dispatcher "a1" "XCP"
                              "dd" "c1" Fixture.NETCODE true)
     = Raise (InvalidSignature "a1").
Proof.
  split; [|reflexivity].
  apply (proj2 (proj2 (is_state_skips_signatures Fixture.scripts Fixture.util
                         Fixture.dispatcher Fixture.NETCODE))
           Fixture.consistent "XTN:dd" "5e").
  - reflexivity.
  - repeat constructor; simpl; intuition discriminate.
  - exists [ {| asset_name := "BTC" |}; {| asset_name := "XCP" |} ].
    split; [reflexivity | simpl; auto].
  - repeat split.
  - repeat constructor. now exists "4ec2".
  - repeat constructor. exists "XTN:c1". split; [reflexivity|].
    exists 0%Z, 10000%Z, "00", Fixture.send_payload.
    repeat split. discriminate.
  - repeat constructor. exists "a1". split; [reflexivity | discriminate].
Defined.

(* ================================================================= *)
(** ** The order of the checks *)

Lemma run_checks_first_failure (pre : list check) :
  forall (c : check) (post : list check) l0 t1 l t2 e,
    run_checks pre l0 = (t1, Ok l) ->
    c l = (t2, Raise e) ->
    run_checks (pre ++ c :: post) l0 = (t1 ++ t2, Raise e).
Proof.
  induction pre as [|c0 pre IH]; intros c post l0 t1 l t2 e Hpre Hc.
  - injection Hpre as <- <-. simpl. now rewrite Hc.
  - simpl in *. destruct (c0 l0) as [t0 [l1|e0]] eqn:E0.
    + rewrite (bind_continues _ _ t0 l1 eq_refl) in Hpre.
      injection Hpre as <- Hout.
      rewrite (bind_continues _ _ t0 l1 eq_refl).
      rewrite (IH c post l1 (calls (run_checks pre l1)) l t2 e).
      * cbn [calls outcome fst snd]. now rewrite app_assoc.
      * rewrite <- Hout. symmetry. apply M_eta.
      * exact Hc.
    + rewrite (bind_raises _ _ t0 e0 eq_refl) in Hpre. discriminate.
Qed.

Section Order.

Variable scripts : Scripts.
Variable util : Util.
Variable dispatcher : Dispatcher.
Variable state_data : pyval.
Variable netcode : string.

(** [is_state] is the run of its six checks in the order of the source. *)
Lemma is_state_as_checks :
  is_state scripts util dispatcher state_data netcode
  = (run_checks (is_state_checks scripts util dispatcher state_data netcode)
                no_locals ;;
     ret tt).
Proof.
  unfold is_state, is_state_checks. cbn [run_checks].
  rewrite bind_assoc. unfold check_schema at 1.
  rewrite bind_assoc. apply bind_ext. intros _.
  rewrite bind_ret_l.
  rewrite bind_assoc. unfold check_unique at 1.
  rewrite bind_assoc. apply bind_ext. intros s_active.
  rewrite bind_assoc. apply bind_ext. intros s_revoked.
  rewrite bind_assoc. apply bind_ext. intros _.
  rewrite bind_ret_l.
  rewrite bind_assoc. unfold check_asset at 1.
  rewrite bind_assoc. apply bind_ext. intros asset.
  rewrite bind_assoc. apply bind_ext. intros _.
  rewrite bind_assoc. apply bind_ext. intros asset'.
  rewrite bind_ret_l.
  rewrite bind_assoc. unfold check_deposit at 1.
  rewrite bind_assoc. apply bind_ext. intros deposit_script.
  rewrite bind_assoc. apply bind_ext. intros deposit_script'.
  rewrite bind_assoc. apply bind_ext. intros deposit_address.
  rewrite bind_assoc. apply bind_ext. intros deposit_spend_hash.
  rewrite bind_assoc. apply bind_ext. intros _.
  rewrite bind_ret_l. cbn [l_asset l_deposit_script l_deposit_spend_hash].
  rewrite bind_assoc. unfold check_revoked at 1.
  rewrite bind_assoc. apply bind_ext. intros commits_revoked.
  rewrite bind_assoc. apply bind_ext. intros commits_revoked'.
  rewrite bind_assoc. apply bind_ext. intros _.
  rewrite bind_ret_l. cbn [l_asset l_deposit_script l_deposit_spend_hash].
  rewrite bind_assoc. unfold check_active at 1.
  rewrite bind_assoc. apply bind_ext. intros commits_active.
  rewrite bind_assoc. apply bind_ext. intros commits_active'.
  rewrite bind_assoc.
  cbn [l_asset l_deposit_script l_deposit_spend_hash].
  rewrite <- (bind_ret_r (for_each _ _)) at 1.
  apply bind_ext. intros []. now rewrite !bind_ret_l.
Qed.

(** C6: [is_state] runs its checks in the order schema, distinct scripts,
    asset, deposit script, revoked commits, active commits.  When the checks
    before one of them pass and that one raises, [is_state] ends with its
    exception, whatever the checks after it would do, and the collaborators
    have been called by the checks up to that one only; when all of them
    pass, [is_state] returns. *)
Theorem is_state_fail_fast :
  is_state_checks scripts util dispatcher state_data netcode
  = [ check_schema state_data;
      check_unique state_data;
      check_asset dispatcher state_data;
      check_deposit scripts util state_data netcode;
      check_revoked scripts util state_data;
      check_active scripts util dispatcher state_data netcode ]
  /\ (forall pre c post l t1 t2 e,
        is_state_checks scripts util dispatcher state_data netcode
        = pre ++ c :: post ->
        run_checks pre no_locals = (t1, Ok l) ->
        c l = (t2, Raise e) ->
        is_state scripts util dispatcher state_data netcode
        = (t1 ++ t2, Raise e))
  /\ (forall t l,
        run_checks
          (is_state_checks scripts util dispatcher state_data netcode)
          no_locals = (t, Ok l) ->
        is_state scripts util dispatcher state_data netcode = (t, Ok tt)).
Proof.
  split; [reflexivity|]. split.
  - intros pre c post l t1 t2 e Hsplit Hpre Hc.
    rewrite is_state_as_checks, Hsplit.
    now rewrite (run_checks_first_failure pre c post _ t1 l t2 e Hpre Hc).
  - intros t l H. rewrite is_state_as_checks, H.
    unfold bind. cbn [ret calls outcome fst snd]. now rewrite app_nil_r.
Qed.

End Order.

Lemma is_state_fail_fast_witness :
  is_state Fixture.scripts Fixture.util Fixture.dispatcher
           (encode_state Fixture.wrong_secret_unknown_asset) Fixture.NETCODE
  = ([Call_get_assets], Raise (AssetDoesNotExist (PStr "NOPE")))
  /\ outcome
       (check_revoked Fixture.scripts Fixture.util
          (encode_state Fixture.wrong_secret_unknown_asset)
          {| l_asset := "NOPE"; l_deposit_script := "dd";
             l_deposit_spend_hash := "5e" |})
     = Raise (AssertionError 241).
Proof.
  split; [|reflexivity].
  apply (proj1 (proj2 (is_state_fail_fast Fixture.scripts Fixture.util
                         Fixture.dispatcher
                         (encode_state Fixture.wrong_secret_unknown_asset)
                         Fixture.NETCODE))
           [ check_schema (encode_state Fixture.wrong_secret_unknown_asset);
             check_unique (encode_state Fixture.wrong_secret_unknown_asset) ]
           (check_asset Fixture.dispatcher
              (encode_state Fixture.wrong_secret_unknown_asset))
           [ check_deposit Fixture.scripts Fixture.util
               (encode_state Fixture.wrong_secret_unknown_asset)
               Fixture.NETCODE;
             check_revoked Fixture.scripts Fixture.util
               (encode_state Fixture.wrong_secret_unknown_asset);
             check_active Fixture.scripts Fixture.util Fixture.dispatcher
               (encode_state Fixture.wrong_secret_unknown_asset)
               Fixture.NETCODE ]
           no_locals [] [Call_get_assets]
           (AssetDoesNotExist (PStr "NOPE"))).
  - reflexivity.
  - reflexivity.
  - reflexivity.
Defined.

(* ================================================================= *)
(** * Further properties *)

(* ================================================================= *)
(** ** Hex decoding *)

Lemma string_pair_ind (P : string -> Prop) :
  P "" ->
  (forall a, P (String a "")) ->
  (forall a b s, P s -> P (String a (String b s))) ->
  forall s, P s.
Proof.
  intros H0 H1 H2 s.
  assert (H : P s /\ forall a, P (String a s)).
  { induction s as [|b s [IH IH']]; split; auto. }
  apply H.
Qed.

Lemma unhexlify_length s bytes :
  unhexlify s = Some bytes -> String.length s = 2 * List.length bytes.
Proof.
  revert bytes. induction s as [| a | a b s IH] using string_pair_ind;
    intros bytes; cbn [unhexlify].
  - intros [= <-]. reflexivity.
  - discriminate.
  - destruct (hex_digit_value a); [|discriminate].
    destruct (hex_digit_value b); [|discriminate].
    destruct (unhexlify s) as [bs|]; [|discriminate].
    intros [= <-]. cbn [String.length List.length].
    rewrite (IH bs eq_refl). lia.
Qed.

(** Every character of a string that decodes is a hexadecimal digit. *)
Lemma unhexlify_digits s bytes :
  unhexlify s = Some bytes ->
  all_chars (fun c => match hex_digit_value c with
                      | Some _ => true
                      | None => false
                      end) s = true.
Proof.
  revert bytes. induction s as [| a | a b s IH] using string_pair_ind;
    intros bytes; cbn [unhexlify all_chars].
  - reflexivity.
  - discriminate.
  - destruct (hex_digit_value a); [|discriminate].
    destruct (hex_digit_value b); [|discriminate].
    destruct (unhexlify s) as [bs|]; [|discriminate].
    intros _. now rewrite (IH bs eq_refl).
Qed.

Lemma lower_hex_digit_value c :
  is_lower_hex_digit c = true ->
  Nat.ltb (nat_of_ascii c) 128 = true
  /\ exists v, hex_digit_value c = Some v.
Proof.
  unfold is_lower_hex_digit, Re.in_range, hex_digit_value, digit_range,
    af_range. cbn [fst snd].
  change (nat_of_ascii "0") with 48. change (nat_of_ascii "9") with 57.
  change (nat_of_ascii "a") with 97. change (nat_of_ascii "f") with 102.
  generalize (nat_of_ascii c) as n. intros n H.
  apply orb_true_iff in H as [H|H]; apply andb_true_iff in H as [H1 H2];
    apply Nat.leb_le in H1; apply Nat.leb_le in H2.
  - split; [apply Nat.ltb_lt; lia|].
    destruct (Nat.leb_spec 48 n); [|lia].
    destruct (Nat.leb_spec n 57); [|lia]. now eexists.
  - split; [apply Nat.ltb_lt; lia|].
    destruct (Nat.leb_spec 48 n); [|lia].
    destruct (Nat.leb_spec n 57); [lia|]. cbn [andb].
    destruct (Nat.leb_spec 97 n); [|lia].
    destruct (Nat.leb_spec n 102); [|lia]. now eexists.
Qed.

(** Lowercase hex digits in even number decode, two characters a byte. *)
Lemma h2b_lower_hex s :
  all_chars is_lower_hex_digit s = true ->
  Nat.even (String.length s) = true ->
  exists bytes,
    h2b s = Ok bytes /\ String.length s = 2 * List.length bytes.
Proof.
  intros Hs He.
  assert (Hascii : all_chars (fun c => Nat.ltb (nat_of_ascii c) 128) s
                   = true).
  { clear He. induction s as [|c s IH]; [reflexivity|].
    cbn [all_chars] in *. apply andb_true_iff in Hs as [Hc Hs].
    destruct (lower_hex_digit_value c Hc) as [-> _]. now apply IH. }
  assert (Hdec : exists bytes, unhexlify s = Some bytes).
  { clear Hascii. revert Hs He. induction s as [| a | a b s IH] using string_pair_ind;
      cbn [all_chars unhexlify String.length].
    - intros _ _. now eexists.
    - intros _ He. discriminate.
    - intros Hs He.
      apply andb_true_iff in Hs as [Ha Hs].
      apply andb_true_iff in Hs as [Hb Hs].
      destruct (lower_hex_digit_value a Ha) as [_ [va ->]].
      destruct (lower_hex_digit_value b Hb) as [_ [vb ->]].
      destruct (IH Hs He) as [bs ->]. now eexists. }
  destruct Hdec as [bytes Hdec]. exists bytes. unfold h2b.
  rewrite Hascii, Hdec. split; [reflexivity|].
  now apply unhexlify_length.
Qed.

Lemma all_chars_app p (a b : string) :
  all_chars p (a ++ b) = all_chars p a && all_chars p b.
Proof.
  induction a as [|c a IH]; [reflexivity|].
  cbn [append all_chars]. now rewrite IH, andb_assoc.
Qed.

(** A string that ends with a newline does not decode. *)
Lemma h2b_newline h :
  all_chars is_lower_hex_digit h = true ->
  h2b (h ++ Re.nl) = Raise (Foreign "binascii.Error").
Proof.
  intros Hh. unfold h2b.
  assert (Hascii : all_chars (fun c => Nat.ltb (nat_of_ascii c) 128)
                             (h ++ Re.nl) = true).
  { rewrite all_chars_app. apply andb_true_iff. split; [|reflexivity].
    induction h as [|c h IH]; [reflexivity|].
    cbn [all_chars] in *. apply andb_true_iff in Hh as [Hc Hh].
    destruct (lower_hex_digit_value c Hc) as [-> _]. now apply IH. }
  rewrite Hascii.
  destruct (unhexlify (h ++ Re.nl)) as [bytes|] eqn:E; [|reflexivity].
  apply unhexlify_digits in E. rewrite all_chars_app in E.
  apply andb_true_iff in E as [_ E]. discriminate.
Qed.

(* ================================================================= *)
(** ** [pubkey] and [hash160] *)

(** The common shape of [pubkey] and [hash160]: [is_hex], [h2b], and the
    number of bytes. *)
Lemma sized_hex_iff (v : pyval) (n : nat) (wrong : format_exn) :
  and_then (earlier (outcome (is_hex v)))
    (fun _ =>
       and_then (earlier (outcome (as_str v)))
         (fun s =>
            and_then (earlier (h2b s))
              (fun bytes =>
                 if negb (Nat.eqb (List.length bytes) n)
                 then Raised wrong else Returned tt)))
  = Returned tt
  <-> exists s, v = PStr s
                /\ all_chars is_lower_hex_digit s = true
                /\ String.length s = 2 * n.
Proof.
  split.
  - destruct v as [| | |s| |]; try discriminate.
    destruct (outcome (is_hex (PStr s))) as [[]|e] eqn:E; [|discriminate].
    apply is_hex_language in E as [He (h & Hh & [->| ->])].
    + destruct (h2b_lower_hex h Hh He) as (bytes & Hb & Hlen).
      cbn [earlier and_then as_str ret outcome snd]. rewrite Hb.
      cbn [earlier and_then].
      destruct (Nat.eqb_spec (List.length bytes) n) as [<-|]; [|discriminate].
      intros _. now exists h.
    + cbn [earlier and_then as_str ret outcome snd].
      rewrite (h2b_newline h Hh). discriminate.
  - intros (s & -> & Hs & Hlen).
    assert (He : Nat.even (String.length s) = true).
    { rewrite Hlen. apply Nat.even_spec. now exists n. }
    assert (E : outcome (is_hex (PStr s)) = Ok tt).
    { apply is_hex_language. split; [exact He|]. exists s. auto. }
    rewrite E. destruct (h2b_lower_hex s Hs He) as (bytes & Hb & Hlen').
    cbn [earlier and_then as_str ret outcome snd]. rewrite Hb.
    cbn [earlier and_then].
    assert (List.length bytes = n) as -> by lia.
    now rewrite Nat.eqb_refl.
Qed.

Lemma sized_hex_wrong (s : string) (n : nat) (wrong : format_exn) :
  all_chars is_lower_hex_digit s = true ->
  Nat.even (String.length s) = true ->
  String.length s <> 2 * n ->
  and_then (earlier (outcome (is_hex (PStr s))))
    (fun _ =>
       and_then (earlier (outcome (as_str (PStr s))))
         (fun s' =>
            and_then (earlier (h2b s'))
              (fun bytes =>
                 if negb (Nat.eqb (List.length bytes) n)
                 then Raised wrong else Returned tt)))
  = Raised wrong.
Proof.
  intros Hs He Hlen.
  assert (E : outcome (is_hex (PStr s)) = Ok tt).
  { apply is_hex_language. split; [exact He|]. exists s. auto. }
  rewrite E. destruct (h2b_lower_hex s Hs He) as (bytes & Hb & Hlen').
  cbn [earlier and_then as_str ret outcome snd]. rewrite Hb.
  cbn [earlier and_then].
  destruct (Nat.eqb_spec (List.length bytes) n); [lia | reflexivity].
Qed.

Lemma sized_hex_newline (h : string) (n : nat) (wrong : format_exn) :
  all_chars is_lower_hex_digit h = true ->
  Nat.odd (String.length h) = true ->
  outcome (is_hex (PStr (h ++ Re.nl))) = Ok tt
  /\ and_then (earlier (outcome (is_hex (PStr (h ++ Re.nl)))))
       (fun _ =>
          and_then (earlier (outcome (as_str (PStr (h ++ Re.nl)))))
            (fun s' =>
               and_then (earlier (h2b s'))
                 (fun bytes =>
                    if negb (Nat.eqb (List.length bytes) n)
                    then Raised wrong else Returned tt)))
     = Raised (Earlier (Foreign "binascii.Error")).
Proof.
  intros Hh Ho.
  assert (E : outcome (is_hex (PStr (h ++ Re.nl))) = Ok tt).
  { apply is_hex_language. split.
    - rewrite string_app_length. cbn [String.length Re.nl].
      now rewrite Nat.add_1_r, Nat.even_succ.
    - exists h. auto. }
  split; [exact E|]. rewrite E.
  cbn [earlier and_then as_str ret outcome snd].
  now rewrite (h2b_newline h Hh).
Qed.

(** X1: [pubkey] accepts exactly the strings of 66 lowercase hex digits,
    the hex form of a 33-byte compressed key. *)
Theorem pubkey_iff (pubkey_hex : pyval) :
  pubkey pubkey_hex = Returned tt
  <-> exists s, pubkey_hex = PStr s
                /\ all_chars is_lower_hex_digit s = true
                /\ String.length s = 66.
Proof. apply (sized_hex_iff pubkey_hex 33). Qed.

(** X2: lowercase hex of even length that is not 66 characters long, such
    as the 130 characters of an uncompressed key, makes [pubkey] raise
    [InvalidPubKey] with its argument. *)
Theorem pubkey_wrong_length (s : string) :
  all_chars is_lower_hex_digit s = true ->
  Nat.even (String.length s) = true ->
  String.length s <> 66 ->
  pubkey (PStr s) = Raised (InvalidPubKey (PStr s)).
Proof. apply (sized_hex_wrong s 33). Qed.

(** X3: [hash160] accepts exactly the strings of 40 lowercase hex digits,
    and raises [InvalidHash160] with its argument on lowercase hex of
    another even length. *)
Theorem hash160_iff (hash_hex : pyval) :
  (hash160 hash_hex = Returned tt
   <-> exists s, hash_hex = PStr s
                 /\ all_chars is_lower_hex_digit s = true
                 /\ String.length s = 40)
  /\ (forall s,
        hash_hex = PStr s ->
        all_chars is_lower_hex_digit s = true ->
        Nat.even (String.length s) = true ->
        String.length s <> 40 ->
        hash160 hash_hex = Raised (InvalidHash160 hash_hex)).
Proof.
  split.
  - apply (sized_hex_iff hash_hex 20).
  - intros s ->. apply (sized_hex_wrong s 20).
Qed.

(** X4: an odd number of lowercase hex digits followed by a newline passes
    [is_hex], and is stopped in [pubkey] and in [hash160] by the error of
    [h2b], not by [InvalidPubKey] or [InvalidHash160]. *)
Theorem newline_stopped_by_h2b (h : string) :
  all_chars is_lower_hex_digit h = true ->
  Nat.odd (String.length h) = true ->
  outcome (is_hex (PStr (h ++ Re.nl))) = Ok tt
  /\ pubkey (PStr (h ++ Re.nl)) = Raised (Earlier (Foreign "binascii.Error"))
  /\ hash160 (PStr (h ++ Re.nl))
     = Raised (Earlier (Foreign "binascii.Error")).
Proof.
  intros Hh Ho. split; [|split].
  - apply (sized_hex_newline h 0 (Earlier TypeError) Hh Ho).
  - apply (sized_hex_newline h 33 _ Hh Ho).
  - apply (sized_hex_newline h 20 _ Hh Ho).
Qed.

Lemma pubkey_wrong_length_witness :
  pubkey (PStr "04a1b2") = Raised (InvalidPubKey (PStr "04a1b2")).
Proof.
  apply (pubkey_wrong_length "04a1b2").
  - reflexivity.
  - reflexivity.
  - simpl. lia.
Defined.

Lemma hash160_iff_witness :
  hash160 (PStr "5e5e") = Raised (InvalidHash160 (PStr "5e5e")).
Proof.
  apply (proj2 (hash160_iff (PStr "5e5e")) "5e5e").
  - reflexivity.
  - reflexivity.
  - reflexivity.
  - simpl. lia.
Defined.

Lemma newline_stopped_by_h2b_witness :
  outcome (is_hex (PStr ("abc" ++ Re.nl)%string)) = Ok tt
  /\ pubkey (PStr ("abc" ++ Re.nl)%string)
     = Raised (Earlier (Foreign "binascii.Error"))
  /\ hash160 (PStr ("abc" ++ Re.nl)%string)
     = Raised (Earlier (Foreign "binascii.Error")).
Proof.
  apply (newline_stopped_by_h2b "abc").
  - reflexivity.
  - reflexivity.
Defined.

(* ================================================================= *)
(** ** The integer validators *)

(** X5: [is_unsigned] accepts the integers from 0 on and both booleans,
    which are integers for [isinstance]; it raises [InvalidUnsigned] on a
    negative integer and [InvalidInteger] on anything else. *)
Theorem is_unsigned_iff (number : pyval) :
  (is_unsigned number = Returned tt
   <-> (exists z, number = PInt z /\ (0 <= z)%Z)
       \/ (exists b, number = PBool b))
  /\ (forall z, number = PInt z -> (z < 0)%Z ->
                is_unsigned number = Raised (InvalidUnsigned number))
  /\ ((forall z, number <> PInt z) -> (forall b, number <> PBool b) ->
      is_unsigned number = Raised (InvalidInteger number)).
Proof.
  split; [|split].
  - split.
    + destruct number as [|b|z| | |]; try discriminate.
      * intros _. right. now exists b.
      * unfold is_unsigned. cbn [is_integer and_then int_value].
        destruct (Z.ltb_spec z 0); [discriminate|].
        intros _. left. now exists z.
    + intros [(z & -> & Hz)|(b & ->)].
      * unfold is_unsigned. cbn [is_integer and_then int_value].
        destruct (Z.ltb_spec z 0); [lia | reflexivity].
      * now destruct b.
  - intros z -> Hz. unfold is_unsigned. cbn [is_integer and_then int_value].
    destruct (Z.ltb_spec z 0); [reflexivity | lia].
  - intros Hz Hb. destruct number as [|b|z| | |]; try reflexivity.
    + now destruct (Hb b).
    + now destruct (Hz z).
Qed.

Lemma is_unsigned_iff_witness :
  is_unsigned (PInt (-1)) = Raised (InvalidUnsigned (PInt (-1)))
  /\ is_unsigned (PStr "1") = Raised (InvalidInteger (PStr "1")).
Proof.
  split.
  - apply (proj1 (proj2 (is_unsigned_iff (PInt (-1)))) (-1)%Z).
    + reflexivity.
    + lia.
  - apply (proj2 (proj2 (is_unsigned_iff (PStr "1")))).
    + intros z. discriminate.
    + intros b. discriminate.
Defined.

Section SequenceFacts.

Variable MAX_SEQUENCE : Z.

(** X6: [is_sequence] accepts exactly the integers (and booleans) from 0 to
    [MAX_SEQUENCE].  It raises [InvalidSequence] only above [MAX_SEQUENCE]:
    a negative number is stopped before by [is_unsigned], with
    [InvalidUnsigned]. *)
Theorem is_sequence_iff (number : pyval) :
  (is_sequence MAX_SEQUENCE number = Returned tt
   <-> is_integer number = Returned tt
       /\ (0 <= int_value number <= MAX_SEQUENCE)%Z)
  /\ (is_sequence MAX_SEQUENCE number = Raised (InvalidSequence number)
      <-> is_integer number = Returned tt
          /\ (0 <= int_value number)%Z
          /\ (MAX_SEQUENCE < int_value number)%Z)
  /\ (is_integer number = Returned tt -> (int_value number < 0)%Z ->
      is_sequence MAX_SEQUENCE number = Raised (InvalidUnsigned number)).
Proof.
  unfold is_sequence, is_unsigned.
  destruct (is_integer number) as [[]|e] eqn:Hi; cbn [and_then].
  - destruct (Z.ltb_spec (int_value number) 0) as [Hneg|Hpos];
      cbn [and_then].
    + repeat split; try discriminate; try reflexivity; intros; lia.
    + destruct (Z.leb_spec 0 (int_value number)); [|lia].
      destruct (Z.leb_spec (int_value number) MAX_SEQUENCE);
        cbn [andb negb]; repeat split; try discriminate; try reflexivity;
        try lia; intros; lia.
  - assert (e = InvalidInteger number) as ->
      by (destruct number; try discriminate; now injection Hi).
    repeat split; try discriminate; intros [H _]; discriminate.
Qed.

End SequenceFacts.

Lemma is_sequence_iff_witness :
  is_sequence 65535 (PInt (-5)) = Raised (InvalidUnsigned (PInt (-5))).
Proof.
  apply (proj2 (proj2 (is_sequence_iff 65535 (PInt (-5))))).
  - reflexivity.
  - reflexivity.
Defined.

(** X7: [is_quantity] accepts exactly the integers (and booleans) strictly
    between 0 and 2100000000000000; every other integer, 0 and the negative
    ones included, raises [InvalidQuantity]. *)
Theorem is_quantity_iff (number : pyval) :
  (is_quantity number = Returned tt
   <-> is_integer number = Returned tt
       /\ (0 < int_value number < 2100000000000000)%Z)
  /\ (is_integer number = Returned tt ->
      ~ (0 < int_value number < 2100000000000000)%Z ->
      is_quantity number = Raised (InvalidQuantity number)).
Proof.
  unfold is_quantity.
  destruct (is_integer number) as [[]|e] eqn:Hi; cbn [and_then].
  - destruct (Z.ltb_spec 0 (int_value number));
      destruct (Z.ltb_spec (int_value number) 2100000000000000);
      cbn [andb negb]; repeat split; try discriminate; try reflexivity;
      try lia; intros; lia.
  - repeat split; try discriminate. intros [H _]. discriminate.
Qed.

Lemma is_quantity_iff_witness :
  is_quantity (PInt 2100000000000000)
  = Raised (InvalidQuantity (PInt 2100000000000000))
  /\ is_quantity (PInt 0) = Raised (InvalidQuantity (PInt 0)).
Proof.
  split.
  - apply (proj2 (is_quantity_iff (PInt 2100000000000000))).
    + reflexivity.
    + cbn [int_value]. lia.
  - apply (proj2 (is_quantity_iff (PInt 0))).
    + reflexivity.
    + cbn [int_value]. lia.
Defined.

(* ================================================================= *)
(** ** [deposit_script] and [commit_script] *)

Lemma is_hex_calls (data : pyval) : calls (is_hex data) = [].
Proof.
  unfold is_hex. destruct data; try reflexivity.
  cbn [is_string as_str]. rewrite !bind_ret_l.
  destruct (negb (Re.re_match HEX_RE s)); [reflexivity|].
  now destruct (negb (Nat.eqb (String.length s mod 2) 0)).
Qed.

Lemma is_hex_pair (data : pyval) : is_hex data = ([], outcome (is_hex data)).
Proof. rewrite <- (is_hex_calls data). symmetry. apply M_eta. Qed.

Lemma is_hex_ok_str (data : pyval) :
  outcome (is_hex data) = Ok tt -> exists s, data = PStr s.
Proof. destruct data; try discriminate. intros _. now eexists. Qed.

(** [is_hex x; ...] when [is_hex x] returns. *)
Lemma bind_is_hex_ok {B} (data : pyval) (k : M B) :
  outcome (is_hex data) = Ok tt -> (is_hex data ;; k) = k.
Proof.
  intros H. rewrite (is_hex_pair data), H. apply (bind_ret_l tt).
Qed.

Lemma bind_is_hex_raise {B} (data : pyval) (k : M B) e :
  outcome (is_hex data) = Raise e -> (is_hex data ;; k) = ([], Raise e).
Proof. intros H. now rewrite (is_hex_pair data), H. Qed.

Section ScriptValidators.

Variable scripts : Scripts.

(** X8: [deposit_script] returns exactly when its argument passes [is_hex],
    the library accepts it as a deposit script, and the spend secret hash
    and the payee pubkey read from it are the expected ones. *)
Theorem deposit_script_iff (deposit_script_hex : pyval)
        (expected_payee_pubkey expected_spend_secret_hash : string) :
  outcome (deposit_script_ scripts deposit_script_hex expected_payee_pubkey
                           expected_spend_secret_hash) = Ok tt
  <-> exists D,
      deposit_script_hex = PStr D
      /\ outcome (is_hex deposit_script_hex) = Ok tt
      /\ validate_deposit_script scripts D = Ok tt
      /\ get_deposit_spend_secret_hash scripts D
         = Ok expected_spend_secret_hash
      /\ get_deposit_payee_pubkey scripts D = Ok expected_payee_pubkey.
Proof.
  unfold deposit_script_. split.
  - destruct (outcome (is_hex deposit_script_hex)) as [[]|e] eqn:Hhex.
    + destruct (is_hex_ok_str _ Hhex) as [D ->].
      rewrite (bind_is_hex_ok _ _ Hhex). cbn [as_str]. rewrite bind_ret_l.
      rewrite outcome_bind. cbn [invoke outcome snd].
      destruct (validate_deposit_script scripts D) as [[]|] eqn:Hv;
        [|discriminate].
      rewrite outcome_bind. cbn [invoke outcome snd].
      destruct (get_deposit_spend_secret_hash scripts D) as [fh|] eqn:Hh;
        [|discriminate].
      rewrite outcome_bind.
      destruct (String.eqb_spec fh expected_spend_secret_hash) as [->|];
        [|discriminate].
      cbn [negb ret outcome snd]. rewrite outcome_bind.
      cbn [invoke outcome snd].
      destruct (get_deposit_payee_pubkey scripts D) as [fp|] eqn:Hp;
        [|discriminate].
      destruct (String.eqb_spec fp expected_payee_pubkey) as [->|];
        [|discriminate].
      intros _. exists D. repeat split; assumption.
    + rewrite (bind_is_hex_raise _ _ _ Hhex). discriminate.
  - intros (D & -> & Hhex & Hv & Hh & Hp).
    rewrite (bind_is_hex_ok _ _ Hhex). cbn [as_str]. rewrite bind_ret_l.
    rewrite outcome_bind. cbn [invoke outcome snd]. rewrite Hv.
    rewrite outcome_bind. cbn [invoke outcome snd]. rewrite Hh.
    rewrite outcome_bind, String.eqb_refl. cbn [negb ret outcome snd].
    rewrite outcome_bind. cbn [invoke outcome snd]. rewrite Hp.
    now rewrite String.eqb_refl.
Qed.

(** X9: in [deposit_script] the spend secret hash is compared before the
    payee pubkey is read: a hash that is not the expected one raises
    [IncorrectSpendSecretHash (found, expected)] after two library calls,
    whatever the pubkey; with the expected hash, a pubkey that is not the
    expected one raises [IncorrectPubKey (found, expected)]. *)
Theorem deposit_script_mismatch (D : string)
        (expected_payee_pubkey expected_spend_secret_hash : string)
        (found_hash : string) :
  outcome (is_hex (PStr D)) = Ok tt ->
  validate_deposit_script scripts D = Ok tt ->
  get_deposit_spend_secret_hash scripts D = Ok found_hash ->
  (found_hash <> expected_spend_secret_hash ->
   deposit_script_ scripts (PStr D) expected_payee_pubkey
                   expected_spend_secret_hash
   = ([Call_validate_deposit_script D;
       Call_get_deposit_spend_secret_hash D],
      Raise (IncorrectSpendSecretHash found_hash
                                      expected_spend_secret_hash)))
  /\ (forall found_pubkey,
        found_hash = expected_spend_secret_hash ->
        get_deposit_payee_pubkey scripts D = Ok found_pubkey ->
        found_pubkey <> expected_payee_pubkey ->
        outcome (deposit_script_ scripts (PStr D) expected_payee_pubkey
                                 expected_spend_secret_hash)
        = Raise (IncorrectPubKey found_pubkey expected_payee_pubkey)).
Proof.
  intros Hhex Hv Hh. unfold deposit_script_.
  rewrite (bind_is_hex_ok _ _ Hhex). cbn [as_str]. rewrite bind_ret_l.
  rewrite Hv, bind_invoke_ok, Hh, bind_invoke_ok.
  cbn [calls outcome fst snd]. split.
  - intros Hne.
    destruct (String.eqb_spec found_hash expected_spend_secret_hash);
      [contradiction | reflexivity].
  - intros found_pubkey -> Hp Hne.
    rewrite String.eqb_refl. cbn [negb]. rewrite bind_ret_l, Hp.
    rewrite outcome_bind. cbn [invoke outcome snd].
    destruct (String.eqb_spec found_pubkey expected_payee_pubkey);
      [contradiction | reflexivity].
Qed.

End ScriptValidators.

Lemma deposit_script_mismatch_witness :
  deposit_script_ Fixture.scripts (PStr "dd") "02b0b0" "77"
  = ([Call_validate_deposit_script "dd";
      Call_get_deposit_spend_secret_hash "dd"],
     Raise (IncorrectSpendSecretHash "5e" "77"))
  /\ outcome (deposit_script_ Fixture.scripts (PStr "dd") "02cccc" "5e")
     = Raise (IncorrectPubKey "02b0b0" "02cccc").
Proof.
  split.
  - apply (proj1 (deposit_script_mismatch Fixture.scripts "dd" "02b0b0" "77"
                    "5e" eq_refl eq_refl eq_refl)).
    discriminate.
  - apply (proj2 (deposit_script_mismatch Fixture.scripts "dd" "02cccc" "5e"
                    "5e" eq_refl eq_refl eq_refl) "02b0b0").
    + reflexivity.
    + reflexivity.
    + discriminate.
Defined.

Section CommitScript.

Variable scripts : Scripts.

(** When [commit_script] returns. *)
Lemma commit_script_returns (commit_script_hex deposit_script_hex : pyval) :
  outcome (commit_script scripts commit_script_hex deposit_script_hex)
  = Ok tt
  <-> exists C D payee payer h,
      commit_script_hex = PStr C
      /\ deposit_script_hex = PStr D
      /\ outcome (is_hex commit_script_hex) = Ok tt
      /\ outcome (is_hex deposit_script_hex) = Ok tt
      /\ validate_deposit_script scripts D = Ok tt
      /\ validate_commit_script scripts C = Ok tt
      /\ get_deposit_payee_pubkey scripts D = Ok payee
      /\ get_commit_payee_pubkey scripts C = Ok payee
      /\ get_deposit_payer_pubkey scripts D = Ok payer
      /\ get_commit_payer_pubkey scripts C = Ok payer
      /\ get_deposit_spend_secret_hash scripts D = Ok h
      /\ get_commit_spend_secret_hash scripts C = Ok h.
Proof.
  unfold commit_script. split.
  - destruct (outcome (is_hex commit_script_hex)) as [[]|e] eqn:HC.
    2:{ rewrite (bind_is_hex_raise _ _ _ HC). discriminate. }
    rewrite (bind_is_hex_ok _ _ HC).
    destruct (outcome (is_hex deposit_script_hex)) as [[]|e] eqn:HD.
    2:{ rewrite (bind_is_hex_raise _ _ _ HD). discriminate. }
    rewrite (bind_is_hex_ok _ _ HD).
    destruct (is_hex_ok_str _ HC) as [C ->].
    destruct (is_hex_ok_str _ HD) as [D ->].
    cbn [as_str]. rewrite !bind_ret_l.
    rewrite outcome_bind. cbn [invoke outcome snd].
    destruct (validate_deposit_script scripts D) as [[]|] eqn:HvD;
      [|discriminate].
    rewrite outcome_bind. cbn [invoke outcome snd].
    destruct (validate_commit_script scripts C) as [[]|] eqn:HvC;
      [|discriminate].
    rewrite outcome_bind. cbn [invoke outcome snd].
    destruct (get_deposit_payee_pubkey scripts D) as [dp|] eqn:Hdp;
      [|discriminate].
    rewrite outcome_bind. cbn [invoke outcome snd].
    destruct (get_commit_payee_pubkey scripts C) as [cp|] eqn:Hcp;
      [|discriminate].
    rewrite outcome_bind.
    destruct (String.eqb_spec dp cp) as [->|]; [|discriminate].
    cbn [negb ret outcome snd].
    rewrite outcome_bind. cbn [invoke outcome snd].
    destruct (get_deposit_payer_pubkey scripts D) as [dq|] eqn:Hdq;
      [|discriminate].
    rewrite outcome_bind. cbn [invoke outcome snd].
    destruct (get_commit_payer_pubkey scripts C) as [cq|] eqn:Hcq;
      [|discriminate].
    rewrite outcome_bind.
    destruct (String.eqb_spec dq cq) as [->|]; [|discriminate].
    cbn [negb ret outcome snd].
    rewrite outcome_bind. cbn [invoke outcome snd].
    destruct (get_deposit_spend_secret_hash scripts D) as [dh|] eqn:Hdh;
      [|discriminate].
    rewrite outcome_bind. cbn [invoke outcome snd].
    destruct (get_commit_spend_secret_hash scripts C) as [ch|] eqn:Hch;
      [|discriminate].
    destruct (String.eqb_spec dh ch) as [->|]; [|discriminate].
    intros _. exists C, D, cp, cq, ch. repeat split; assumption.
  - intros (C & D & payee & payer & h & -> & -> & HC & HD & HvD & HvC
            & Hdp & Hcp & Hdq & Hcq & Hdh & Hch).
    rewrite (bind_is_hex_ok _ _ HC), (bind_is_hex_ok _ _ HD).
    cbn [as_str]. rewrite !bind_ret_l.
    rewrite outcome_bind. cbn [invoke outcome snd]. rewrite HvD.
    rewrite outcome_bind. cbn [invoke outcome snd]. rewrite HvC.
    rewrite outcome_bind. cbn [invoke outcome snd]. rewrite Hdp.
    rewrite outcome_bind. cbn [invoke outcome snd]. rewrite Hcp.
    rewrite outcome_bind, String.eqb_refl. cbn [negb ret outcome snd].
    rewrite outcome_bind. cbn [invoke outcome snd]. rewrite Hdq.
    rewrite outcome_bind. cbn [invoke outcome snd]. rewrite Hcq.
    rewrite outcome_bind, String.eqb_refl. cbn [negb ret outcome snd].
    rewrite outcome_bind. cbn [invoke outcome snd]. rewrite Hdh.
    rewrite outcome_bind. cbn [invoke outcome snd]. rewrite Hch.
    now rewrite String.eqb_refl.
Qed.

(** X10: [commit_script] returns exactly when both arguments pass [is_hex],
    the library accepts the one as a deposit script and the other as a
    commit script, and the two agree on the payee pubkey, the payer pubkey
    and the spend secret hash. *)
Theorem commit_script_iff (commit_script_hex deposit_script_hex : pyval) :
  outcome (commit_script scripts commit_script_hex deposit_script_hex)
  = Ok tt
  <-> exists C D payee payer h,
      commit_script_hex = PStr C
      /\ deposit_script_hex = PStr D
      /\ outcome (is_hex commit_script_hex) = Ok tt
      /\ outcome (is_hex deposit_script_hex) = Ok tt
      /\ validate_deposit_script scripts D = Ok tt
      /\ validate_commit_script scripts C = Ok tt
      /\ get_deposit_payee_pubkey scripts D = Ok payee
      /\ get_commit_payee_pubkey scripts C = Ok payee
      /\ get_deposit_payer_pubkey scripts D = Ok payer
      /\ get_commit_payer_pubkey scripts C = Ok payer
      /\ get_deposit_spend_secret_hash scripts D = Ok h
      /\ get_commit_spend_secret_hash scripts C = Ok h.
Proof. apply commit_script_returns. Qed.

(** X11: [commit_script] compares the payee pubkeys, then the payer
    pubkeys, then the spend secret hashes, and reports the first pair that
    differs, the value of the commit script first and the one of the deposit
    script second: [IncorrectPubKey] for a pubkey, raised for the payee
    before the payer is read, [IncorrectSpendSecretHash] for the hash. *)
Theorem commit_script_mismatch (C D : string) (dp cp : string) :
  outcome (is_hex (PStr C)) = Ok tt ->
  outcome (is_hex (PStr D)) = Ok tt ->
  validate_deposit_script scripts D = Ok tt ->
  validate_commit_script scripts C = Ok tt ->
  get_deposit_payee_pubkey scripts D = Ok dp ->
  get_commit_payee_pubkey scripts C = Ok cp ->
  (dp <> cp ->
   commit_script scripts (PStr C) (PStr D)
   = ([Call_validate_deposit_script D; Call_validate_commit_script C;
       Call_get_deposit_payee_pubkey D; Call_get_commit_payee_pubkey C],
      Raise (IncorrectPubKey cp dp)))
  /\ (forall dq cq,
        dp = cp ->
        get_deposit_payer_pubkey scripts D = Ok dq ->
        get_commit_payer_pubkey scripts C = Ok cq ->
        (dq <> cq ->
         outcome (commit_script scripts (PStr C) (PStr D))
         = Raise (IncorrectPubKey cq dq))
        /\ (forall dh ch,
              dq = cq ->
              get_deposit_spend_secret_hash scripts D = Ok dh ->
              get_commit_spend_secret_hash scripts C = Ok ch ->
              dh <> ch ->
              outcome (commit_script scripts (PStr C) (PStr D))
              = Raise (IncorrectSpendSecretHash ch dh))).
Proof.
  intros HC HD HvD HvC Hdp Hcp. unfold commit_script.
  rewrite (bind_is_hex_ok _ _ HC), (bind_is_hex_ok _ _ HD).
  cbn [as_str]. rewrite !bind_ret_l.
  rewrite HvD, bind_invoke_ok, HvC, bind_invoke_ok, Hdp, bind_invoke_ok,
    Hcp, bind_invoke_ok.
  cbn [calls outcome fst snd]. split.
  - intros Hne. destruct (String.eqb_spec dp cp); [contradiction|].
    reflexivity.
  - intros dq cq -> Hdq Hcq. rewrite String.eqb_refl. cbn [negb].
    rewrite bind_ret_l, Hdq, bind_invoke_ok, Hcq, bind_invoke_ok.
    cbn [calls outcome fst snd]. split.
    + intros Hne. rewrite outcome_bind.
      destruct (String.eqb_spec dq cq); [contradiction | reflexivity].
    + intros dh ch -> Hdh Hch Hne. rewrite String.eqb_refl. cbn [negb].
      rewrite bind_ret_l, Hdh, bind_invoke_ok, Hch, bind_invoke_ok.
      cbn [calls outcome fst snd].
      destruct (String.eqb_spec dh ch); [contradiction | reflexivity].
Qed.

(** X12: a script that does not pass [is_hex] stops [deposit_script] and
    [commit_script] with the exception of [is_hex] before the script library
    is called; [commit_script] looks at the commit script first. *)
Theorem format_checked_first (x y : pyval) (p h : string) (e : exn) :
  outcome (is_hex x) = Raise e ->
  deposit_script_ scripts x p h = ([], Raise e)
  /\ commit_script scripts x y = ([], Raise e)
  /\ (outcome (is_hex y) = Ok tt ->
      commit_script scripts y x = ([], Raise e)).
Proof.
  intros Hx. split; [|split].
  - unfold deposit_script_. now apply bind_is_hex_raise.
  - unfold commit_script. now apply bind_is_hex_raise.
  - intros Hy. unfold commit_script. rewrite (bind_is_hex_ok _ _ Hy).
    now apply bind_is_hex_raise.
Qed.

End CommitScript.

Lemma commit_script_mismatch_witness :
  commit_script Strangers.scripts (PStr "c7") (PStr "dd")
  = ([Call_validate_deposit_script "dd"; Call_validate_commit_script "c7";
      Call_get_deposit_payee_pubkey "dd"; Call_get_commit_payee_pubkey "c7"],
     Raise (IncorrectPubKey "02eeee" "02b0b0"))
  /\ outcome (commit_script Strangers.scripts (PStr "c8") (PStr "dd"))
     = Raise (IncorrectPubKey "03ffff" "03a1a1").
Proof.
  split.
  - apply (proj1 (commit_script_mismatch Strangers.scripts "c7" "dd"
                    "02b0b0" "02eeee" eq_refl eq_refl eq_refl eq_refl
                    eq_refl eq_refl)).
    discriminate.
  - apply (proj2 (commit_script_mismatch Strangers.scripts "c8" "dd"
                    "02b0b0" "02b0b0" eq_refl eq_refl eq_refl eq_refl
                    eq_refl eq_refl)
             "03a1a1" "03ffff" eq_refl eq_refl eq_refl).
    discriminate.
Defined.

Lemma format_checked_first_witness :
  deposit_script_ Fixture.scripts (PStr "DD") "02b0b0" "5e"
  = ([], Raise (InvalidHexData "DD"))
  /\ commit_script Fixture.scripts (PStr "DD") (PStr "c1")
     = ([], Raise (InvalidHexData "DD"))
  /\ commit_script Fixture.scripts (PStr "c1") (PStr "DD")
     = ([], Raise (InvalidHexData "DD")).
Proof.
  destruct (format_checked_first Fixture.scripts (PStr "DD") (PStr "c1")
              "02b0b0" "5e" (InvalidHexData "DD") eq_refl)
    as (H1 & H2 & H3).
  split; [exact H1|]. split; [exact H2|]. exact (H3 eq_refl).
Defined.

(* ================================================================= *)
(** ** [commit_script] and [is_state] *)

Section CommitScriptAndState.

Variable scripts : Scripts.
Variable util : Util.
Variable dispatcher : Dispatcher.
Variable netcode : string.

(** What [commit_script] gives to the checks of [is_state] on a script. *)
Lemma commit_script_commit_valid C D h :
  outcome (commit_script scripts (PStr C) (PStr D)) = Ok tt ->
  get_deposit_spend_secret_hash scripts D = Ok h ->
  commit_valid scripts h C.
Proof.
  intros H Hh. apply commit_script_returns in H
    as (C' & D' & payee & payer & h' & [= <-] & [= <-] & _ & _ & _ & HvC
        & _ & _ & _ & _ & Hdh & Hch).
  rewrite Hh in Hdh. injection Hdh as <-. now split.
Qed.

(** X13: a well-formed channel state with distinct scripts, a listed asset
    and a valid deposit script passes [is_state] when every commit script
    in it passes [commit_script] against the deposit script, every revoke
    secret hashes to the revoke secret hash of its script, and every active
    rawtx is a send of the asset from the deposit address to the address of
    its script. *)
Theorem is_state_of_commit_scripts st daddr h :
  well_formed st ->
  NoDup (all_scripts st) ->
  asset_listed dispatcher (asset st) ->
  deposit_valid scripts util netcode (deposit_script st) daddr h ->
  Forall (fun r =>
            outcome (commit_script scripts (PStr (revoked_script r))
                                   (PStr (deposit_script st))) = Ok tt
            /\ revoke_secret_matches scripts util r)
         (commits_revoked st) ->
  Forall (fun e =>
            outcome (commit_script scripts (PStr (active_script e))
                                   (PStr (deposit_script st))) = Ok tt
            /\ exists caddr,
                script_address util (active_script e) netcode = Ok caddr
                /\ ledger_send dispatcher (active_rawtx e) (asset st)
                               daddr caddr)
         (commits_active st) ->
  outcome (is_state scripts util dispatcher (encode_state st) netcode)
  = Ok tt.
Proof.
  intros Hwf Hnd Ha Hd Hr Hact. apply is_state_ok_iff.
  repeat split; try assumption. exists daddr, h.
  split; [exact Hd|]. destruct Hd as (_ & Hh & _). split.
  - revert Hr. apply Forall_impl. intros r [Hc Hm]. split; [|exact Hm].
    now apply (commit_script_commit_valid _ (deposit_script st)).
  - revert Hact. apply Forall_impl. intros e [Hc Hs]. split; [|exact Hs].
    now apply (commit_script_commit_valid _ (deposit_script st)).
Qed.

End CommitScriptAndState.

(** X14: [is_state] reads no pubkey.  Two script libraries that agree on
    the validity of scripts, on the spend secret hashes and on the revoke
    secret hashes make [is_state] call the same collaborators and end the
    same way, however their pubkeys differ. *)
Theorem is_state_ignores_pubkeys (scripts1 scripts2 : Scripts) util
        dispatcher state_data netcode :
  validate_deposit_script scripts1 = validate_deposit_script scripts2 ->
  validate_commit_script scripts1 = validate_commit_script scripts2 ->
  get_deposit_spend_secret_hash scripts1
  = get_deposit_spend_secret_hash scripts2 ->
  get_commit_spend_secret_hash scripts1
  = get_commit_spend_secret_hash scripts2 ->
  get_commit_revoke_secret_hash scripts1
  = get_commit_revoke_secret_hash scripts2 ->
  is_state scripts1 util dispatcher state_data netcode
  = is_state scripts2 util dispatcher state_data netcode.
Proof.
  destruct scripts1, scripts2. cbn. intros -> -> -> -> ->. reflexivity.
Qed.

Lemma is_state_of_commit_scripts_witness :
  outcome (is_state Fixture.scripts Fixture.util Fixture.dispatcher
                    (encode_state Fixture.consistent) Fixture.NETCODE)
  = Ok tt.
Proof.
  apply (is_state_of_commit_scripts Fixture.scripts Fixture.util
           Fixture.dispatcher Fixture.NETCODE Fixture.consistent
           "XTN:dd" "5e").
  - reflexivity.
  - repeat constructor; simpl; intuition discriminate.
  - exists [ {| asset_name := "BTC" |}; {| asset_name := "XCP" |} ].
    split; [reflexivity | simpl; auto].
  - repeat split.
  - repeat constructor. now exists "4ec2".
  - repeat constructor. exists "XTN:c1". split; [reflexivity|].
    exists 0%Z, 10000%Z, "00", Fixture.send_payload.
    repeat split. discriminate.
Defined.

Lemma is_state_ignores_pubkeys_witness :
  is_state Strangers.scripts Fixture.util Strangers.dispatcher
           (encode_state Strangers.other_payer) Fixture.NETCODE
  = is_state Fixture.scripts Fixture.util Strangers.dispatcher
             (encode_state Strangers.other_payer) Fixture.NETCODE
  /\ outcome (is_state Strangers.scripts Fixture.util Strangers.dispatcher
                       (encode_state Strangers.other_payer) Fixture.NETCODE)
     = Ok tt
  /\ outcome (commit_script Strangers.scripts (PStr "c8") (PStr "dd"))
     = Raise (IncorrectPubKey "03ffff" "03a1a1").
Proof.
  split; [|split; reflexivity].
  apply (is_state_ignores_pubkeys Strangers.scripts Fixture.scripts);
    reflexivity.
Defined.

(* ================================================================= *)
(** ** More on [is_send_tx] *)

Lemma in_calls_bind {A B} (m : M A) (f : A -> M B) (c : call) :
  In c (calls (bind m f)) ->
  In c (calls m) \/ exists a, outcome m = Ok a /\ In c (calls (f a)).
Proof.
  rewrite calls_bind. destruct (outcome m) as [a|e]; [|now left].
  intros H. apply in_app_or in H as [H|H]; [now left|].
  right. now exists a.
Qed.

(** A computation that verifies no signature has returned when a signature
    is verified after it. *)
Lemma load_tx_after {A B} (m : M A) (f : A -> M B) (rawtx : string) :
  no_signature_check m ->
  In (Call_load_tx rawtx) (calls (bind m f)) ->
  exists a, outcome m = Ok a /\ In (Call_load_tx rawtx) (calls (f a)).
Proof.
  intros Hm H. apply in_calls_bind in H as [H|H]; [|exact H].
  unfold no_signature_check in Hm. rewrite Forall_forall in Hm.
  apply Hm in H. discriminate.
Qed.

Section MoreSendTx.

Variable util : Util.
Variable dispatcher : Dispatcher.

(** X15: [is_send_tx] returns exactly when the dispatcher reports a payload
    of message type 0 for the rawtx, every expected value that is given is
    the one found, and, when signatures are to be validated, none is bad;
    what it returns is then the record of the values found. *)
Theorem is_send_tx_returns_iff rawtx expected_asset expected_src
        expected_dest validate_signature r :
  outcome (is_send_tx util dispatcher rawtx expected_asset expected_src
                      expected_dest validate_signature) = Ok r
  <-> exists src dest btc fee data unpacked,
      send_tx_passes util dispatcher rawtx expected_asset expected_src
                     expected_dest validate_signature
                     src dest btc fee data unpacked
      /\ r = [ ("src", PStr src); ("dest", PStr dest); ("btc", PInt btc);
               ("fee", PInt fee); ("data", PStr data);
               ("message_type_id", PInt 0); ("unpacked", PDict unpacked) ].
Proof.
  split.
  - intros H.
    destruct (is_send_tx_ok_inv _ _ _ _ _ _ _ _ H)
      as (src & dest & btc & fee & data & unpacked & Hpass).
    exists src, dest, btc, fee, data, unpacked. split; [exact Hpass|].
    rewrite (is_send_tx_outcome _ _ _ _ _ _ _ _ _ _ _ _ _ Hpass) in H.
    now injection H.
  - intros (src & dest & btc & fee & data & unpacked & Hpass & ->).
    now apply is_send_tx_outcome.
Qed.

(** X16: a payload that is not of message type 0 ends [is_send_tx] with
    the [AssertionError] of line 173 right after it is unpacked, whatever is
    expected and whether signatures are to be validated or not. *)
Theorem is_send_tx_message_type rawtx expected_asset expected_src
        expected_dest validate_signature
        src dest btc fee data message_type_id unpacked :
  get_tx_info dispatcher rawtx = Ok (src, dest, btc, fee, Some data) ->
  data <> "" ->
  unpack dispatcher data = Ok (message_type_id, unpacked) ->
  message_type_id <> 0%Z ->
  is_send_tx util dispatcher rawtx expected_asset expected_src expected_dest
             validate_signature
  = ([Call_get_tx_info rawtx; Call_unpack data],
     Raise (AssertionError 173)).
Proof.
  intros Hinfo Hdata Hun Hmt. unfold is_send_tx.
  rewrite Hinfo, bind_invoke_ok.
  destruct data as [|c data]; [now destruct Hdata|].
  rewrite Hun, bind_invoke_ok. cbn [calls outcome fst snd].
  unfold py_assert. destruct (Z.eqb_spec message_type_id 0);
    [contradiction | reflexivity].
Qed.

(** X17: the source is compared first.  A rawtx whose source is not the
    expected one ends [is_send_tx] with [SourceMissmatch (expected, found)]
    after [get_tx_info] and [unpack], whatever the destination and the asset
    are and whether signatures are to be validated or not. *)
Theorem is_send_tx_source rawtx expected_asset expected_src expected_dest
        validate_signature src dest btc fee data unpacked :
  get_tx_info dispatcher rawtx = Ok (src, dest, btc, fee, Some data) ->
  data <> "" ->
  unpack dispatcher data = Ok (0%Z, unpacked) ->
  expected_src <> src ->
  is_send_tx util dispatcher rawtx expected_asset (Some expected_src)
             expected_dest validate_signature
  = ([Call_get_tx_info rawtx; Call_unpack data],
     Raise (SourceMissmatch expected_src src)).
Proof.
  intros Hinfo Hdata Hun Hne. unfold is_send_tx.
  rewrite Hinfo, bind_invoke_ok.
  destruct data as [|c data]; [now destruct Hdata|].
  rewrite Hun, bind_invoke_ok. cbn [calls outcome fst snd].
  cbn [py_assert Z.eqb]. rewrite bind_ret_l.
  destruct (String.eqb_spec expected_src src); [contradiction | reflexivity].
Qed.

Lemma str_ne_true (a : string) (found : pyval) :
  found <> PStr a -> str_ne a found = true.
Proof.
  intros H. destruct found; try reflexivity. cbn [str_ne].
  destruct (String.eqb_spec a s); [now subst | reflexivity].
Qed.

Lemma expected_check_passes (expected : option string) (found : string)
      (mk : string -> string -> exn) :
  (forall e, expected = Some e -> e = found) ->
  match expected with
  | Some e => if negb (String.eqb e found)
              then raise (mk e found) else ret tt
  | None => ret tt
  end = ret tt.
Proof.
  intros H. destruct expected as [e|]; [|reflexivity].
  now rewrite (H e eq_refl), String.eqb_refl.
Qed.

(** [is_send_tx] from the comparison of the asset on, when the payload is
    of message type 0 and source and destination are fine. *)
Lemma is_send_tx_from_asset rawtx expected_asset expected_src expected_dest
      (validate_signature : bool) src dest btc fee data unpacked :
  get_tx_info dispatcher rawtx = Ok (src, dest, btc, fee, Some data) ->
  data <> "" ->
  unpack dispatcher data = Ok (0%Z, unpacked) ->
  (forall e, expected_src = Some e -> e = src) ->
  (forall e, expected_dest = Some e -> e = dest) ->
  let rest : M pydict :=
    ((match expected_asset return M unit with
      | Some e => do found <- getitem (PDict unpacked) "asset";
                  if str_ne e found
                  then raise (AssetMissmatch e found) else ret tt
      | None => ret tt
      end) ;;
     (if validate_signature
      then
        do tx <- invoke (Call_load_tx rawtx)
                   (load_tx util (getrawtransaction dispatcher) rawtx);
        if negb (Z.eqb (bad_signature_count util tx) 0)
        then raise (InvalidSignature rawtx) else ret tt
      else ret tt) ;;
     ret [ ("src", PStr src); ("dest", PStr dest); ("btc", PInt btc);
           ("fee", PInt fee); ("data", PStr data);
           ("message_type_id", PInt 0); ("unpacked", PDict unpacked) ]) in
  is_send_tx util dispatcher rawtx expected_asset expected_src expected_dest
             validate_signature
  = (Call_get_tx_info rawtx :: Call_unpack data :: calls rest, outcome rest).
Proof.
  intros Hinfo Hdata Hun Hsrc Hdest rest. unfold is_send_tx.
  rewrite Hinfo, bind_invoke_ok.
  destruct data as [|c data]; [now destruct Hdata|].
  rewrite Hun, bind_invoke_ok. cbn [calls outcome fst snd].
  cbn [py_assert Z.eqb]. rewrite bind_ret_l.
  rewrite (expected_check_passes _ _ SourceMissmatch Hsrc), bind_ret_l.
  rewrite (expected_check_passes _ _ DestinationMissmatch Hdest), bind_ret_l.
  reflexivity.
Qed.

(** X18: the asset is compared after source and destination.  When these
    are as expected, or not given, a payload whose asset is not the
    expected string ends [is_send_tx] with [AssetMissmatch (expected,
    found)], and a payload without an asset with [KeyError]; in both cases
    no signature has been looked at. *)
Theorem is_send_tx_asset rawtx expected_asset expected_src expected_dest
        validate_signature src dest btc fee data unpacked :
  get_tx_info dispatcher rawtx = Ok (src, dest, btc, fee, Some data) ->
  data <> "" ->
  unpack dispatcher data = Ok (0%Z, unpacked) ->
  (forall e, expected_src = Some e -> e = src) ->
  (forall e, expected_dest = Some e -> e = dest) ->
  (forall found,
      dict_get "asset" unpacked = Some found ->
      found <> PStr expected_asset ->
      is_send_tx util dispatcher rawtx (Some expected_asset) expected_src
                 expected_dest validate_signature
      = ([Call_get_tx_info rawtx; Call_unpack data],
         Raise (AssetMissmatch expected_asset found)))
  /\ (dict_get "asset" unpacked = None ->
      is_send_tx util dispatcher rawtx (Some expected_asset) expected_src
                 expected_dest validate_signature
      = ([Call_get_tx_info rawtx; Call_unpack data],
         Raise (KeyError "asset"))).
Proof.
  intros Hinfo Hdata Hun Hsrc Hdest.
  rewrite (is_send_tx_from_asset _ _ _ _ _ _ _ _ _ _ _
             Hinfo Hdata Hun Hsrc Hdest).
  unfold getitem. split.
  - intros found Hfound Hne. rewrite Hfound, bind_ret_l.
    now rewrite (str_ne_true _ _ Hne).
  - intros Hnone. now rewrite Hnone.
Qed.

(** X19: signatures are verified last.  With [validate_signature] set, a
    rawtx that passes every other check is loaded with [util.load_tx] and
    ends [is_send_tx] with [InvalidSignature] when a signature is bad; and
    [util.load_tx] is called for no rawtx that fails another check, and
    never without [validate_signature]. *)
Theorem is_send_tx_signature rawtx expected_asset expected_src expected_dest
        validate_signature :
  (forall src dest btc fee data unpacked tx,
      send_tx_passes util dispatcher rawtx expected_asset expected_src
                     expected_dest false src dest btc fee data unpacked ->
      validate_signature = true ->
      load_tx util (getrawtransaction dispatcher) rawtx = Ok tx ->
      bad_signature_count util tx <> 0%Z ->
      is_send_tx util dispatcher rawtx expected_asset expected_src
                 expected_dest validate_signature
      = ([Call_get_tx_info rawtx; Call_unpack data; Call_load_tx rawtx],
         Raise (InvalidSignature rawtx)))
  /\ (forall r,
        In (Call_load_tx r)
           (calls (is_send_tx util dispatcher rawtx expected_asset
                              expected_src expected_dest
                              validate_signature)) ->
        validate_signature = true
        /\ r = rawtx
        /\ exists src dest btc fee data unpacked,
            send_tx_passes util dispatcher rawtx expected_asset
                           expected_src expected_dest false
                           src dest btc fee data unpacked).
Proof.
  split.
  - intros src dest btc fee data unpacked tx
           (Hinfo & Hdata & Hun & Hsrc & Hdest & Hasset & _) -> Hload Hbad.
    rewrite (is_send_tx_from_asset _ _ _ _ _ _ _ _ _ _ _
               Hinfo Hdata Hun Hsrc Hdest).
    assert (E : (match expected_asset with
                 | Some e => do found <- getitem (PDict unpacked) "asset";
                             if str_ne e found
                             then raise (AssetMissmatch e found) else ret tt
                 | None => ret tt
                 end) = ret tt).
    { destruct expected_asset as [e|]; [|reflexivity].
      unfold getitem. rewrite (Hasset e eq_refl), bind_ret_l.
      unfold str_ne. now rewrite String.eqb_refl. }
    rewrite E, bind_ret_l, Hload, bind_assoc, bind_invoke_ok.
    cbn [calls outcome fst snd].
    destruct (Z.eqb_spec (bad_signature_count util tx) 0);
      [contradiction | reflexivity].
  - intros r. unfold is_send_tx. intros H.
    apply load_tx_after in H as (info & Hinfo & H);
      [|now apply nosig_invoke].
    cbn [invoke outcome snd] in Hinfo.
    destruct info as [[[[src dest] btc] fee] data].
    destruct data as [[|c data]|]; [destruct H| |destruct H].
    apply load_tx_after in H as ([mt unpacked] & Hun & H);
      [|now apply nosig_invoke].
    cbn [invoke outcome snd] in Hun.
    apply load_tx_after in H as ([] & Hmt & H);
      [|apply nosig_py_assert].
    apply load_tx_after in H as ([] & E1 & H).
    2:{ destruct expected_src; nosig. }
    apply load_tx_after in H as ([] & E2 & H).
    2:{ destruct expected_dest; nosig. }
    apply load_tx_after in H as ([] & E3 & H).
    2:{ destruct expected_asset; nosig; apply nosig_getitem. }
    destruct validate_signature.
    + split; [reflexivity|]. split.
      * apply in_calls_bind in H as [H|(u & _ & [])].
        apply in_calls_bind in H as [[H|[]]|(tx & _ & H)];
          [now injection H|].
        destruct (negb (Z.eqb (bad_signature_count util tx) 0)); destruct H.
      * exists src, dest, btc, fee, (String c data), unpacked.
        unfold py_assert in Hmt.
        destruct (Z.eqb_spec mt 0) as [->|]; [|discriminate].
        split; [exact Hinfo|]. split; [discriminate|].
        split; [exact Hun|].
        split; [exact (expected_check_ok _ _ _ _ E1)|].
        split; [exact (expected_check_ok _ _ _ _ E2)|].
        split; [|discriminate].
        intros e ->. revert E3. unfold getitem.
        destruct (dict_get "asset" unpacked) as [found|]; [|discriminate].
        rewrite bind_ret_l. destruct found as [| | |fs| |]; try discriminate.
        unfold str_ne.
        destruct (String.eqb_spec e fs); [now subst | discriminate].
    + rewrite bind_ret_l in H. destruct H.
Qed.

End MoreSendTx.

Lemma is_send_tx_message_type_witness :
  is_send_tx Fixture.util Strangers.dispatcher "a9" (Some "XCP")
             (Some "XTN:dd") (Some "XTN:c8") true
  = ([Call_get_tx_info "a9"; Call_unpack "14"], Raise (AssertionError 173)).
Proof.
  apply (is_send_tx_message_type Fixture.util Strangers.dispatcher "a9"
           (Some "XCP") (Some "XTN:dd") (Some "XTN:c8") true
           "XTN:dd" "XTN:c8" 0%Z 10000%Z "14" 20%Z [("asset", PStr "XCP")]).
  - reflexivity.
  - discriminate.
  - reflexivity.
  - discriminate.
Defined.

Lemma is_send_tx_source_witness :
  is_send_tx Fixture.util Fixture.dispatcher "a1" (Some "BTC")
             (Some "XTN:zz") (Some "XTN:yy") true
  = ([Call_get_tx_info "a1"; Call_unpack "00"],
     Raise (SourceMissmatch "XTN:zz" "XTN:dd")).
Proof.
  apply (is_send_tx_source Fixture.util Fixture.dispatcher "a1" (Some "BTC")
           "XTN:zz" (Some "XTN:yy") true
           "XTN:dd" "XTN:c1" 0%Z 10000%Z "00" Fixture.send_payload).
  - reflexivity.
  - discriminate.
  - reflexivity.
  - discriminate.
Defined.

Lemma is_send_tx_asset_witness :
  is_send_tx Fixture.util Fixture.dispatcher "a1"
             (Some "A18446744073709551615") None None false
  = ([Call_get_tx_info "a1"; Call_unpack "00"],
     Raise (AssetMissmatch "A18446744073709551615" (PStr "XCP")))
  /\ is_send_tx Fixture.util Strangers.dispatcher "a7" (Some "XCP")
                None None false
     = ([Call_get_tx_info "a7"; Call_unpack "0a"], Raise (KeyError "asset")).
Proof.
  split.
  - apply (proj1 (is_send_tx_asset Fixture.util Fixture.dispatcher "a1"
                    "A18446744073709551615" None None false
                    "XTN:dd" "XTN:c1" 0%Z 10000%Z "00" Fixture.send_payload
                    eq_refl ltac:(discriminate) eq_refl
                    ltac:(discriminate) ltac:(discriminate))
             (PStr "XCP")).
    + reflexivity.
    + discriminate.
  - apply (proj2 (is_send_tx_asset Fixture.util Strangers.dispatcher "a7"
                    "XCP" None None false
                    "XTN:dd" "XTN:c8" 0%Z 10000%Z "0a" [("quantity", PInt 5)]
                    eq_refl ltac:(discriminate) eq_refl
                    ltac:(discriminate) ltac:(discriminate))).
    reflexivity.
Defined.

Lemma is_send_tx_signature_witness :
  is_send_tx Fixture.util Fixture.dispatcher "a1" (Some "XCP")
             (Some "XTN:dd") (Some "XTN:c1") true
  = ([Call_get_tx_info "a1"; Call_unpack "00"; Call_load_tx "a1"],
     Raise (InvalidSignature "a1")).
Proof.
  apply (proj1 (is_send_tx_signature Fixture.util Fixture.dispatcher "a1"
                  (Some "XCP") (Some "XTN:dd") (Some "XTN:c1") true)
           "XTN:dd" "XTN:c1" 0%Z 10000%Z "00" Fixture.send_payload "a1").
  - repeat split; try reflexivity; try discriminate.
    + intros e [= <-]. reflexivity.
    + intros e [= <-]. reflexivity.
    + intros e [= <-]. reflexivity.
  - reflexivity.
  - reflexivity.
  - discriminate.
Defined.

(* ================================================================= *)
(** ** More on [is_commit_rawtx] *)

Section MoreCommitRawtx.

Variable util : Util.
Variable dispatcher : Dispatcher.
Variable netcode : string.

(** X20: [is_commit_rawtx] returns exactly when [util.script_address]
    answers for both scripts and the rawtx passes [is_send_tx] as a send of
    the expected asset from the address of the deposit script to the address
    of the commit script. *)
Theorem is_commit_rawtx_iff rawtx a D C validate_signature :
  outcome (is_commit_rawtx util dispatcher rawtx a D C netcode
                           validate_signature) = Ok tt
  <-> exists ca da src dest btc fee data unpacked,
      script_address util C netcode = Ok ca
      /\ script_address util D netcode = Ok da
      /\ send_tx_passes util dispatcher rawtx (Some a) (Some da) (Some ca)
                        validate_signature src dest btc fee data unpacked.
Proof.
  split.
  - unfold is_commit_rawtx, script_address_.
    rewrite outcome_bind. cbn [invoke outcome snd].
    destruct (script_address util C netcode) as [ca|] eqn:HC;
      [|discriminate].
    rewrite outcome_bind. cbn [invoke outcome snd].
    destruct (script_address util D netcode) as [da|] eqn:HD;
      [|discriminate].
    first_outcome E. intros _.
    apply is_send_tx_ok_inv in E
      as (src & dest & btc & fee & data & unpacked & Hpass).
    now exists ca, da, src, dest, btc, fee, data, unpacked.
  - intros (ca & da & src & dest & btc & fee & data & unpacked
            & HC & HD & Hpass).
    rewrite (is_commit_rawtx_outcome _ _ _ _ _ _ _ _ _ _ HC HD).
    now rewrite (is_send_tx_outcome _ _ _ _ _ _ _ _ _ _ _ _ _ Hpass).
Qed.

End MoreCommitRawtx.

(* ================================================================= *)
(** ** More on the schema *)

Module MoreSchemaFacts.
Import JsonSchema.

(** A pattern that starts with [^] matches at position 0 only. *)
Lemma search_from_bol (r : Re.regex) (s : string) :
  Re.search_from (Re.Cat Re.Bol r) false s = false.
Proof. induction s as [|c s IH]; cbn; [reflexivity | exact IH]. Qed.

Lemma re_search_bol (r : Re.regex) (s : string) :
  Re.re_search (Re.Cat Re.Bol r) s = Re.re_match (Re.Cat Re.Bol r) s.
Proof.
  unfold Re.re_search, Re.re_match.
  destruct s as [|c s]; cbn [Re.search_from].
  - apply orb_false_r.
  - now rewrite search_from_bol, orb_false_r.
Qed.

(** What the pattern of [_TYPE_HEX] admits: the same strings as the pattern
    of [is_hex]. *)
Lemma hex_pattern_language (s : string) :
  hex_pattern s = true
  <-> exists h, all_chars is_lower_hex_digit h = true
                /\ (s = h \/ s = (h ++ Re.nl)%string).
Proof.
  unfold hex_pattern, TYPE_HEX_RE. rewrite re_search_bol.
  rewrite ReFacts.re_match_iff, HexFacts.anchored_star_language.
  split; intros (h & Hh & Hs); exists h; split; try exact Hs.
  - rewrite <- Hh. symmetry. apply HexFacts.all_chars_ext.
    apply HexFacts.in_set_type_hex.
  - rewrite <- Hh. apply HexFacts.all_chars_ext.
    apply HexFacts.in_set_type_hex.
Qed.

Lemma is_valid_not_object pat props req addl items v :
  (forall d, v <> PDict d) ->
  is_valid (Schema (Some TObject) pat props req addl items) v = false.
Proof.
  intros H. destruct v; try reflexivity. now destruct (H d).
Qed.

Lemma is_valid_missing ty pat props req addl items d k :
  In k req ->
  dict_get k d = None ->
  is_valid (Schema ty pat props req addl items) (PDict d) = false.
Proof.
  intros Hk Hnone. cbn [is_valid].
  assert (E : forallb (fun k => dict_has k d) req = false).
  { apply not_true_is_false. intros H. rewrite forallb_forall in H.
    specialize (H k Hk). unfold dict_has in H. now rewrite Hnone in H. }
  rewrite E. now rewrite !andb_false_r.
Qed.

Lemma is_valid_additional ty pat props req items d k v :
  In (k, v) d ->
  ~ In k (map fst props) ->
  is_valid (Schema ty pat props req false items) (PDict d) = false.
Proof.
  intros Hin Hk. cbn [is_valid].
  assert (E : forallb (fun kv => existsb (String.eqb (fst kv))
                                         (map fst props)) d = false).
  { apply not_true_is_false. intros H. rewrite forallb_forall in H.
    specialize (H (k, v) Hin). cbn [fst] in H.
    apply existsb_exists in H as (k' & Hk' & E).
    apply String.eqb_eq in E. now subst. }
  rewrite E. cbn [orb]. now rewrite !andb_false_r.
Qed.

Lemma is_valid_property ty pat props req addl items d k sub v :
  In (k, sub) props ->
  dict_get k d = Some v ->
  is_valid sub v = false ->
  is_valid (Schema ty pat props req addl items) (PDict d) = false.
Proof.
  intros Hk Hget Hv. cbn [is_valid].
  assert (E : (fix each_property (ps : list (string * schema)) : bool :=
                 match ps with
                 | [] => true
                 | (k, sub) :: ps' =>
                     match dict_get k d with
                     | Some x => is_valid sub x
                     | None => true
                     end && each_property ps'
                 end) props = false).
  { induction props as [|[k' sub'] props IH]; [destruct Hk|].
    destruct Hk as [[= -> ->]|Hk].
    - now rewrite Hget, Hv.
    - rewrite (IH Hk). apply andb_false_r. }
  rewrite E. cbn [andb]. now rewrite !andb_false_r.
Qed.

End MoreSchemaFacts.

(* ================================================================= *)
(** ** More on [is_state] *)

Section MoreIsState.

Variable scripts : Scripts.
Variable util : Util.
Variable dispatcher : Dispatcher.
Variable netcode : string.

(** [is_state] on a [state_data] that does not pass the schema. *)
Lemma is_state_invalid state_data :
  JsonSchema.is_valid _STATE_SCHEMA state_data = false ->
  is_state scripts util dispatcher state_data netcode
  = ([], Raise ValidationError).
Proof.
  intros H. unfold is_state, JsonSchema.validate. now rewrite H.
Qed.

(** X21: [is_state] ends with the [ValidationError] of the schema, before
    anything else is looked at, for a [state_data] that is no object, that
    lacks one of the five fields, that has a field beyond the five, whose
    asset is no string, or whose deposit script is a string the hex pattern
    does not match. *)
Theorem is_state_malformed (state_data : pyval) :
  let fields := ["asset"; "deposit_script"; "commits_requested";
                 "commits_active"; "commits_revoked"] in
  ((forall d, state_data <> PDict d) ->
   is_state scripts util dispatcher state_data netcode
   = ([], Raise ValidationError))
  /\ (forall d k,
        state_data = PDict d -> In k fields -> dict_get k d = None ->
        is_state scripts util dispatcher state_data netcode
        = ([], Raise ValidationError))
  /\ (forall d k v,
        state_data = PDict d -> In (k, v) d -> ~ In k fields ->
        is_state scripts util dispatcher state_data netcode
        = ([], Raise ValidationError))
  /\ (forall d v,
        state_data = PDict d -> dict_get "asset" d = Some v ->
        (forall s, v <> PStr s) ->
        is_state scripts util dispatcher state_data netcode
        = ([], Raise ValidationError))
  /\ (forall d s,
        state_data = PDict d ->
        dict_get "deposit_script" d = Some (PStr s) ->
        hex_pattern s = false ->
        is_state scripts util dispatcher state_data netcode
        = ([], Raise ValidationError)).
Proof.
  intros fields. repeat split.
  - intros H. apply is_state_invalid.
    now apply MoreSchemaFacts.is_valid_not_object.
  - intros d k -> Hk Hnone. apply is_state_invalid.
    now apply (MoreSchemaFacts.is_valid_missing _ _ _ _ _ _ d k).
  - intros d k v -> Hin Hk. apply is_state_invalid.
    now apply (MoreSchemaFacts.is_valid_additional _ _ _ _ _ d k v).
  - intros d v -> Hget Hv. apply is_state_invalid.
    apply (MoreSchemaFacts.is_valid_property
             _ _ _ _ _ _ d "asset"
             (JsonSchema.Schema (Some JsonSchema.TString) None [] [] true
                                None) v).
    + now left.
    + exact Hget.
    + destruct v; try reflexivity. now destruct (Hv s).
  - intros d s -> Hget Hs. apply is_state_invalid.
    apply (MoreSchemaFacts.is_valid_property
             _ _ _ _ _ _ d "deposit_script" _TYPE_HEX (PStr s)).
    + right. now left.
    + exact Hget.
    + unfold hex_pattern in Hs. unfold _TYPE_HEX.
      cbn -[Re.re_search]. now rewrite Hs.
Qed.

(** X22: the schema asks of a channel state that the deposit script, the
    requested commits and both fields of every active and revoked entry are
    lowercase hex digits, possibly followed by one newline; it asks nothing
    of the asset and not for an even number of digits. *)
Theorem schema_of_channel_state (st : channel_state) :
  let hexish s :=
    exists h, all_chars is_lower_hex_digit h = true
              /\ (s = h \/ s = (h ++ Re.nl)%string) in
  well_formed st
  <-> hexish (deposit_script st)
      /\ Forall hexish (commits_requested st)
      /\ Forall (fun a => hexish (active_rawtx a) /\ hexish (active_script a))
                (commits_active st)
      /\ Forall (fun r => hexish (revoked_script r)
                          /\ hexish (revoke_secret r))
                (commits_revoked st).
Proof.
  intros hexish. unfold well_formed. rewrite is_valid_encode_state.
  rewrite !andb_true_iff, !forallb_forall, !Forall_forall.
  unfold hexish. split.
  - intros [[[Hd Hr] Ha] Hv]. repeat split.
    + now apply MoreSchemaFacts.hex_pattern_language.
    + intros s Hs. now apply MoreSchemaFacts.hex_pattern_language, Hr.
    + apply MoreSchemaFacts.hex_pattern_language.
      specialize (Ha x H). now apply andb_true_iff in Ha.
    + apply MoreSchemaFacts.hex_pattern_language.
      specialize (Ha x H). now apply andb_true_iff in Ha.
    + apply MoreSchemaFacts.hex_pattern_language.
      specialize (Hv x H). now apply andb_true_iff in Hv.
    + apply MoreSchemaFacts.hex_pattern_language.
      specialize (Hv x H). now apply andb_true_iff in Hv.
  - intros (Hd & Hr & Ha & Hv). repeat split.
    + now apply MoreSchemaFacts.hex_pattern_language.
    + intros s Hs. now apply MoreSchemaFacts.hex_pattern_language, Hr.
    + intros a Hin. destruct (Ha a Hin) as [H1 H2].
      apply andb_true_iff.
      split; now apply MoreSchemaFacts.hex_pattern_language.
    + intros r Hin. destruct (Hv r Hin) as [H1 H2].
      apply andb_true_iff.
      split; now apply MoreSchemaFacts.hex_pattern_language.
Qed.

End MoreIsState.

(** X23: the pattern of the schema, ["^[a-f0-9]*$"] under [re.search], and
    the pattern of [is_hex], ["^[0-9a-f]*$"] under [re.match], match the
    same strings: [is_hex] accepts a string exactly when the schema pattern
    matches it and its length is even. *)
Theorem is_hex_schema_pattern (s : string) :
  hex_pattern s = Re.re_match HEX_RE s
  /\ (outcome (is_hex (PStr s)) = Ok tt
      <-> hex_pattern s = true /\ Nat.even (String.length s) = true).
Proof.
  assert (E : hex_pattern s = Re.re_match HEX_RE s).
  { apply eq_true_iff_eq.
    rewrite MoreSchemaFacts.hex_pattern_language.
    rewrite ReFacts.re_match_iff.
    unfold HEX_RE. rewrite HexFacts.anchored_star_language.
    split; intros (h & Hh & Hs); exists h; split; try exact Hs.
    - rewrite <- Hh. apply HexFacts.all_chars_ext, HexFacts.in_set_hex.
    - rewrite <- Hh. symmetry.
      apply HexFacts.all_chars_ext, HexFacts.in_set_hex. }
  split; [exact E|].
  rewrite is_hex_string, E.
  destruct (Re.re_match HEX_RE s), (Nat.even (String.length s));
    cbn [andb]; intuition discriminate.
Qed.

Section FailingEntries.

Variable scripts : Scripts.
Variable util : Util.
Variable dispatcher : Dispatcher.
Variable netcode : string.

(** The first revoked entry whose checks raise decides. *)
Lemma is_state_revoked_raises st daddr h pre r post e :
  well_formed st ->
  NoDup (all_scripts st) ->
  asset_listed dispatcher (asset st) ->
  deposit_valid scripts util netcode (deposit_script st) daddr h ->
  commits_revoked st = pre ++ r :: post ->
  Forall (revoked_valid scripts util h) pre ->
  outcome (revoked_body scripts util h (encode_revoked r)) = Raise e ->
  outcome (is_state scripts util dispatcher (encode_state st) netcode)
  = Raise e.
Proof.
  intros Hwf Hnd Ha Hd Hsplit Hpre Hr.
  rewrite (is_state_after_deposit _ _ _ _ st daddr h Hwf Hnd Ha Hd).
  rewrite outcome_bind, Hsplit, for_each_map.
  rewrite (for_each_raises _ pre post r e); [reflexivity| |exact Hr].
  revert Hpre. apply Forall_impl. intros x. apply revoked_body_ok.
Qed.

(** The first active entry whose checks raise decides, when the revoked
    entries are fine. *)
Lemma is_state_active_raises st daddr h pre a post e :
  well_formed st ->
  NoDup (all_scripts st) ->
  asset_listed dispatcher (asset st) ->
  deposit_valid scripts util netcode (deposit_script st) daddr h ->
  Forall (revoked_valid scripts util h) (commits_revoked st) ->
  commits_active st = pre ++ a :: post ->
  Forall (active_valid scripts util dispatcher netcode (asset st) daddr h)
         pre ->
  outcome (active_body scripts util dispatcher (asset st) (deposit_script st)
                       h netcode (encode_active a)) = Raise e ->
  outcome (is_state scripts util dispatcher (encode_state st) netcode)
  = Raise e.
Proof.
  intros Hwf Hnd Ha Hd Hr Hsplit Hpre Hbody.
  rewrite (is_state_after_deposit _ _ _ _ st daddr h Hwf Hnd Ha Hd).
  rewrite outcome_bind, !for_each_map.
  assert (E : outcome
                (for_each (commits_revoked st)
                   (fun r => revoked_body scripts util h (encode_revoked r)))
              = Ok tt).
  { apply for_each_ok. revert Hr. apply Forall_impl.
    intros r. apply revoked_body_ok. }
  rewrite E, Hsplit. apply for_each_raises; [|exact Hbody].
  revert Hpre. apply Forall_impl. intros x.
  apply active_body_ok. apply Hd.
Qed.

(** The start of both loop bodies when the spend secret hash of the script
    is not the one of the deposit. *)
Lemma commit_checks_other_hash {A} (C h h' : string) (line : nat) (k : M A) :
  validate_commit_script scripts C = Ok tt ->
  get_commit_spend_secret_hash scripts C = Ok h' ->
  h' <> h ->
  outcome (invoke (Call_validate_commit_script C)
                  (validate_commit_script scripts C) ;;
           do spend_hash <- invoke (Call_get_commit_spend_secret_hash C)
                              (get_commit_spend_secret_hash scripts C);
           py_assert (String.eqb spend_hash h) line ;;
           k)
  = Raise (AssertionError line).
Proof.
  intros Hv Hh Hne.
  rewrite outcome_bind. cbn [invoke outcome snd]. rewrite Hv.
  rewrite outcome_bind. cbn [invoke outcome snd]. rewrite Hh.
  rewrite outcome_bind. unfold py_assert.
  destruct (String.eqb_spec h' h); [contradiction | reflexivity].
Qed.

(** X24: a commit script whose spend secret hash is not the one of the
    deposit script ends [is_state] with an [AssertionError] when the checks
    before it pass: the one of line 237 for a revoked entry, the one of line
    251 for an active entry. *)
Theorem is_state_spend_hash st daddr h :
  well_formed st ->
  NoDup (all_scripts st) ->
  asset_listed dispatcher (asset st) ->
  deposit_valid scripts util netcode (deposit_script st) daddr h ->
  (forall pre r post h',
      commits_revoked st = pre ++ r :: post ->
      Forall (revoked_valid scripts util h) pre ->
      validate_commit_script scripts (revoked_script r) = Ok tt ->
      get_commit_spend_secret_hash scripts (revoked_script r) = Ok h' ->
      h' <> h ->
      outcome (is_state scripts util dispatcher (encode_state st) netcode)
      = Raise (AssertionError 237))
  /\ (forall pre a post h',
        Forall (revoked_valid scripts util h) (commits_revoked st) ->
        commits_active st = pre ++ a :: post ->
        Forall (active_valid scripts util dispatcher netcode (asset st)
                             daddr h) pre ->
        validate_commit_script scripts (active_script a) = Ok tt ->
        get_commit_spend_secret_hash scripts (active_script a) = Ok h' ->
        h' <> h ->
        outcome (is_state scripts util dispatcher (encode_state st) netcode)
        = Raise (AssertionError 251)).
Proof.
  intros Hwf Hnd Ha Hd. split.
  - intros pre r post h' Hsplit Hpre Hv Hh Hne.
    apply (is_state_revoked_raises st daddr h pre r post); try assumption.
    rewrite revoked_body_encode.
    now apply (commit_checks_other_hash _ h h').
  - intros pre a post h' Hr Hsplit Hpre Hv Hh Hne.
    apply (is_state_active_raises st daddr h pre a post); try assumption.
    rewrite active_body_encode.
    now apply (commit_checks_other_hash _ h h').
Qed.

(** X25: an active entry whose rawtx does not come from the address of the
    deposit script ends [is_state] with [SourceMissmatch (deposit address,
    found)], and one whose rawtx goes from the deposit address to the commit
    address with another asset than the one of the state with
    [AssetMissmatch (asset, found)], when the checks before it pass. *)
Theorem is_state_active_rawtx st daddr h pre a post ca
        src dest btc fee data unpacked :
  well_formed st ->
  NoDup (all_scripts st) ->
  asset_listed dispatcher (asset st) ->
  deposit_valid scripts util netcode (deposit_script st) daddr h ->
  Forall (revoked_valid scripts util h) (commits_revoked st) ->
  commits_active st = pre ++ a :: post ->
  Forall (active_valid scripts util dispatcher netcode (asset st) daddr h)
         pre ->
  commit_valid scripts h (active_script a) ->
  script_address util (active_script a) netcode = Ok ca ->
  get_tx_info dispatcher (active_rawtx a)
  = Ok (src, dest, btc, fee, Some data) ->
  data <> "" ->
  unpack dispatcher data = Ok (0%Z, unpacked) ->
  (src <> daddr ->
   outcome (is_state scripts util dispatcher (encode_state st) netcode)
   = Raise (SourceMissmatch daddr src))
  /\ (forall found,
        src = daddr -> dest = ca ->
        dict_get "asset" unpacked = Some found ->
        found <> PStr (asset st) ->
        outcome (is_state scripts util dispatcher (encode_state st) netcode)
        = Raise (AssetMissmatch (asset st) found)).
Proof.
  intros Hwf Hnd Ha Hd Hr Hsplit Hpre Hc HC Hinfo Hdata Hun.
  assert (Hbody : forall e,
             outcome (is_send_tx util dispatcher (active_rawtx a)
                                 (Some (asset st)) (Some daddr) (Some ca)
                                 false) = Raise e ->
             outcome (is_state scripts util dispatcher (encode_state st)
                               netcode) = Raise e).
  { intros e He.
    apply (is_state_active_raises st daddr h pre a post); try assumption.
    rewrite active_body_encode, (commit_checks _ _ _ _ _ Hc).
    rewrite (is_commit_rawtx_outcome _ _ _ _ _ _ _ _ _ _ HC (proj1 Hd)).
    now rewrite He. }
  split.
  - intros Hne. apply Hbody. unfold is_send_tx.
    rewrite Hinfo, bind_invoke_ok.
    destruct data as [|c data]; [now destruct Hdata|].
    rewrite Hun, bind_invoke_ok. cbn [calls outcome fst snd].
    cbn [py_assert Z.eqb]. rewrite bind_ret_l, outcome_bind.
    destruct (String.eqb_spec daddr src); [now subst | reflexivity].
  - intros found -> -> Hfound Hne. apply Hbody.
    rewrite (is_send_tx_from_asset util dispatcher _ _ _ _ _ _ _ _ _ _ _
               Hinfo Hdata Hun);
      [|now intros e [= <-] | now intros e [= <-]].
    cbn [outcome snd]. rewrite outcome_bind. unfold getitem.
    rewrite Hfound, bind_ret_l. now rewrite (str_ne_true _ _ Hne).
Qed.

(** X26: [is_state] accepts a channel state exactly when it is well
    formed, its scripts are pairwise distinct, the dispatcher lists its
    asset, its deposit script is valid, every revoked entry has a valid
    commit script with the spend secret hash of the deposit and a revoke
    secret that hashes to the revoke secret hash of its script, and every
    active entry has such a commit script and a rawtx that is a send of the
    asset from the deposit address to the address of its script. *)
Theorem is_state_accepts_iff st :
  outcome (is_state scripts util dispatcher (encode_state st) netcode)
  = Ok tt
  <-> well_formed st
      /\ NoDup (all_scripts st)
      /\ asset_listed dispatcher (asset st)
      /\ exists daddr h,
          deposit_valid scripts util netcode (deposit_script st) daddr h
          /\ Forall (revoked_valid scripts util h) (commits_revoked st)
          /\ Forall (active_valid scripts util dispatcher netcode (asset st)
                                  daddr h) (commits_active st).
Proof. apply is_state_ok_iff. Qed.

End FailingEntries.

(** X27: [is_asset] returns exactly for a string that is the name of an
    entry of [get_assets]; a value that is no string raises [InvalidString]
    and the dispatcher is not asked, a string that is not listed raises
    [AssetDoesNotExist], and an exception of [get_assets] comes through. *)
Theorem is_asset_iff (dispatcher : Dispatcher) (asset : pyval) :
  (outcome (is_asset dispatcher asset) = Ok tt
   <-> exists s, asset = PStr s /\ asset_listed dispatcher s)
  /\ ((forall s, asset <> PStr s) ->
      is_asset dispatcher asset = ([], Raise (InvalidString asset)))
  /\ (forall s entries,
        asset = PStr s ->
        get_assets dispatcher = Ok entries ->
        ~ In s (map asset_name entries) ->
        is_asset dispatcher asset
        = ([Call_get_assets], Raise (AssetDoesNotExist asset)))
  /\ (forall s e,
        asset = PStr s ->
        get_assets dispatcher = Raise e ->
        is_asset dispatcher asset = ([Call_get_assets], Raise e)).
Proof.
  split; [|split; [|split]].
  - split.
    + destruct asset as [| | |s| |]; try discriminate.
      intros H. exists s. split; [reflexivity|]. now apply is_asset_ok.
    + intros (s & -> & H). now apply is_asset_ok.
  - intros H. destruct asset; try reflexivity. now destruct (H s).
  - intros s entries -> Hget Hnot. unfold is_asset. cbn [is_string].
    rewrite bind_ret_l, Hget, bind_invoke_ok. cbn [py_in].
    destruct (existsb (String.eqb s) (map asset_name entries)) eqn:E;
      [|reflexivity].
    apply existsb_exists in E as (x & Hin & Hx).
    apply String.eqb_eq in Hx. now subst.
  - intros s e -> Hget. unfold is_asset. cbn [is_string].
    now rewrite bind_ret_l, Hget.
Qed.

Lemma is_state_malformed_witness :
  is_state Fixture.scripts Fixture.util Fixture.dispatcher (PList [])
           Fixture.NETCODE
  = ([], Raise ValidationError)
  /\ is_state Fixture.scripts Fixture.util Fixture.dispatcher
              (PDict [("asset", PStr "XCP")]) Fixture.NETCODE
     = ([], Raise ValidationError)
  /\ is_state Fixture.scripts Fixture.util Fixture.dispatcher
              (PDict [("asset", PStr "XCP"); ("deposit_script", PStr "dd");
                      ("commits_requested", PList []);
                      ("commits_active", PList []);
                      ("commits_revoked", PList []);
                      ("memo", PStr "hi")])
              Fixture.NETCODE
     = ([], Raise ValidationError).
Proof.
  split; [|split].
  - apply (proj1 (is_state_malformed Fixture.scripts Fixture.util
                    Fixture.dispatcher Fixture.NETCODE (PList []))).
    intros d. discriminate.
  - apply (proj1 (proj2 (is_state_malformed Fixture.scripts Fixture.util
                           Fixture.dispatcher Fixture.NETCODE
                           (PDict [("asset", PStr "XCP")])))
             [("asset", PStr "XCP")] "deposit_script").
    + reflexivity.
    + simpl. auto.
    + reflexivity.
  - apply (proj1 (proj2 (proj2 (is_state_malformed
                                  Fixture.scripts Fixture.util
                                  Fixture.dispatcher Fixture.NETCODE
                                  (PDict [("asset", PStr "XCP");
                                          ("deposit_script", PStr "dd");
                                          ("commits_requested", PList []);
                                          ("commits_active", PList []);
                                          ("commits_revoked", PList []);
                                          ("memo", PStr "hi")]))))
             [("asset", PStr "XCP"); ("deposit_script", PStr "dd");
              ("commits_requested", PList []); ("commits_active", PList []);
              ("commits_revoked", PList []); ("memo", PStr "hi")]
             "memo" (PStr "hi")).
    + reflexivity.
    + simpl. auto 10.
    + simpl. intuition discriminate.
Defined.

Lemma is_state_spend_hash_witness :
  outcome (is_state Fixture.scripts Fixture.util Fixture.dispatcher
                    (encode_state Strangers.other_hash_revoked)
                    Fixture.NETCODE)
  = Raise (AssertionError 237)
  /\ outcome (is_state Fixture.scripts Fixture.util Fixture.dispatcher
                       (encode_state Strangers.other_hash_active)
                       Fixture.NETCODE)
     = Raise (AssertionError 251).
Proof.
  assert (Hassets : asset_listed Fixture.dispatcher "XCP").
  { exists [ {| asset_name := "BTC" |}; {| asset_name := "XCP" |} ].
    split; [reflexivity | simpl; auto]. }
  split.
  - apply (proj1 (is_state_spend_hash Fixture.scripts Fixture.util
                    Fixture.dispatcher Fixture.NETCODE
                    Strangers.other_hash_revoked "XTN:dd" "5e"
                    eq_refl
                    ltac:(repeat constructor; simpl; intuition discriminate)
                    Hassets ltac:(repeat split))
             [] {| revoked_script := "c9"; revoke_secret := "c9" |} []
             "66").
    + reflexivity.
    + constructor.
    + reflexivity.
    + reflexivity.
    + discriminate.
  - apply (proj2 (is_state_spend_hash Fixture.scripts Fixture.util
                    Fixture.dispatcher Fixture.NETCODE
                    Strangers.other_hash_active "XTN:dd" "5e"
                    eq_refl
                    ltac:(repeat constructor; simpl; intuition discriminate)
                    Hassets ltac:(repeat split))
             [] {| active_rawtx := "a1"; active_script := "c9" |} []
             "66").
    + constructor.
    + reflexivity.
    + constructor.
    + reflexivity.
    + reflexivity.
    + discriminate.
Defined.

Lemma is_state_active_rawtx_witness :
  outcome (is_state Fixture.scripts Fixture.util Strangers.dispatcher
                    (encode_state Strangers.other_source) Fixture.NETCODE)
  = Raise (SourceMissmatch "XTN:dd" "XTN:zz")
  /\ outcome (is_state Fixture.scripts Fixture.util Fixture.dispatcher
                       (encode_state Strangers.other_asset) Fixture.NETCODE)
     = Raise (AssetMissmatch "BTC" (PStr "XCP")).
Proof.
  split.
  - apply (proj1 (is_state_active_rawtx
                    Fixture.scripts Fixture.util Strangers.dispatcher
                    Fixture.NETCODE Strangers.other_source "XTN:dd" "5e"
                    [] {| active_rawtx := "a6"; active_script := "c8" |} []
                    "XTN:c8" "XTN:zz" "XTN:c8" 0%Z 10000%Z "00"
                    [("asset", PStr "XCP")]
                    eq_refl
                    ltac:(repeat constructor; simpl; intuition discriminate)
                    ltac:(exists [ {| asset_name := "XCP" |} ];
                          split; [reflexivity | simpl; auto])
                    ltac:(repeat split)
                    ltac:(constructor) eq_refl ltac:(constructor)
                    ltac:(split; reflexivity) eq_refl eq_refl
                    ltac:(discriminate) eq_refl)).
    discriminate.
  - apply (proj2 (is_state_active_rawtx
                    Fixture.scripts Fixture.util Fixture.dispatcher
                    Fixture.NETCODE Strangers.other_asset "XTN:dd" "5e"
                    [] {| active_rawtx := "a1"; active_script := "c1" |} []
                    "XTN:c1" "XTN:dd" "XTN:c1" 0%Z 10000%Z "00"
                    Fixture.send_payload
                    eq_refl
                    ltac:(repeat constructor; simpl; intuition discriminate)
                    ltac:(exists [ {| asset_name := "BTC" |};
                                   {| asset_name := "XCP" |} ];
                          split; [reflexivity | simpl; auto])
                    ltac:(repeat split)
                    ltac:(constructor) eq_refl ltac:(constructor)
                    ltac:(split; reflexivity) eq_refl eq_refl
                    ltac:(discriminate) eq_refl)
             (PStr "XCP")).
    + reflexivity.
    + reflexivity.
    + reflexivity.
    + discriminate.
Defined.

Lemma is_asset_iff_witness :
  is_asset Fixture.dispatcher (PInt 7) = ([], Raise (InvalidString (PInt 7)))
  /\ is_asset Fixture.dispatcher (PStr "NOPE")
     = ([Call_get_assets], Raise (AssetDoesNotExist (PStr "NOPE"))).
Proof.
  split.
  - apply (proj1 (proj2 (is_asset_iff Fixture.dispatcher (PInt 7)))).
    intros s. discriminate.
  - apply (proj1 (proj2 (proj2 (is_asset_iff Fixture.dispatcher
                                  (PStr "NOPE"))))
             "NOPE"
             [ {| asset_name := "BTC" |}; {| asset_name := "XCP" |} ]).
    + reflexivity.
    + reflexivity.
    + simpl. intuition discriminate.
Defined.

(* ================================================================= *)
(** ** The calls of an accepted state *)

Lemma for_each_pair {A} (body : A -> M unit) (c : A -> list call)
      (l : list A) :
  Forall (fun x => body x = (c x, Ok tt)) l ->
  for_each l body = (flat_map c l, Ok tt).
Proof.
  induction 1 as [|x l Hx _ IH]; [reflexivity|].
  cbn [for_each flat_map]. rewrite Hx, IH. reflexivity.
Qed.

Section AcceptedCalls.

Variable scripts : Scripts.
Variable util : Util.
Variable dispatcher : Dispatcher.
Variable netcode : string.

Lemma revoked_body_pair h r :
  revoked_valid scripts util h r ->
  revoked_body scripts util h (encode_revoked r)
  = (revoked_calls r, Ok tt).
Proof.
  intros [[Hv Hh] (rh & Hrh & Hsh)]. rewrite revoked_body_encode.
  rewrite Hv, bind_invoke_ok, Hh, bind_invoke_ok.
  cbn [calls outcome fst snd]. rewrite String.eqb_refl.
  cbn [py_assert]. rewrite bind_ret_l, Hrh, bind_invoke_ok, Hsh,
    bind_invoke_ok.
  cbn [calls outcome fst snd]. now rewrite String.eqb_refl.
Qed.

Lemma active_body_pair a D daddr h e :
  script_address util D netcode = Ok daddr ->
  active_valid scripts util dispatcher netcode a daddr h e ->
  active_body scripts util dispatcher a D h netcode (encode_active e)
  = (active_calls dispatcher D netcode e, Ok tt).
Proof.
  intros HD [[Hv Hh] (ca & HC & btc & fee & data & unpacked
                      & Hinfo & Hdata & Hun & Hasset)].
  rewrite active_body_encode.
  rewrite Hv, bind_invoke_ok, Hh, bind_invoke_ok.
  cbn [calls outcome fst snd]. rewrite String.eqb_refl.
  cbn [py_assert]. rewrite bind_ret_l.
  unfold is_commit_rawtx, script_address_.
  rewrite HC, bind_invoke_ok, HD, bind_invoke_ok.
  cbn [calls outcome fst snd].
  rewrite (is_send_tx_from_asset util dispatcher _ _ _ _ _ _ _ _ _ _ _
             Hinfo Hdata Hun);
    [|now intros x [= <-] | now intros x [= <-]].
  unfold getitem. rewrite Hasset, !bind_ret_l.
  unfold str_ne. rewrite String.eqb_refl. cbn [negb]. rewrite !bind_ret_l.
  unfold active_calls, payload_of. rewrite Hinfo. reflexivity.
Qed.

(** X28: an accepted channel state has cost one call of [get_assets], three
    calls for the deposit script, four for every revoked entry and six for
    every active entry, in this order; the address of the deposit script is
    derived again for every active entry. *)
Theorem is_state_accepted_calls st :
  outcome (is_state scripts util dispatcher (encode_state st) netcode)
  = Ok tt ->
  calls (is_state scripts util dispatcher (encode_state st) netcode)
  = accepted_calls dispatcher netcode st
  /\ List.length
       (calls (is_state scripts util dispatcher (encode_state st) netcode))
     = 4 + 4 * List.length (commits_revoked st)
       + 6 * List.length (commits_active st).
Proof.
  intros Hok.
  assert (E : calls (is_state scripts util dispatcher (encode_state st)
                              netcode)
              = accepted_calls dispatcher netcode st).
  { apply is_state_ok_iff in Hok
      as (Hwf & Hnd & Ha & daddr & h & (Haddr & Hh & Hv) & Hr & Hact).
    rewrite is_state_encode. unfold JsonSchema.validate.
    unfold well_formed in Hwf. rewrite Hwf, bind_ret_l.
    apply len_eq_set_len_NoDup in Hnd. rewrite Hnd.
    cbn [py_assert]. rewrite bind_ret_l.
    destruct Ha as (entries & Hget & Hin).
    unfold is_asset. cbn [is_string]. rewrite bind_ret_l, bind_assoc.
    rewrite Hget, bind_invoke_ok. cbn [py_in].
    assert (Hex : existsb (String.eqb (asset st)) (map asset_name entries)
                  = true).
    { apply existsb_exists. exists (asset st).
      split; [exact Hin | apply String.eqb_refl]. }
    rewrite Hex. cbn [negb]. rewrite bind_ret_l.
    unfold script_address_.
    rewrite Haddr, bind_invoke_ok, Hh, bind_invoke_ok, Hv, bind_invoke_ok.
    rewrite !for_each_map.
    rewrite (for_each_pair _ revoked_calls).
    2:{ revert Hr. apply Forall_impl. intros r.
        apply revoked_body_pair. }
    rewrite (for_each_pair _ (active_calls dispatcher (deposit_script st)
                                           netcode)).
    2:{ revert Hact. apply Forall_impl. intros e.
        now apply active_body_pair. }
    reflexivity. }
  split; [exact E|]. rewrite E. unfold accepted_calls.
  rewrite !length_app. cbn [List.length].
  assert (L4 : forall l, List.length (flat_map revoked_calls l)
                         = 4 * List.length l).
  { induction l as [|x l IH]; [reflexivity|].
    cbn [flat_map]. rewrite length_app, IH. cbn [List.length revoked_calls].
    lia. }
  assert (L6 : forall l,
             List.length
               (flat_map (active_calls dispatcher (deposit_script st)
                                       netcode) l)
             = 6 * List.length l).
  { induction l as [|x l IH]; [reflexivity|].
    cbn [flat_map]. rewrite length_app, IH. cbn [List.length active_calls].
    lia. }
  rewrite L4, L6. lia.
Qed.

End AcceptedCalls.

Lemma is_state_accepted_calls_witness :
  calls (is_state Fixture.scripts Fixture.util Fixture.dispatcher
                  (encode_state Fixture.consistent) Fixture.NETCODE)
  = [ Call_get_assets; Call_script_address "dd" "XTN";
      Call_get_deposit_spend_secret_hash "dd";
      Call_validate_deposit_script "dd";
      Call_validate_commit_script "c2";
      Call_get_commit_spend_secret_hash "c2";
      Call_get_commit_revoke_secret_hash "c2"; Call_hash160hex "c2";
      Call_validate_commit_script "c1";
      Call_get_commit_spend_secret_hash "c1";
      Call_script_address "c1" "XTN"; Call_script_address "dd" "XTN";
      Call_get_tx_info "a1"; Call_unpack "00" ].
Proof.
  apply (proj1 (is_state_accepted_calls Fixture.scripts Fixture.util
                  Fixture.dispatcher Fixture.NETCODE Fixture.consistent
                  eq_refl)).
Defined.

(* ================================================================= *)
(** ** The deposit script in [is_state], and the reads of [state_data] *)

Section DepositFirst.

Variable scripts : Scripts.
Variable util : Util.
Variable dispatcher : Dispatcher.
Variable netcode : string.

(** X29: [is_state] derives the address of the deposit script and reads its
    spend secret hash before it validates it.  For a well-formed state with
    distinct scripts and a listed asset, an exception of
    [util.script_address] ends [is_state] after two calls, one of
    [get_deposit_spend_secret_hash] after three, and one of
    [validate_deposit_script] after four; no commit has been looked at. *)
Theorem is_state_deposit_order st e :
  well_formed st ->
  NoDup (all_scripts st) ->
  asset_listed dispatcher (asset st) ->
  let D := deposit_script st in
  (script_address util D netcode = Raise e ->
   is_state scripts util dispatcher (encode_state st) netcode
   = ([Call_get_assets; Call_script_address D netcode], Raise e))
  /\ (forall daddr,
        script_address util D netcode = Ok daddr ->
        get_deposit_spend_secret_hash scripts D = Raise e ->
        is_state scripts util dispatcher (encode_state st) netcode
        = ([Call_get_assets; Call_script_address D netcode;
            Call_get_deposit_spend_secret_hash D], Raise e))
  /\ (forall daddr h,
        script_address util D netcode = Ok daddr ->
        get_deposit_spend_secret_hash scripts D = Ok h ->
        validate_deposit_script scripts D = Raise e ->
        is_state scripts util dispatcher (encode_state st) netcode
        = ([Call_get_assets; Call_script_address D netcode;
            Call_get_deposit_spend_secret_hash D;
            Call_validate_deposit_script D], Raise e)).
Proof.
  intros Hwf Hnd Ha D.
  assert (Hstart : forall k : M unit,
             (JsonSchema.validate (encode_state st) _STATE_SCHEMA ;;
              py_assert (len_eq_set_len (all_scripts st)) 218 ;;
              is_asset dispatcher (PStr (asset st)) ;;
              k)
             = (Call_get_assets :: calls k, outcome k)).
  { intros k. unfold JsonSchema.validate.
    unfold well_formed in Hwf. rewrite Hwf, bind_ret_l.
    apply len_eq_set_len_NoDup in Hnd. rewrite Hnd.
    cbn [py_assert]. rewrite bind_ret_l.
    destruct Ha as (entries & Hget & Hin).
    unfold is_asset. cbn [is_string]. rewrite bind_ret_l, bind_assoc.
    rewrite Hget, bind_invoke_ok. cbn [py_in].
    assert (Hex : existsb (String.eqb (asset st)) (map asset_name entries)
                  = true).
    { apply existsb_exists. exists (asset st).
      split; [exact Hin | apply String.eqb_refl]. }
    rewrite Hex. cbn [negb]. now rewrite bind_ret_l. }
  rewrite is_state_encode, Hstart. unfold script_address_. fold D.
  split; [|split].
  - now intros ->.
  - intros daddr -> Hh. rewrite bind_invoke_ok, Hh. reflexivity.
  - intros daddr h -> Hh Hv.
    rewrite bind_invoke_ok, Hh, bind_invoke_ok, Hv. reflexivity.
Qed.

(** X30: [is_state] reads a [state_data] that passes the schema through
    the values of its five fields and of the two fields of every entry
    only: two such objects with the same values, whatever the order of their
    keys, are checked the same way. *)
Theorem is_state_reads_fields (state_data1 state_data2 : pyval) :
  JsonSchema.is_valid _STATE_SCHEMA state_data1 = true ->
  JsonSchema.is_valid _STATE_SCHEMA state_data2 = true ->
  decode_state state_data1 = decode_state state_data2 ->
  is_state scripts util dispatcher state_data1 netcode
  = is_state scripts util dispatcher state_data2 netcode.
Proof.
  intros H1 H2 E.
  rewrite (proj2 (is_state_decode scripts util dispatcher netcode _ H1)).
  rewrite (proj2 (is_state_decode scripts util dispatcher netcode _ H2)).
  now rewrite E.
Qed.

End DepositFirst.

Lemma is_state_deposit_order_witness :
  is_state Fixture.scripts Strangers.util Fixture.dispatcher
           (encode_state Strangers.other_deposit) Fixture.NETCODE
  = ([Call_get_assets; Call_script_address "ee" "XTN"],
     Raise (Foreign "InvalidScript"))
  /\ is_state Fixture.scripts Fixture.util Fixture.dispatcher
              (encode_state Strangers.other_deposit) Fixture.NETCODE
     = ([Call_get_assets; Call_script_address "ee" "XTN";
         Call_get_deposit_spend_secret_hash "ee";
         Call_validate_deposit_script "ee"],
        Raise (Foreign "InvalidScript")).
Proof.
  assert (Hassets : asset_listed Fixture.dispatcher "XCP").
  { exists [ {| asset_name := "BTC" |}; {| asset_name := "XCP" |} ].
    split; [reflexivity | simpl; auto]. }
  split.
  - apply (proj1 (is_state_deposit_order
                    Fixture.scripts Strangers.util Fixture.dispatcher
                    Fixture.NETCODE Strangers.other_deposit
                    (Foreign "InvalidScript")
                    eq_refl ltac:(constructor) Hassets)).
    reflexivity.
  - apply (proj2 (proj2 (is_state_deposit_order
                           Fixture.scripts Fixture.util Fixture.dispatcher
                           Fixture.NETCODE Strangers.other_deposit
                           (Foreign "InvalidScript")
                           eq_refl ltac:(constructor) Hassets))
             "XTN:ee" "5e").
    + reflexivity.
    + reflexivity.
    + reflexivity.
Defined.

Lemma is_state_reads_fields_witness :
  is_state Fixture.scripts Fixture.util Fixture.dispatcher
           (PDict [("commits_revoked", PList []);
                   ("commits_active", PList []);
                   ("commits_requested", PList []);
                   ("deposit_script", PStr "dd");
                   ("asset", PStr "XCP")])
           Fixture.NETCODE
  = is_state Fixture.scripts Fixture.util Fixture.dispatcher
             (PDict [("asset", PStr "XCP");
                     ("deposit_script", PStr "dd");
                     ("commits_requested", PList []);
                     ("commits_active", PList []);
                     ("commits_revoked", PList [])])
             Fixture.NETCODE.
Proof.
  apply (is_state_reads_fields Fixture.scripts Fixture.util
           Fixture.dispatcher Fixture.NETCODE).
  - reflexivity.
  - reflexivity.
  - reflexivity.
Defined.
